(** * Datamanage commands, importer and current-user API of Superset:
      a shallow embedding and its verified properties.

    The development follows the Python sources file by file:
    - [superset/datamanage/commands/importers/v1/utils.py]
    - [superset/datamanage/commands/update.py]
    - [superset/datamanage/commands/delete.py]
    - [superset/datamanage/commands/export.py]
    - [superset/views/users/api.py]

    Python values are an inductive type, dictionaries keep their insertion
    order, raised exceptions are the [Raise] branch of a result type, and
    the database session is an explicit state. *)

From Stdlib Require Import ZArith NArith Ascii String List Bool Lia DecimalString DecimalPos DecimalN.
From stdpp Require Import base option list strings gmap.

Set Warnings "-register-all".

Local Open Scope string_scope.
Local Open Scope list_scope.

(** ** Python values

    [VObj] is a reference to an application object that is none of the
    built-in kinds (a mapped row such as a user, a [datetime], ...). *)

Inductive value : Type :=
| VNone
| VBool (b : bool)
| VInt (z : Z)
| VStr (s : string)
| VList (l : list value)
| VDict (d : list (string * value))
| VObj (ref : Z).

(** A [dict] with string keys, in insertion order. *)
Abbreviation dict := (list (string * value)).

(** [bool(v)] *)
Definition truthy (v : value) : bool :=
  match v with
  | VNone => false
  | VBool b => b
  | VInt z => negb (z =? 0)%Z
  | VStr s => negb (String.eqb s EmptyString)
  | VList l => match l with [] => false | _ => true end
  | VDict d => match d with [] => false | _ => true end
  | VObj _ => true
  end.

(** [d.get(k)]: [None] stands for an absent key. *)
Fixpoint dict_lookup (k : string) (d : dict) : option value :=
  match d with
  | [] => None
  | (k', v) :: d' => if String.eqb k k' then Some v else dict_lookup k d'
  end.

(** [d.get(k)] as Python returns it: an absent key reads as [None]. *)
Definition dict_get (k : string) (d : dict) : value :=
  default VNone (dict_lookup k d).

(** [d.get(k, dflt)] *)
Definition dict_get_default (k : string) (dflt : value) (d : dict) : value :=
  default dflt (dict_lookup k d).

(** [d[k] = v]: replaces in place, appends a new key at the end. *)
Fixpoint dict_set (k : string) (v : value) (d : dict) : dict :=
  match d with
  | [] => [(k, v)]
  | (k', v') :: d' =>
      if String.eqb k k' then (k, v) :: d' else (k', v') :: dict_set k v d'
  end.

(** ** Exceptions and results *)

Inductive validation_error : Type :=
| DatamanageExistsValidationError (table_name : value)
| DatabaseChangeValidationError
| OwnersValidationError
| DatamanageColumnsDuplicateValidationError
| DatamanageColumnNotFoundValidationError
| DatamanageColumnsExistsValidationError
| DatamanageMetricsDuplicateValidationError
| DatamanageMetricsNotFoundValidationError
| DatamanageMetricsExistsValidationError.

Inductive exn : Type :=
| KeyError (k : string)
| TypeError
| ValueError
| AttributeError
| Exception (msg : string)
| SQLAlchemyError
| DAODeleteFailedError
| DAOUpdateFailedError
| MultipleResultsFound
| NoResultFound
| SupersetSecurityException
| NoAuthorizationError
| JSONDecodeError
| DatamanageNotFoundError
| DatamanageForbiddenError
| DatamanageDeleteFailedError
| DatamanageUpdateFailedError
| DatamanageInvalidError (errors : list validation_error).

Inductive result (A : Type) : Type :=
| Ok (a : A)
| Raise (e : exn).
Arguments Ok {A} a.
Arguments Raise {A} e.

Definition bind {A B} (r : result A) (f : A -> result B) : result B :=
  match r with
  | Ok a => f a
  | Raise e => Raise e
  end.

Notation "x <~ r ;; k" := (bind r (fun x => k))
  (at level 100, r at next level, right associativity).


Fixpoint mapM {A B} (f : A -> result B) (l : list A) : result (list B) :=
  match l with
  | [] => Ok []
  | a :: l' => b <~ f a ;; bs <~ mapM f l' ;; Ok (b :: bs)
  end.

(** [for x in v] over a payload value: a list hands out its elements, a
    string its characters, a dictionary its keys; the other kinds are not
    iterable. *)
Fixpoint chars (s : string) : list value :=
  match s with
  | EmptyString => []
  | String c s' => VStr (String c EmptyString) :: chars s'
  end.

Definition iter_values (v : value) : result (list value) :=
  match v with
  | VList l => Ok l
  | VStr s => Ok (chars s)
  | VDict d => Ok (map (fun kv => VStr (fst kv)) d)
  | _ => Raise TypeError
  end.

(** [item[key]] with a string key: defined on dictionaries only. *)
Definition subscript (item : value) (key : string) : result value :=
  match item with
  | VDict d =>
      match dict_lookup key d with
      | Some v => Ok v
      | None => Raise (KeyError key)
      end
  | _ => Raise TypeError
  end.

(** Values that can be dictionary keys, and [==] between them
    ([True == 1] and [False == 0] hold in Python). *)
Definition hashable (v : value) : bool :=
  match v with
  | VList _ | VDict _ => false
  | _ => true
  end.

Definition py_eqb (a b : value) : bool :=
  match a, b with
  | VNone, VNone => true
  | VBool x, VBool y => Bool.eqb x y
  | VBool x, VInt y | VInt y, VBool x => (Z.b2z x =? y)%Z
  | VInt x, VInt y => (x =? y)%Z
  | VStr x, VStr y => String.eqb x y
  | VObj x, VObj y => (x =? y)%Z
  | _, _ => false
  end.

(** [sub in s] for two strings. *)
Fixpoint is_substring (sub s : string) : bool :=
  String.prefix sub s ||
  match s with
  | EmptyString => false
  | String _ s' => is_substring sub s'
  end.

(** [key in item]: a key of a dictionary, a part of a string, an element
    of a list. *)
Definition contains_key (key : string) (item : value) : result bool :=
  match item with
  | VDict d => Ok (bool_decide (is_Some (dict_lookup key d)))
  | VStr s => Ok (is_substring key s)
  | VList l => Ok (existsb (py_eqb (VStr key)) l)
  | _ => Raise TypeError
  end.

(** ** The data model: users, databases, datasets *)

Module User.
Record t : Type := { id : Z; username : string; is_anonymous : bool }.
End User.

(** What reading [flask.g.user] gives in the current request. *)
Inductive g_user : Type :=
| GMissing
| GNone
| GUser (u : User.t)
| GNoAuthorization.

Module Database.
Record t : Type := {
  id : Z;
  database_name : string;
  uuid : string;
  sqlalchemy_uri : string;
  (** The tables the engine reports; [None] when inspecting the engine
      raises. *)
  table_names : option (list string);
  fields : dict
}.

Definition has_table_by_name (d : t) (name : value) : result bool :=
  match table_names d with
  | Some ts => Ok (existsb (fun t => py_eqb (VStr t) name) ts)
  | None => Raise (Exception "inspection failed")
  end.
End Database.

Module SqlaTable.
Record t : Type := {
  id : option Z;
  database : Database.t;
  (** The mapped attributes by name, [uuid], [table_name] and [schema]
      among them. *)
  fields : dict;
  columns : list dict;
  metrics : list dict;
  owners : list User.t
}.

Definition database_id (m : t) : Z := Database.id (database m).
Definition uuid (m : t) : value := dict_get "uuid" (fields m).
Definition table_name (m : t) : value := dict_get "table_name" (fields m).
Definition schema (m : t) : value := dict_get "schema" (fields m).

Definition set_fields (m : t) (f : dict) : t :=
  {| id := id m; database := database m; fields := f;
     columns := columns m; metrics := metrics m; owners := owners m |}.
Definition set_children (m : t) (cols mets : list dict) : t :=
  {| id := id m; database := database m; fields := fields m;
     columns := cols; metrics := mets; owners := owners m |}.
Definition set_id (m : t) (i : option Z) : t :=
  {| id := i; database := database m; fields := fields m;
     columns := columns m; metrics := metrics m; owners := owners m |}.
Definition set_owners (m : t) (os : list User.t) : t :=
  {| id := id m; database := database m; fields := fields m;
     columns := columns m; metrics := metrics m; owners := os |}.
End SqlaTable.

(** ** The mapper session

    [pending] is what the session sees (the stored rows plus the changes
    not yet committed), [committed] is what the database holds. *)

Record Session : Type := {
  committed : list SqlaTable.t;
  pending : list SqlaTable.t
}.

Inductive operation : Type := OpDelete | OpUpdate | OpCommit.

(** The answer of the storage engine to an operation: [Some e] when it
    fails with [e]. *)
Class Backend : Type := { backend_fault : operation -> option exn }.

(** [db.session.commit()] and [db.session.rollback()]. *)
Definition commit `{Backend} (s : Session) : result unit * Session :=
  match backend_fault OpCommit with
  | Some e => (Raise e, s)
  | None => (Ok tt, {| committed := pending s; pending := pending s |})
  end.

Definition rollback (s : Session) : Session :=
  {| committed := committed s; pending := committed s |}.

Definition has_id (i : Z) (m : SqlaTable.t) : bool :=
  match SqlaTable.id m with
  | Some j => (i =? j)%Z
  | None => false
  end.

Definition same_row (m r : SqlaTable.t) : bool :=
  match SqlaTable.id m with
  | Some i => has_id i r
  | None => false
  end.

Module DatamanageDAO.

(** Modelled from the spec: the data-access layer
    (superset/datamanage/dao.py) is not among the sources; the spec
    describes its operations as direct calls to the persistence framework
    (find-by-id, commit, rollback). [find_by_id] is the session's row with
    that identifier. *)
Definition find_by_id (s : Session) (model_id : Z) : option SqlaTable.t :=
  List.find (has_id model_id) (pending s).

(** Modelled from the spec: [delete(model, commit=False)] removes the row
    in the session without committing and returns the model; by the spec
    an error of a mapper operation is raised with a rollback, so a delete
    that fails leaves the session rolled back, with the row if it was
    stored. *)
Definition delete `{Backend} (model : SqlaTable.t) (s : Session)
  : result SqlaTable.t * Session :=
  match backend_fault OpDelete with
  | Some e => (Raise e, rollback s)
  | None =>
      (Ok model,
       {| committed := committed s;
          pending := List.filter (fun r => negb (same_row model r)) (pending s) |})
  end.

(** Modelled from the spec: [update(model, properties)] writes the
    properties into the row and commits; a failure is raised as
    [DAOUpdateFailedError] after a rollback. *)
Definition update `{Backend} (model : SqlaTable.t) (properties : dict) (s : Session)
  : result SqlaTable.t * Session :=
  let model' :=
    SqlaTable.set_fields model
      (fold_left (fun d kv => dict_set (fst kv) (snd kv) d) properties
                 (SqlaTable.fields model)) in
  match backend_fault OpUpdate with
  | Some _ => (Raise DAOUpdateFailedError, rollback s)
  | None =>
      let rows := map (fun r => if same_row model r then model' else r) (pending s) in
      (Ok model', {| committed := rows; pending := rows |})
  end.

(** The uniqueness and existence checks of the data-access layer, which
    the update command only calls. *)
Class Checks : Type := {
  validate_update_uniqueness : Session -> Z -> Z -> value -> bool;
  validate_columns_exist : Session -> Z -> list value -> bool;
  validate_columns_uniqueness : Session -> Z -> list value -> bool;
  validate_metrics_exist : Session -> Z -> list value -> bool;
  validate_metrics_uniqueness : Session -> Z -> list value -> bool
}.

End DatamanageDAO.

(** A row of the session together with the rows around it: the identity
    of a mapped object is its place in the session. *)
Record focus : Type := {
  before : list SqlaTable.t;
  obj : SqlaTable.t;
  after : list SqlaTable.t
}.

Definition unfocus (f : focus) : list SqlaTable.t :=
  before f ++ obj f :: after f.

Definition refocus (f : focus) (m : SqlaTable.t) : focus :=
  {| before := before f; obj := m; after := after f |}.

(** [session.query(SqlaTable).filter(p)]: the matching rows in order. *)
Fixpoint select_from (p : SqlaTable.t -> bool) (pre rows : list SqlaTable.t)
  : list focus :=
  match rows with
  | [] => []
  | r :: rows' =>
      (if p r then [{| before := pre; obj := r; after := rows' |}] else [])
        ++ select_from p (pre ++ [r]) rows'
  end.

Definition select (p : SqlaTable.t -> bool) (s : Session) : list focus :=
  select_from p [] (pending s).

(** [query.first()] and [query.one()]. *)
Definition first (q : list focus) : option focus := head q.

Definition one (q : list focus) : result focus :=
  match q with
  | [f] => Ok f
  | [] => Raise NoResultFound
  | _ => Raise MultipleResultsFound
  end.

(** The mapper's import and export, which are outside these sources:
    [SqlaTable.import_from_dict(session, config, recursive=True, sync=sync)]
    gives the imported object in the session it was written to;
    [model.export_to_dict(recursive=True, ...)] and
    [model.database.export_to_dict(recursive=False, ...)] give the stored
    attributes by name. *)
Class ImportExportMixin : Type := {
  import_from_dict : Session -> dict -> list string -> result focus;
  export_to_dict : SqlaTable.t -> dict;
  export_database_to_dict : Database.t -> dict
}.

Definition value_of_id (i : option Z) : value :=
  match i with
  | Some z => VInt z
  | None => VNone
  end.

(** [security_manager.raise_for_ownership(model)] for the user of the
    request: [true] when it raises [SupersetSecurityException], which is
    when the requester lacks ownership. The security manager is outside
    these sources. *)
Class SecurityManager : Type := {
  raise_for_ownership : g_user -> SqlaTable.t -> bool
}.

(** [UpdateMixin.populate_owners(owner_ids)]: the owners, or [None] when
    it raises a [ValidationError]. *)
Class UpdateMixin : Type := {
  populate_owners : g_user -> value -> option (list User.t)
}.

(** ** Libraries the importer and the exporter call

    [json.dumps] on a payload value gives the text or raises: the
    [TypeError] of a value that cannot be serialised, or another exception
    of the encoder (the [ValueError] of a circular reference). For
    [json.loads] on a text, [None] stands for the [JSONDecodeError] of a
    malformed text. *)
Class Json : Type := {
  json_dumps : value -> result string;
  json_loads : string -> option value
}.

(** [json.loads(v)]: only text can be decoded. *)
Definition loads `{Json} (v : value) : result value :=
  match v with
  | VStr s =>
      match json_loads s with
      | Some x => Ok x
      | None => Raise JSONDecodeError
      end
  | _ => Raise TypeError
  end.

Definition is_none (v : value) : bool :=
  match v with VNone => true | _ => false end.

(** [attributes.get(...)] and [attributes[...] = ...] need a dictionary. *)
Definition as_dict (v : value) : result dict :=
  match v with
  | VDict d => Ok d
  | _ => Raise AttributeError
  end.

(** A file object: the body of an HTTP response, possibly wrapped by
    [gzip.open]. *)
Inductive stream : Type :=
| HttpResponse (body : string)
| GzipFile (fileobj : stream).

(** A data frame: the column labels in order, each with its cells. *)
Abbreviation DataFrame := (list (string * list value)).

Inductive connection : Type :=
| SessionConnection
| Engine (database_id : Z).

(** ** importers/v1/utils.py: native types *)

Module Utils.

Inductive sqla_type : Type :=
| SaBoolean
| SaString (length : N)
| SaText
| SaBigInteger
| SaFloat
| SaDate
| SaDateTime (timezone : bool).

(** The module constant [type_map]; [DateTime()] has [timezone=False]. *)
Definition type_map : gmap string sqla_type :=
  list_to_map
    [ ("BOOLEAN", SaBoolean);
      ("VARCHAR", SaString 255);
      ("STRING", SaString 255);
      ("TEXT", SaText);
      ("BIGINT", SaBigInteger);
      ("FLOAT", SaFloat);
      ("FLOAT64", SaFloat);
      ("DOUBLE PRECISION", SaFloat);
      ("DATE", SaDate);
      ("DATETIME", SaDateTime false);
      ("TIMESTAMP WITHOUT TIME ZONE", SaDateTime false);
      ("TIMESTAMP WITH TIME ZONE", SaDateTime true) ].



(** [str.upper] on ASCII text. *)
Definition upper_ascii (c : ascii) : ascii :=
  let n := nat_of_ascii c in
  if (97 <=? n)%nat && (n <=? 122)%nat then ascii_of_nat (n - 32) else c.

Fixpoint upper (s : string) : string :=
  match s with
  | EmptyString => EmptyString
  | String c s' => String (upper_ascii c) (upper s')
  end.

(** [\d] on ASCII text. *)
Definition is_digit (c : ascii) : bool :=
  let n := nat_of_ascii c in (48 <=? n)%nat && (n <=? 57)%nat.

(** Matches the literal [p] at the start of [s] ignoring case (the two
    characters agree once upper-cased) and returns what follows it. *)
Fixpoint match_literal_ignorecase (p s : string) : option string :=
  match p, s with
  | EmptyString, _ => Some s
  | String _ _, EmptyString => None
  | String a p', String b s' =>
      if Ascii.eqb (upper_ascii a) (upper_ascii b)
      then match_literal_ignorecase p' s'
      else None
  end.


(** The longest run of digits at the start of [s], and the rest. *)
Fixpoint span_digits (s : string) : string * string :=
  match s with
  | EmptyString => (EmptyString, EmptyString)
  | String c s' =>
      if is_digit c
      then let '(ds, rest) := span_digits s' in (String c ds, rest)
      else (EmptyString, s)
  end.

(** [VARCHAR = re.compile(r"VARCHAR\((\d+)\)", re.IGNORECASE)] and
    [VARCHAR.match(s)]: anchored at the start of [s] only; the result is
    [match.group(1)]. *)
Definition VARCHAR_match (s : string) : option string :=
  match match_literal_ignorecase "VARCHAR(" s with
  | None => None
  | Some after =>
      match span_digits after with
      | (EmptyString, _) => None
      | (ds, String ")" _) => Some ds
      | (_, _) => None
      end
  end.

(** [int(ds)] for a string of decimal digits: the number, or the
    [ValueError] of CPython for a text of more digits (leading zeros
    counted) than [sys.get_int_max_str_digits()], which is 4300 unless
    the interpreter is told otherwise. *)
Definition digit_value (c : ascii) : N := N.of_nat (nat_of_ascii c - 48).

Fixpoint int_acc (acc : N) (ds : string) : N :=
  match ds with
  | EmptyString => acc
  | String c ds' => int_acc (10 * acc + digit_value c)%N ds'
  end.

Definition INT_MAX_STR_DIGITS : N := 4300.

Definition int (ds : string) : result N :=
  if (N.of_nat (String.length ds) <=? INT_MAX_STR_DIGITS)%N
  then Ok (int_acc 0 ds)
  else Raise ValueError.

Definition get_sqla_type (native_type : string) : result sqla_type :=
  match type_map !! upper native_type with
  | Some t => Ok t
  | None =>
      match VARCHAR_match native_type with
      | Some g1 => size <~ int g1 ;; Ok (SaString size)
      | None => Raise (Exception ("Unknown type: " +:+ native_type))
      end
  end.

Definition CHUNKSIZE : Z := 512.

Definition JSON_KEYS : list string := ["params"; "template_params"; "extra"].

(** [s.endswith(suffix)] *)
Fixpoint endswith (s suffix : string) : bool :=
  String.eqb s suffix ||
  match s with
  | EmptyString => false
  | String _ s' => endswith s' suffix
  end.

(** The arguments of a [df.to_sql] call. *)
Record to_sql_call : Type := {
  ts_frame : DataFrame;
  ts_name : value;
  ts_con : connection;
  ts_schema : value;
  ts_if_exists : string;
  ts_chunksize : Z;
  ts_dtype : list (string * sqla_type);
  ts_index : bool;
  ts_method : string
}.

(** What the importer does to the outside, in order. *)
Inductive event : Type :=
| EvImportFromDict (config : dict) (sync : list string)
| EvFlush
| EvUrlopen (data_uri : string)
| EvGzipOpen
| EvReadCsv (data : stream) (encoding : string)
| EvToSql (call : to_sql_call).

Record World : Type := {
  session : Session;
  events : list event
}.

Definition emit (e : event) (w : World) : World :=
  {| session := session w; events := events w ++ [e] |}.

Definition with_session (s : Session) (w : World) : World :=
  {| session := s; events := events w |}.

(** The network, pandas and the application configuration. *)
Class Platform : Type := {
  urlopen : string -> result stream;
  read_csv : stream -> string -> result DataFrame;
  to_datetime : list value -> result (list value);
  to_sql : to_sql_call -> result unit;
  SQLALCHEMY_DATABASE_URI : value
}.

Section Importer.
Context `{Json} `{Platform}.

(** Lines 92-97: one key of [JSON_KEYS]; only the [TypeError] of
    [json.dumps] is caught. *)
Definition encode_key (key : string) (config : dict) : result dict :=
  if is_none (dict_get key config) then Ok config
  else
    match json_dumps (dict_get key config) with
    | Ok text => Ok (dict_set key (VStr text) config)
    | Raise TypeError => Ok config
    | Raise e => Raise e
    end.

(** Lines 100-107: the [extra] of one column or metric. *)
Definition encode_extra (attributes : value) : result value :=
  d <~ as_dict attributes ;;
  if is_none (dict_get "extra" d) then Ok attributes
  else
    match json_dumps (dict_get "extra" d) with
    | Ok text => Ok (VDict (dict_set "extra" (VStr text) d))
    | Raise TypeError => Ok (VDict (dict_set "extra" VNone d))
    | Raise e => Raise e
    end.

(** Lines 98-99: [for attributes in config.get(key, [])]; the elements
    are changed in place, so the list under [key] holds the results. *)
Definition encode_children (key : string) (config : dict) : result dict :=
  match dict_lookup key config with
  | None => Ok config
  | Some v =>
      items <~ iter_values v ;;
      items' <~ mapM encode_extra items ;;
      match v with
      | VList _ => Ok (dict_set key (VList items') config)
      | _ => Ok config
      end
  end.

(** Lines 91-107 of [import_datamanage]: the fields are encoded before
    the configuration goes to the mapper. *)
Definition encode_json_fields (config : dict) : result dict :=
  config <~ fold_left (fun r key => c <~ r ;; encode_key key c) JSON_KEYS (Ok config) ;;
  config <~ encode_children "metrics" config ;;
  encode_children "columns" config.

Definition set_dtype (name : string) (t : sqla_type)
  (dtype : list (string * sqla_type)) : list (string * sqla_type) :=
  if bool_decide (name ∈ map fst dtype)
  then map (fun kv => if String.eqb (fst kv) name then (name, t) else kv) dtype
  else dtype ++ [(name, t)].

(** [get_dtype]: a column takes part when its name labels a column of
    the frame; its [type] must be text for [.upper()]. *)
Fixpoint get_dtype_from (df : DataFrame) (columns : list dict)
  (dtype : list (string * sqla_type)) : result (list (string * sqla_type)) :=
  match columns with
  | [] => Ok dtype
  | column :: rest =>
      match dict_get "column_name" column with
      | VStr name =>
          if bool_decide (name ∈ map fst df)
          then
            match dict_get "type" column with
            | VStr native_type =>
                t <~ get_sqla_type native_type ;;
                get_dtype_from df rest (set_dtype name t dtype)
            | _ => Raise AttributeError
            end
          else get_dtype_from df rest dtype
      | _ => get_dtype_from df rest dtype
      end
  end.

Definition get_dtype (df : DataFrame) (datamanage : SqlaTable.t)
  : result (list (string * sqla_type)) :=
  get_dtype_from df (SqlaTable.columns datamanage) [].

Definition is_temporal (t : sqla_type) : bool :=
  match t with
  | SaDate | SaDateTime _ => true
  | _ => false
  end.

(** [df[column_name] = pd.to_datetime(df[column_name])] for the temporal
    columns of [dtype]. *)
Fixpoint convert_temporal (dtype : list (string * sqla_type)) (df : DataFrame)
  : result DataFrame :=
  match dtype with
  | [] => Ok df
  | (column_name, sqla_type) :: rest =>
      if is_temporal sqla_type
      then
        match List.find (fun kv => String.eqb (fst kv) column_name) df with
        | Some (_, cells) =>
            cells' <~ to_datetime cells ;;
            convert_temporal rest
              (map (fun kv => if String.eqb (fst kv) column_name
                              then (column_name, cells') else kv) df)
        | None => Raise (KeyError column_name)
        end
      else convert_temporal rest df
  end.

(** [load_data]: the result and the world after it; an exception leaves
    the events emitted so far. *)
Definition load_data (data_uri : string) (datamanage : SqlaTable.t)
  (database : Database.t) (w : World) : result unit * World :=
  let w := emit (EvUrlopen data_uri) w in
  match urlopen data_uri with
  | Raise e => (Raise e, w)
  | Ok data =>
      let '(data, w) :=
        if endswith data_uri ".gz"
        then (GzipFile data, emit EvGzipOpen w)
        else (data, w) in
      let w := emit (EvReadCsv data "utf-8") w in
      match read_csv data "utf-8" with
      | Raise e => (Raise e, w)
      | Ok df =>
          match (dtype <~ get_dtype df datamanage ;;
                 df' <~ convert_temporal dtype df ;;
                 Ok (dtype, df')) with
          | Raise e => (Raise e, w)
          | Ok (dtype, df) =>
              let con :=
                if py_eqb (VStr (Database.sqlalchemy_uri database))
                          SQLALCHEMY_DATABASE_URI
                then SessionConnection
                else Engine (Database.id database) in
              let call :=
                {| ts_frame := df;
                   ts_name := SqlaTable.table_name datamanage;
                   ts_con := con;
                   ts_schema := SqlaTable.schema datamanage;
                   ts_if_exists := "replace";
                   ts_chunksize := CHUNKSIZE;
                   ts_dtype := dtype;
                   ts_index := false;
                   ts_method := "multi" |} in
              (to_sql call, emit (EvToSql call) w)
          end
      end
  end.

End Importer.

Section ImportDatamanage.
Context `{Json} `{Platform} `{ImportExportMixin}.

Definition max_id (rows : list SqlaTable.t) : Z :=
  fold_right (fun r acc => match SqlaTable.id r with
                           | Some i => Z.max i acc
                           | None => acc
                           end) 0%Z rows.

(** [session.flush()]: the new rows get the next identifiers. *)
Fixpoint assign_ids (next : Z) (rows : list SqlaTable.t) : list SqlaTable.t * Z :=
  match rows with
  | [] => ([], next)
  | r :: rows' =>
      match SqlaTable.id r with
      | Some _ => let '(rs, n) := assign_ids next rows' in (r :: rs, n)
      | None =>
          let '(rs, n) := assign_ids (next + 1) rows' in
          (SqlaTable.set_id r (Some next) :: rs, n)
      end
  end.

Definition flush (f : focus) : focus :=
  let next := (max_id (unfocus f) + 1)%Z in
  let '(b, next) := assign_ids next (before f) in
  let '(o, next) := assign_ids next [obj f] in
  let '(a, _) := assign_ids next (after f) in
  {| before := b; obj := List.hd (obj f) o; after := a |}.

Definition store (f : focus) (w : World) : World :=
  with_session {| committed := committed (session w); pending := unfocus f |} w.

Definition has_uuid (uuid : value) (r : SqlaTable.t) : bool :=
  py_eqb (SqlaTable.uuid r) uuid.

(** The tail of [import_datamanage], lines 129-148, on the imported
    object. *)
Definition finish_import (g : g_user) (data_uri : value) (force_data : bool)
  (f : focus) (w : World) : result SqlaTable.t * World :=
  let '(f, w) :=
    match SqlaTable.id (obj f) with
    | None => (flush f, emit EvFlush w)
    | Some _ => (f, w)
    end in
  let w := store f w in
  let datamanage := obj f in
  let table_exists :=
    match Database.has_table_by_name (SqlaTable.database datamanage)
                                     (SqlaTable.table_name datamanage) with
    | Ok b => b
    | Raise _ => true
    end in
  let '(loaded, w) :=
    if truthy data_uri && (negb table_exists || force_data)
    then
      match data_uri with
      | VStr uri => load_data uri datamanage (SqlaTable.database datamanage) w
      | _ => (Raise TypeError, w)
      end
    else (Ok tt, w) in
  match loaded with
  | Raise e => (Raise e, w)
  | Ok _ =>
      match g with
      | GNoAuthorization => (Raise NoAuthorizationError, w)
      | GUser user =>
          let datamanage :=
            SqlaTable.set_owners datamanage (SqlaTable.owners datamanage ++ [user]) in
          (Ok datamanage, store (refocus f datamanage) w)
      | GMissing | GNone => (Ok datamanage, w)
      end
  end.

Definition import_datamanage (g : g_user) (config : dict)
  (overwrite force_data : bool) (w : World) : result SqlaTable.t * World :=
  match subscript (VDict config) "uuid" with
  | Raise e => (Raise e, w)
  | Ok uuid =>
      let existing := first (select (has_uuid uuid) (session w)) in
      match existing, overwrite with
      | Some f, false => (Ok (obj f), w)
      | _, _ =>
          let config :=
            match existing with
            | Some f => dict_set "id" (value_of_id (SqlaTable.id (obj f))) config
            | None => config
            end in
          match encode_json_fields config with
          | Raise e => (Raise e, w)
          | Ok config =>
              let sync := if overwrite then ["columns"; "metrics"] else [] in
              let data_uri := dict_get "data" config in
              let w := emit (EvImportFromDict config sync) w in
              let imported :=
                match import_from_dict (session w) config sync with
                | Raise MultipleResultsFound => one (select (has_uuid uuid) (session w))
                | r => r
                end in
              match imported with
              | Raise e => (Raise e, w)
              | Ok f => finish_import g data_uri force_data f w
              end
          end
      end
  end.

End ImportDatamanage.

End Utils.


(** ** commands/delete.py *)

Module DeleteDatamanageCommand.
Section Command.
Context `{Backend} `{SecurityManager}.

(** [validate]: populates [self._model] or raises. *)
Definition validate (model_id : Z) (g : g_user) (s : Session) : result SqlaTable.t :=
  match DatamanageDAO.find_by_id s model_id with
  | None => Raise DatamanageNotFoundError
  | Some model =>
      if raise_for_ownership g model
      then Raise DatamanageForbiddenError
      else Ok model
  end.

(** [isinstance(e, SQLAlchemyError)]: [NoResultFound] and
    [MultipleResultsFound] are subclasses of [SQLAlchemyError]. *)
Definition is_SQLAlchemyError (e : exn) : bool :=
  match e with
  | SQLAlchemyError | NoResultFound | MultipleResultsFound => true
  | _ => false
  end.

(** The [except (SQLAlchemyError, DAODeleteFailedError)] clause, which
    catches the instances of the subclasses too. *)
Definition caught (e : exn) : bool :=
  is_SQLAlchemyError e ||
  match e with
  | DAODeleteFailedError => true
  | _ => false
  end.

Definition on_error (e : exn) (s : Session) : result SqlaTable.t * Session :=
  if caught e then (Raise DatamanageDeleteFailedError, rollback s)
  else (Raise e, s).

Definition run (model_id : Z) (g : g_user) (s : Session)
  : result SqlaTable.t * Session :=
  match validate model_id g s with
  | Raise e => (Raise e, s)
  | Ok model =>
      match DatamanageDAO.delete model s with
      | (Raise e, s1) => on_error e s1
      | (Ok datamanage, s1) =>
          match commit s1 with
          | (Raise e, s2) => on_error e s2
          | (Ok _, s2) => (Ok datamanage, s2)
          end
      end
  end.

End Command.
End DeleteDatamanageCommand.

(** ** commands/update.py *)

Module UpdateDatamanageCommand.

Record t : Type := {
  _model_id : Z;
  _properties : dict;
  _model : option SqlaTable.t;
  override_columns : bool
}.

(** [__init__]: the payload is copied and carries [override_columns]. *)
Definition init (model_id : Z) (data : dict) (override : bool) : t :=
  {| _model_id := model_id;
     _properties := dict_set "override_columns" (VBool override) data;
     _model := None;
     override_columns := override |}.

(** [Counter(names)]: the distinct names in order of first occurrence,
    each with its number of occurrences; an unhashable name is a
    [TypeError]. *)
Fixpoint counter_add (x : value) (c : list (value * nat)) : list (value * nat) :=
  match c with
  | [] => [(x, 1)]
  | (y, n) :: c' =>
      if py_eqb y x then (y, S n) :: c' else (y, n) :: counter_add x c'
  end.

Definition Counter (names : list value) : result (list (value * nat)) :=
  if forallb hashable names
  then Ok (fold_left (fun c x => counter_add x c) names [])
  else Raise TypeError.

Definition _get_duplicates (data : value) (key : string) : result (list value) :=
  items <~ iter_values data ;;
  names <~ mapM (fun item => subscript item key) items ;;
  counts <~ Counter names ;;
  Ok (map fst (List.filter (fun nc => (1 <? snd nc)%nat) counts)).

(** [[item[key] for item in data if "id" in item]] and its complement. *)
Fixpoint select_items (with_id : bool) (key : string) (items : list value)
  : result (list value) :=
  match items with
  | [] => Ok []
  | item :: rest =>
      has <~ contains_key "id" item ;;
      if Bool.eqb has with_id
      then v <~ subscript item key ;; vs <~ select_items with_id key rest ;; Ok (v :: vs)
      else select_items with_id key rest
  end.

Section Command.
Context `{Backend} `{SecurityManager} `{UpdateMixin} `{DatamanageDAO.Checks}.

Definition append_unless (ok : bool) (e : validation_error)
  (exceptions : list validation_error) : list validation_error :=
  if ok then exceptions else exceptions ++ [e].

(** [_validate_columns]: the list of exceptions after the call. *)
Definition _validate_columns (self : t) (s : Session) (columns : value)
  (exceptions : list validation_error) : result (list validation_error) :=
  duplicates <~ _get_duplicates columns "column_name" ;;
  match duplicates with
  | _ :: _ => Ok (exceptions ++ [DatamanageColumnsDuplicateValidationError])
  | [] =>
      items <~ iter_values columns ;;
      columns_ids <~ select_items true "id" items ;;
      let exceptions1 :=
        append_unless
          (DatamanageDAO.validate_columns_exist s (_model_id self) columns_ids)
          DatamanageColumnNotFoundValidationError exceptions in
      if override_columns self then Ok exceptions1
      else
        columns_names <~ select_items false "column_name" items ;;
        Ok (append_unless
              (DatamanageDAO.validate_columns_uniqueness s (_model_id self) columns_names)
              DatamanageColumnsExistsValidationError exceptions1)
  end.

Definition _validate_metrics (self : t) (s : Session) (metrics : value)
  (exceptions : list validation_error) : result (list validation_error) :=
  duplicates <~ _get_duplicates metrics "metric_name" ;;
  match duplicates with
  | _ :: _ => Ok (exceptions ++ [DatamanageMetricsDuplicateValidationError])
  | [] =>
      items <~ iter_values metrics ;;
      metrics_ids <~ select_items true "id" items ;;
      let exceptions1 :=
        append_unless
          (DatamanageDAO.validate_metrics_exist s (_model_id self) metrics_ids)
          DatamanageMetricsNotFoundValidationError exceptions in
      metric_names <~ select_items false "metric_name" items ;;
      Ok (append_unless
            (DatamanageDAO.validate_metrics_uniqueness s (_model_id self) metric_names)
            DatamanageMetricsExistsValidationError exceptions1)
  end.

(** [database_id != self._model]: a payload value against a mapped row.
    The classes differ and neither defines a comparison with the other, so
    Python compares identities, and a value of the payload is never the
    row object itself. *)
Definition differs_from_model (database_id : value) (model : SqlaTable.t) : bool :=
  true.

(** [validate]: the command with [_model] and the owners populated, or
    the exception raised. *)
Definition validate (self : t) (g : g_user) (s : Session) : result t :=
  let exceptions : list validation_error := [] in
  let owner_ids := dict_get "owners" (_properties self) in
  match DatamanageDAO.find_by_id s (_model_id self) with
  | None => Raise DatamanageNotFoundError
  | Some model =>
      if raise_for_ownership g model
      then Raise DatamanageForbiddenError
      else
          let database_id := dict_get "database" (_properties self) in
          let table_name := dict_get "table_name" (_properties self) in
          let exceptions :=
            append_unless
              (DatamanageDAO.validate_update_uniqueness
                 s (SqlaTable.database_id model) (_model_id self) table_name)
              (DatamanageExistsValidationError table_name) exceptions in
          let exceptions :=
            if truthy database_id && differs_from_model database_id model
            then exceptions ++ [DatabaseChangeValidationError]
            else exceptions in
          let '(properties, exceptions) :=
            match populate_owners g owner_ids with
            | Some owners =>
                (dict_set "owners" (VList (map (fun u => VObj (User.id u)) owners))
                          (_properties self), exceptions)
            | None => (_properties self, exceptions ++ [OwnersValidationError])
            end in
          let columns := dict_get "columns" properties in
          exceptions <~ (if truthy columns
                         then _validate_columns self s columns exceptions
                         else Ok exceptions) ;;
          let metrics := dict_get "metrics" properties in
          exceptions <~ (if truthy metrics
                         then _validate_metrics self s metrics exceptions
                         else Ok exceptions) ;;
          match exceptions with
          | _ :: _ => Raise (DatamanageInvalidError exceptions)
          | [] =>
              Ok {| _model_id := _model_id self;
                    _properties := properties;
                    _model := Some model;
                    override_columns := override_columns self |}
          end
  end.

Definition run (self : t) (g : g_user) (s : Session) : result SqlaTable.t * Session :=
  match validate self g s with
  | Raise e => (Raise e, s)
  | Ok self' =>
      match _model self' with
      | Some model =>
          match DatamanageDAO.update model (_properties self') s with
          | (Raise DAOUpdateFailedError, s') => (Raise DatamanageUpdateFailedError, s')
          | other => other
          end
      | None => (Raise DatamanageUpdateFailedError, s)
      end
  end.

End Command.
End UpdateDatamanageCommand.

(** ** commands/export.py *)

Module ExportDatamanageCommand.

Definition JSON_KEYS : list string := ["params"; "template_params"; "extra"].

(** [get_filename], [yaml.safe_dump] and [EXPORT_VERSION], which the
    command imports. *)
Class Environment : Type := {
  get_filename : value -> value -> bool -> string;
  safe_dump : dict -> string;
  EXPORT_VERSION : value
}.

Section Command.
Context `{Json} `{ImportExportMixin} `{Environment}.

(** Lines 61-65: one key; a text that does not decode is left as it is. *)
Definition decode_key (key : string) (payload : dict) : result dict :=
  if truthy (dict_get key payload)
  then
    match loads (dict_get key payload) with
    | Ok v => Ok (dict_set key v payload)
    | Raise JSONDecodeError => Ok payload
    | Raise e => Raise e
    end
  else Ok payload.

(** Lines 68-74: the [extra] of one column or metric. *)
Definition decode_extra (attributes : value) : result value :=
  d <~ as_dict attributes ;;
  d' <~ decode_key "extra" d ;;
  Ok (VDict d').

(** Lines 66-67: [for attributes in payload.get(key, [])]. *)
Definition decode_children (key : string) (payload : dict) : result dict :=
  match dict_lookup key payload with
  | None => Ok payload
  | Some v =>
      items <~ iter_values v ;;
      items' <~ mapM decode_extra items ;;
      match v with
      | VList _ => Ok (dict_set key (VList items') payload)
      | _ => Ok payload
      end
  end.

(** Lines 60-74 of [_export]. *)
Definition decode_json_fields (payload : dict) : result dict :=
  payload <~ fold_left (fun r key => p <~ r ;; decode_key key p) JSON_KEYS (Ok payload) ;;
  payload <~ decode_children "metrics" payload ;;
  decode_children "columns" payload.

(** [_export] is a generator: the files it yields, and the exception
    that ends it early, if any. *)
Definition _export (model : SqlaTable.t) (export_related : bool)
  : list (string * string) * option exn :=
  let database := SqlaTable.database model in
  let db_file_name :=
    get_filename (VStr (Database.database_name database))
                 (VInt (Database.id database)) true in
  let ds_file_name :=
    get_filename (SqlaTable.table_name model) (value_of_id (SqlaTable.id model)) true in
  let file_path := "datamanage/" +:+ db_file_name +:+ "/" +:+ ds_file_name +:+ ".yaml" in
  match decode_json_fields (export_to_dict model) with
  | Raise e => ([], Some e)
  | Ok payload =>
      let payload := dict_set "version" EXPORT_VERSION payload in
      let payload := dict_set "database_uuid" (VStr (Database.uuid database)) payload in
      let dataset_file := (file_path, safe_dump payload) in
      if export_related
      then
        let file_path := "databases/" +:+ db_file_name +:+ ".yaml" in
        match decode_key "extra" (export_database_to_dict database) with
        | Raise e => ([dataset_file], Some e)
        | Ok payload =>
            let payload := dict_set "version" EXPORT_VERSION payload in
            ([dataset_file; (file_path, safe_dump payload)], None)
        end
      else ([dataset_file], None)
  end.

End Command.
End ExportDatamanageCommand.

(** ** views/users/api.py *)

Module CurrentUserRestApi.

Record Response : Type := { status : Z; body : dict }.

(** [self.response(code, result=...)], [self.response_401()] and the
    answer of the [@safe] decorator to an exception. *)
Definition response (code : Z) (result : value) : Response :=
  {| status := code; body := [("result", result)] |}.

Definition response_401 : Response :=
  {| status := 401; body := [("message", VStr "Not authorized")] |}.

Definition response_500 : Response :=
  {| status := 500; body := [("message", VStr "Fatal error")] |}.

(** What the endpoints call: [utils.get_all_users()], which reads the
    users of the application, [user_response_schema.dump] and
    [bootstrap_user_data]. *)
Class Views : Type := {
  get_all_users : list User.t;
  dump : User.t -> value;
  bootstrap_user_data : User.t -> bool -> value
}.

Section Api.
Context `{Views}.

Definition get_all (g : g_user) : Response :=
  let users := get_all_users in
  let users_response := map dump users in
  response 200 (VList users_response).

(** The guard shared by [get_me] and [get_my_roles]: the user to
    answer for, or the response that ends the request. *)
Definition current_user (g : g_user) : Response + User.t :=
  match g with
  | GNoAuthorization => inl response_401
  | GNone => inl response_401
  | GUser user => if User.is_anonymous user then inl response_401 else inr user
  | GMissing => inl response_500
  end.

Definition get_me (g : g_user) : Response :=
  match current_user g with
  | inl r => r
  | inr user => response 200 (dump user)
  end.

Definition get_my_roles (g : g_user) : Response :=
  match current_user g with
  | inl r => r
  | inr user => response 200 (bootstrap_user_data user true)
  end.

Inductive endpoint : Type := GetAll | GetMe | GetMyRoles.

(** The routes of the resource: [/all], [/] and [/roles/]. *)
Definition dispatch (e : endpoint) (g : g_user) : Response :=
  match e with
  | GetAll => get_all g
  | GetMe => get_me g
  | GetMyRoles => get_my_roles g
  end.

End Api.
End CurrentUserRestApi.

(** ** An in-memory application

    Concrete instances of the interfaces above, on which the commands
    run: they serve the examples of the properties below. *)

Module InMemory.
Local Open Scope Z_scope.

(** A storage engine that answers every operation, and one that fails
    [op] with [e]. *)
Definition healthy : Backend := {| backend_fault := fun _ => None |}.

Definition failing (op : operation) (e : exn) : Backend :=
  {| backend_fault := fun o =>
       match op, o with
       | OpDelete, OpDelete | OpUpdate, OpUpdate | OpCommit, OpCommit => Some e
       | _, _ => None
       end |}.

(** A security manager for which only the owners of a dataset own it. *)
Definition owners_only : SecurityManager :=
  {| raise_for_ownership := fun g model =>
       match g with
       | GUser user =>
           negb (existsb (fun o => (User.id o =? User.id user)%Z) (SqlaTable.owners model))
       | _ => true
       end |}.

(** Owners are given by their identifiers; every list of integers names
    users. *)
Definition owners_by_id : UpdateMixin :=
  {| populate_owners := fun g owner_ids =>
       match owner_ids with
       | VNone => Some []
       | VList ids =>
           if forallb (fun v => match v with VInt _ => true | _ => false end) ids
           then Some (map (fun v => match v with
                                    | VInt i => {| User.id := i; User.username := EmptyString;
                                                   User.is_anonymous := false |}
                                    | _ => {| User.id := 0; User.username := EmptyString;
                                              User.is_anonymous := false |}
                                    end) ids)
           else None
       | _ => None
       end |}.

Definition children_values (key : string) (children : list dict) : list value :=
  map (dict_get key) children.

Definition subset_of (xs ys : list value) : bool :=
  forallb (fun x => existsb (py_eqb x) ys) xs.

Definition disjoint_from (xs ys : list value) : bool :=
  forallb (fun x => negb (existsb (py_eqb x) ys)) xs.

(** Modelled from the spec: the checks of the data-access layer
    (superset/datamanage/dao.py), which the spec sums up as enforcing
    naming-uniqueness constraints: a table name is free when no other
    dataset of the database bears it, identifiers must belong to the
    dataset, and new names must not be taken. *)
Definition checks : DatamanageDAO.Checks :=
  {| DatamanageDAO.validate_update_uniqueness := fun s database_id model_id table_name =>
       forallb (fun r => has_id model_id r
                         || negb ((SqlaTable.database_id r =? database_id)%Z
                                  && py_eqb (SqlaTable.table_name r) table_name))
               (pending s);
     DatamanageDAO.validate_columns_exist := fun s model_id ids =>
       match DatamanageDAO.find_by_id s model_id with
       | Some m => subset_of ids (children_values "id" (SqlaTable.columns m))
       | None => false
       end;
     DatamanageDAO.validate_columns_uniqueness := fun s model_id names =>
       match DatamanageDAO.find_by_id s model_id with
       | Some m => disjoint_from names (children_values "column_name" (SqlaTable.columns m))
       | None => false
       end;
     DatamanageDAO.validate_metrics_exist := fun s model_id ids =>
       match DatamanageDAO.find_by_id s model_id with
       | Some m => subset_of ids (children_values "id" (SqlaTable.metrics m))
       | None => false
       end;
     DatamanageDAO.validate_metrics_uniqueness := fun s model_id names =>
       match DatamanageDAO.find_by_id s model_id with
       | Some m => disjoint_from names (children_values "metric_name" (SqlaTable.metrics m))
       | None => false
       end |}.

(** Two users, a database and a dataset owned by the first user. *)
Definition alice : User.t :=
  {| User.id := 1; User.username := "alice"; User.is_anonymous := false |}.
Definition bob : User.t :=
  {| User.id := 2; User.username := "bob"; User.is_anonymous := false |}.
Definition anonymous : User.t :=
  {| User.id := 0; User.username := EmptyString; User.is_anonymous := true |}.

Definition examples : Database.t :=
  {| Database.id := 1;
     Database.database_name := "examples";
     Database.uuid := "a2dc77af-e654-49bb-b321-40f6b559a1ee";
     Database.sqlalchemy_uri := "sqlite:///examples.db";
     Database.table_names := Some ["birth_names"];
     Database.fields := [("database_name", VStr "examples"); ("extra", VNone)] |}.

Definition birth_names : SqlaTable.t :=
  {| SqlaTable.id := Some 7;
     SqlaTable.database := examples;
     SqlaTable.fields :=
       [("table_name", VStr "birth_names");
        ("schema", VNone);
        ("uuid", VStr "14f48794-ebfa-4f60-a26a-582c49132f1b");
        ("params", VNone);
        ("extra", VNone)];
     SqlaTable.columns :=
       [[("id", VInt 1); ("column_name", VStr "ds"); ("type", VStr "DATETIME")];
        [("id", VInt 2); ("column_name", VStr "name"); ("type", VStr "VARCHAR(255)")]];
     SqlaTable.metrics :=
       [[("id", VInt 1); ("metric_name", VStr "count"); ("expression", VStr "COUNT(*)")]];
     SqlaTable.owners := [alice] |}.

Definition stored : Session :=
  {| committed := [birth_names]; pending := [birth_names] |}.

(** An update that names the database the dataset already belongs to,
    and one that renames a column only. *)
Definition same_database : dict := [("database", VInt 1)].

Definition rename_column : dict :=
  [("columns", VList [VDict [("id", VInt 2); ("column_name", VStr "first_name")]])].

(** *** A JSON codec

    Integers, booleans, [null], strings, arrays and objects, printed the
    way [json.dumps] prints them and read back by a recursive-descent
    parser. *)

Definition dquote : ascii := ascii_of_nat 34.
Definition backslash : ascii := ascii_of_nat 92.

Fixpoint escape (s : string) : string :=
  match s with
  | EmptyString => EmptyString
  | String c s' =>
      if Ascii.eqb c dquote || Ascii.eqb c backslash
      then String backslash (String c (escape s'))
      else String c (escape s')
  end.

Definition quote (s : string) : string :=
  String dquote (escape s +:+ String dquote EmptyString).

(** The opening of an object whose first key is [k]. *)
Definition quote_key (k : string) : string := "{" +:+ quote k +:+ ": ".

Definition string_of_Z (z : Z) : string := NilZero.string_of_int (Z.to_int z).

Fixpoint join (sep : string) (parts : list string) : string :=
  match parts with
  | [] => EmptyString
  | [x] => x
  | x :: rest => x +:+ sep +:+ join sep rest
  end.

Fixpoint all_some {A} (l : list (option A)) : option (list A) :=
  match l with
  | [] => Some []
  | Some a :: l' => match all_some l' with Some r => Some (a :: r) | None => None end
  | None :: _ => None
  end.

Fixpoint dumps (v : value) : option string :=
  match v with
  | VNone => Some "null"
  | VBool true => Some "true"
  | VBool false => Some "false"
  | VInt z => Some (string_of_Z z)
  | VStr s => Some (quote s)
  | VList l =>
      match all_some (map dumps l) with
      | Some parts => Some ("[" +:+ join ", " parts +:+ "]")
      | None => None
      end
  | VDict d =>
      match all_some (map (fun kv => match dumps (snd kv) with
                                     | Some text => Some (quote (fst kv) +:+ ": " +:+ text)
                                     | None => None
                                     end) d) with
      | Some parts => Some ("{" +:+ join ", " parts +:+ "}")
      | None => None
      end
  | VObj _ => None
  end.

Definition is_space (c : ascii) : bool :=
  Ascii.eqb c " " || Ascii.eqb c (ascii_of_nat 10) ||
  Ascii.eqb c (ascii_of_nat 13) || Ascii.eqb c (ascii_of_nat 9).

Fixpoint skip_space (s : string) : string :=
  match s with
  | String c s' => if is_space c then skip_space s' else s
  | EmptyString => EmptyString
  end.

(** The text after an opening quote: the string and what follows the
    closing quote. *)
Fixpoint read_string (s : string) : option (string * string) :=
  match s with
  | EmptyString => None
  | String c s' =>
      if Ascii.eqb c dquote then Some (EmptyString, s')
      else if Ascii.eqb c backslash
      then
        match s' with
        | String e s'' =>
            if Ascii.eqb e dquote || Ascii.eqb e backslash
            then match read_string s'' with
                 | Some (r, rest) => Some (String e r, rest)
                 | None => None
                 end
            else None
        | EmptyString => None
        end
      else match read_string s' with
           | Some (r, rest) => Some (String c r, rest)
           | None => None
           end
  end.

Definition read_int (s : string) : option (value * string) :=
  let '(negative, s) :=
    match s with
    | String "-" s' => (true, s')
    | _ => (false, s)
    end in
  match Utils.span_digits s with
  | (EmptyString, _) => None
  | (ds, rest) =>
      match Utils.int ds with
      | Ok n => Some (VInt (if negative then - Z.of_N n else Z.of_N n), rest)
      | Raise _ => None
      end
  end.

Definition read_literal (lit : string) (v : value) (s : string)
  : option (value * string) :=
  if String.prefix lit s
  then Some (v, String.substring (String.length lit)
                                 (String.length s - String.length lit) s)
  else None.

Inductive production : Type := AValue | Elements | Members.

(** [Elements] reads the elements of an array up to its closing bracket,
    [Members] the members of an object up to its closing brace. *)
Fixpoint read (fuel : nat) (p : production) (s : string) : option (value * string) :=
  match fuel with
  | O => None
  | S fuel =>
      let s := skip_space s in
      match p with
      | AValue =>
          match s with
          | String "n" _ => read_literal "null" VNone s
          | String "t" _ => read_literal "true" (VBool true) s
          | String "f" _ => read_literal "false" (VBool false) s
          | String "[" s' =>
              match skip_space s' with
              | String "]" rest => Some (VList [], rest)
              | _ => read fuel Elements s'
              end
          | String "{" s' =>
              match skip_space s' with
              | String "}" rest => Some (VDict [], rest)
              | _ => read fuel Members s'
              end
          | String c s' =>
              if Ascii.eqb c dquote
              then match read_string s' with
                   | Some (r, rest) => Some (VStr r, rest)
                   | None => None
                   end
              else read_int s
          | EmptyString => None
          end
      | Elements =>
          match read fuel AValue s with
          | Some (v, rest) =>
              match skip_space rest with
              | String "," rest' =>
                  match read fuel Elements rest' with
                  | Some (VList l, rest'') => Some (VList (v :: l), rest'')
                  | _ => None
                  end
              | String "]" rest' => Some (VList [v], rest')
              | _ => None
              end
          | None => None
          end
      | Members =>
          match s with
          | String c s' =>
              if Ascii.eqb c dquote
              then
                match read_string s' with
                | Some (k, rest) =>
                    match skip_space rest with
                    | String ":" rest' =>
                        match read fuel AValue rest' with
                        | Some (v, rest'') =>
                            match skip_space rest'' with
                            | String "," rest3 =>
                                match read fuel Members rest3 with
                                | Some (VDict d, rest4) => Some (VDict ((k, v) :: d), rest4)
                                | _ => None
                                end
                            | String "}" rest3 => Some (VDict [(k, v)], rest3)
                            | _ => None
                            end
                        | None => None
                        end
                    | _ => None
                    end
                | None => None
                end
              else None
          | EmptyString => None
          end
      end
  end.

(** A key that comes twice keeps its place and takes the last value. *)
Fixpoint normalise (fuel : nat) (v : value) : value :=
  match fuel with
  | O => v
  | S fuel =>
      match v with
      | VList l => VList (map (normalise fuel) l)
      | VDict d =>
          VDict (fold_left (fun acc kv => dict_set (fst kv) (normalise fuel (snd kv)) acc)
                           d [])
      | _ => v
      end
  end.

Definition parse (s : string) : option value :=
  let fuel := (2 * String.length s + 2)%nat in
  match read fuel AValue s with
  | Some (v, rest) =>
      match skip_space rest with
      | EmptyString => Some (normalise fuel v)
      | _ => None
      end
  | None => None
  end.

Definition json : Json :=
  {| json_dumps := fun v => match dumps v with
                            | Some text => Ok text
                            | None => Raise TypeError
                            end;
     json_loads := parse |}.

(** *** The mapper *)

(** The rows an import may be about: the row with the uuid of the
    configuration, or the row that holds its place (database, schema and
    table name) under the uniqueness constraint. *)
Definition matches (config : dict) (r : SqlaTable.t) : bool :=
  (negb (is_none (dict_get "uuid" config))
   && py_eqb (SqlaTable.uuid r) (dict_get "uuid" config))
  || (py_eqb (VInt (SqlaTable.database_id r)) (dict_get "database_id" config)
      && py_eqb (SqlaTable.schema r) (dict_get "schema" config)
      && py_eqb (SqlaTable.table_name r) (dict_get "table_name" config)).

Definition payload_children (key : string) (config : dict) : result (list dict) :=
  match dict_lookup key config with
  | None => Ok []
  | Some v => items <~ iter_values v ;; mapM as_dict items
  end.

Definition named (name_key : string) (children : list dict) (c : dict) : bool :=
  existsb (fun c' => py_eqb (dict_get name_key c') (dict_get name_key c)) children.

(** The children of an object after an import: the incoming ones, and
    of the stored ones those the payload does not name, unless the
    relation is synchronized. *)
Definition import_children (name_key : string) (synced : bool)
  (stored incoming : list dict) : list dict :=
  List.filter (fun c => negb synced && negb (named name_key incoming c)) stored
    ++ incoming.

Definition is_child_key (k : string) : bool :=
  String.eqb k "columns" || String.eqb k "metrics".

Definition write_fields (config fields : dict) : dict :=
  fold_left (fun d kv => if is_child_key (fst kv) then d
                         else dict_set (fst kv) (snd kv) d) config fields.

(** Modelled from the spec: the import of the mapper
    ([ImportExportMixin.import_from_dict] in superset/models/helpers.py)
    is not among the sources. By the spec a dataset is created via
    import and its columns and metrics are synchronized on overwrite; by
    the importer, the relations listed in [sync] lose the children that
    the import does not bring, and an import that meets several rows
    raises [MultipleResultsFound]. A new row needs its owning database,
    the foreign key being enforced by the storage engine. *)
Definition import_from_dict (databases : list Database.t) (s : Session)
  (config : dict) (sync : list string) : result focus :=
  columns <~ payload_children "columns" config ;;
  metrics <~ payload_children "metrics" config ;;
  match select (matches config) s with
  | _ :: _ :: _ => Raise MultipleResultsFound
  | [f] =>
      let o := obj f in
      let o := SqlaTable.set_fields o (write_fields config (SqlaTable.fields o)) in
      Ok (refocus f
            (SqlaTable.set_children o
               (import_children "column_name" (bool_decide ("columns" ∈ sync))
                                (SqlaTable.columns o) columns)
               (import_children "metric_name" (bool_decide ("metrics" ∈ sync))
                                (SqlaTable.metrics o) metrics)))
  | [] =>
      match List.find (fun d => py_eqb (VInt (Database.id d)) (dict_get "database_id" config))
                      databases with
      | Some database =>
          Ok {| before := pending s;
                obj := {| SqlaTable.id := None;
                          SqlaTable.database := database;
                          SqlaTable.fields := write_fields config [];
                          SqlaTable.columns := columns;
                          SqlaTable.metrics := metrics;
                          SqlaTable.owners := [] |};
                after := [] |}
      | None => Raise SQLAlchemyError
      end
  end.

(** Modelled from the spec: the export of the mapper gives the stored
    attributes by name, with the columns and the metrics of a dataset. *)
Definition export_to_dict (m : SqlaTable.t) : dict :=
  dict_set "metrics" (VList (map VDict (SqlaTable.metrics m)))
    (dict_set "columns" (VList (map VDict (SqlaTable.columns m)))
       (SqlaTable.fields m)).

Definition mixin (databases : list Database.t) : ImportExportMixin :=
  Build_ImportExportMixin (import_from_dict databases) export_to_dict Database.fields.

(** *** Files, the network and the views *)

(** File names are the names themselves, and YAML is written in its flow
    style, which is the JSON text. *)
Definition environment : ExportDatamanageCommand.Environment :=
  {| ExportDatamanageCommand.get_filename := fun model_name model_id skip_id =>
       let slug := match model_name with VStr n => n | _ => EmptyString end in
       if skip_id then slug
       else match model_id with
            | VInt i => slug +:+ "_" +:+ string_of_Z i
            | _ => slug
            end;
     ExportDatamanageCommand.safe_dump := fun payload => default EmptyString (dumps (VDict payload));
     ExportDatamanageCommand.EXPORT_VERSION := VStr "1.0.0" |}.

Fixpoint split_on (sep : ascii) (s : string) : list string :=
  match s with
  | EmptyString => [EmptyString]
  | String c s' =>
      if Ascii.eqb c sep then EmptyString :: split_on sep s'
      else match split_on sep s' with
           | x :: rest => String c x :: rest
           | [] => [String c EmptyString]
           end
  end.

(** The text of a file object; a compressed body is its text after the
    mark [GZ]. *)
Fixpoint content (data : stream) : result string :=
  match data with
  | HttpResponse body => Ok body
  | GzipFile fileobj =>
      body <~ content fileobj ;;
      match body with
      | String "G" (String "Z" text) => Ok text
      | _ => Raise (Exception "Not a gzipped file")
      end
  end.

Definition frame_of_csv (text : string) : DataFrame :=
  match map (split_on ",") (split_on (ascii_of_nat 10) text) with
  | [] => []
  | header :: rows =>
      imap (fun i label => (label, map (fun row => VStr (nth i row EmptyString)) rows)) header
  end.

(** A network that serves the bodies of [web]. *)
Definition platform (web : list (string * string)) : Utils.Platform :=
  {| Utils.urlopen := fun data_uri =>
       match List.find (fun kv => String.eqb (fst kv) data_uri) web with
       | Some (_, body) => Ok (HttpResponse body)
       | None => Raise (Exception "HTTP Error 404: Not Found")
       end;
     Utils.read_csv := fun data encoding =>
       text <~ content data ;; Ok (frame_of_csv text);
     Utils.to_datetime := fun cells => Ok cells;
     Utils.to_sql := fun _ => Ok tt;
     Utils.SQLALCHEMY_DATABASE_URI := VStr "sqlite:///superset.db" |}.

Definition web : list (string * string) :=
  [ ("https://example.org/birth_names.csv", "ds,name" +:+ String (ascii_of_nat 10) "2004-01-01,Aaron");
    ("https://example.org/birth_names.csv.gz",
     "GZds,name" +:+ String (ascii_of_nat 10) "2004-01-01,Aaron") ].

Definition views : CurrentUserRestApi.Views :=
  {| CurrentUserRestApi.get_all_users := [alice; bob];
     CurrentUserRestApi.dump := fun user =>
       VDict [("id", VInt (User.id user)); ("username", VStr (User.username user));
              ("is_anonymous", VBool (User.is_anonymous user))];
     CurrentUserRestApi.bootstrap_user_data := fun user include_perms =>
       VDict [("username", VStr (User.username user));
              ("userId", VInt (User.id user));
              ("permissions", if include_perms then VDict [] else VNone)] |}.

(** The world of the importer with the dataset stored and nothing done
    yet. *)
Definition world : Utils.World :=
  {| Utils.session := stored; Utils.events := [] |}.

(** An import of the stored dataset that keeps one column, and the
    import of a new dataset with its data. *)
Definition reimport : dict :=
  [("table_name", VStr "birth_names");
   ("schema", VNone);
   ("uuid", VStr "14f48794-ebfa-4f60-a26a-582c49132f1b");
   ("database_id", VInt 1);
   ("params", VDict [("remote_id", VInt 3)]);
   ("extra", VNone);
   ("columns", VList [VDict [("column_name", VStr "ds"); ("type", VStr "DATETIME");
                             ("extra", VDict [("warning_markdown", VStr "UTC")])]]);
   ("metrics", VList [])].

Definition new_import : dict :=
  [("table_name", VStr "wb_health");
   ("schema", VNone);
   ("uuid", VStr "3195db6b-2d4c-4e22-b5ab-2d8f1b6a7a45");
   ("database_id", VInt 1);
   ("data", VStr "https://example.org/birth_names.csv.gz");
   ("columns", VList [VDict [("column_name", VStr "ds"); ("type", VStr "DATETIME")];
                      VDict [("column_name", VStr "name"); ("type", VStr "varchar(255)")]])].

End InMemory.

(** * Vocabulary of the properties *)

Section Vocabulary.
Import Utils UpdateDatamanageCommand.



(** The number of elements of [names] equal to [x]. *)
Definition count_eq (x : value) (names : list value) : nat :=
  length (List.filter (fun v => py_eqb v x) names).

(** The number of records of [items] whose value under [key] equals [x]. *)
Definition occurrences (items : list value) (key : string) (x : value) : nat :=
  length (List.filter (fun item => match subscript item key with
                                   | Ok v => py_eqb v x
                                   | Raise _ => false
                                   end) items).

(** The count a [Counter] holds for [x]. *)
Fixpoint counter_count (x : value) (c : list (value * nat)) : nat :=
  match c with
  | [] => 0
  | (y, n) :: c' => if py_eqb y x then n else counter_count x c'
  end.

Fixpoint pairwise_distinct (l : list value) : Prop :=
  match l with
  | [] => True
  | x :: l' => (∀ y, y ∈ l' → py_eqb x y = false) ∧ pairwise_distinct l'
  end.

(** The keys of a counter are hashable and pairwise different. *)
Definition counter_keys_ok (c : list (value * nat)) : Prop :=
  pairwise_distinct (map fst c) ∧ Forall (fun y => hashable y = true) (map fst c).

(** The names a counter holds more than once. *)
Definition repeated (c : list (value * nat)) : list value :=
  map fst (List.filter (fun nc => (1 <? snd nc)%nat) c).

Definition payload_columns : list value :=
  [ VDict [("column_name", VStr "ds")];
    VDict [("id", VInt 2); ("column_name", VStr "name")];
    VDict [("column_name", VStr "ds")] ].

(** The exceptions Python itself raises on a malformed payload. *)
Definition builtin_error (e : exn) : Prop :=
  match e with
  | KeyError _ | TypeError | AttributeError => True
  | _ => False
  end.

(** [adjust k f d] applies [f] to the value under [k], if there is one. *)
Fixpoint adjust (k : string) (f : value → value) (d : dict) : dict :=
  match d with
  | [] => []
  | (k', v) :: d' =>
      if String.eqb k k' then (k', f v) :: d' else (k', v) :: adjust k f d'
  end.

(** [text] is a valid JSON encoding of [v]: the text [json.dumps] gives
    for [v], which is not empty and which [json.loads] reads back as [v]. *)
Definition encodes `{Json} (v : value) (text : string) : Prop :=
  json_dumps v = Ok text ∧ text ≠ EmptyString ∧ json_loads text = Some v.

(** A field value that is stored as a valid JSON encoding, or as [None]
    when it is [None]. *)
Definition encodable `{Json} (v : value) : Prop :=
  v = VNone ∨ ∃ text, encodes v text.

(** The same for the [extra] of a column or metric. *)
Definition extra_encodable `{Json} (item : value) : Prop :=
  ∀ d e, item = VDict d → dict_lookup "extra" d = Some e → encodable e.

(** The JSON fields of a configuration are stored as valid encodings. *)
Definition json_fields_encodable `{Json} (config : dict) : Prop :=
  (∀ key v, key ∈ JSON_KEYS → dict_lookup key config = Some v → encodable v) ∧
  (∀ key items, key ∈ ["metrics"; "columns"] →
                dict_lookup key config = Some (VList items) →
                Forall extra_encodable items).

(** What the importer stores for a field value, and for the list of
    columns or metrics. *)
Definition encoded_value `{Json} (v : value) : value :=
  if is_none v then v
  else match json_dumps v with
       | Ok text => VStr text
       | Raise _ => v
       end.

Definition encoded_children `{Json} (v : value) : result value :=
  items <~ iter_values v ;;
  items' <~ mapM encode_extra items ;;
  match v with
  | VList _ => Ok (VList items')
  | _ => Ok v
  end.

(** [rest] neither reads nor writes the value under [k]. *)
Definition frames (k : string) (rest : dict → dict) : Prop :=
  (∀ d, dict_lookup k (rest d) = dict_lookup k d) ∧
  (∀ f d, adjust k f (rest d) = rest (adjust k f d)).

(** The session has no user, or an anonymous one, or reading it raises
    [NoAuthorizationError]. *)
Definition unauthenticated (g : g_user) : Prop :=
  match g with
  | GNone | GNoAuthorization => True
  | GUser user => User.is_anonymous user = true
  | GMissing => False
  end.

(** The same views over another table of users. *)
Definition with_users (V : CurrentUserRestApi.Views) (users : list User.t)
  : CurrentUserRestApi.Views :=
  {| CurrentUserRestApi.get_all_users := users;
     CurrentUserRestApi.dump := CurrentUserRestApi.dump;
     CurrentUserRestApi.bootstrap_user_data := CurrentUserRestApi.bootstrap_user_data |}.

(** The call an event stands for. *)
Definition event_name (e : event) : string :=
  match e with
  | EvImportFromDict _ _ => "import_from_dict"
  | EvFlush => "flush"
  | EvUrlopen _ => "urlopen"
  | EvGzipOpen => "gzip.open"
  | EvReadCsv _ _ => "read_csv"
  | EvToSql _ => "to_sql"
  end.

(** The [sync] argument of line 110. *)
Definition sync_list (overwrite : bool) : list string :=
  if overwrite then ["columns"; "metrics"] else [].

(** No event of the list is a call of the mapper's import. *)
Definition no_import (evs : list event) : Prop :=
  ∀ config sync, EvImportFromDict config sync ∉ evs.

(** The validation errors a command reports, if it reports any. *)
Definition reported {A} (r : result A) : list validation_error :=
  match r with
  | Raise (DatamanageInvalidError errors) => errors
  | _ => []
  end.

End Vocabulary.

Section FurtherVocabulary.
Import Utils UpdateDatamanageCommand.

(** [str(n)]: the decimal text of a natural number. *)
Definition decimal (n : N) : string := NilZero.string_of_uint (N.to_uint n).

(** A column of the dataset labels a column of the frame. *)
Definition in_frame (df : DataFrame) (column : dict) : bool :=
  match dict_get "column_name" column with
  | VStr name => bool_decide (name ∈ map fst df)
  | _ => false
  end.

(** The native type of a column is a text that [get_sqla_type] knows. *)
Definition typed (column : dict) : bool :=
  match dict_get "type" column with
  | VStr native_type =>
      match get_sqla_type native_type with
      | Ok _ => true
      | Raise _ => false
      end
  | _ => false
  end.

(** [v] is a list of dictionaries, as the columns and the metrics of a
    configuration are. *)
Definition records (v : value) : Prop :=
  ∃ items, v = VList items ∧ ∀ item, item ∈ items → ∃ d, item = VDict d.






(** The engine of the database of [m] reports no table under the name of
    [m]. *)
Definition table_missing (m : SqlaTable.t) : Prop :=
  Database.has_table_by_name (SqlaTable.database m) (SqlaTable.table_name m) = Ok false.

(** The user of the request, when there is one. *)
Definition importing_user (g : g_user) : list User.t :=
  match g with
  | GUser user => [user]
  | _ => []
  end.

(** The import does not stop at a stored row: [overwrite] is set, or no
    row of the session has the uuid of the configuration. *)
Definition imports (config : dict) (overwrite : bool) (w : Utils.World) : Prop :=
  overwrite = true ∨
  ∀ uuid, dict_lookup "uuid" config = Some uuid →
          select (Utils.has_uuid uuid) (Utils.session w) = [].

(** The stored dataset next to a dataset of another uuid that holds its
    place under the schema [public], and an import of the stored one
    that moves it to that schema. *)
Definition public_birth_names : SqlaTable.t :=
  {| SqlaTable.id := Some 8%Z;
     SqlaTable.database := InMemory.examples;
     SqlaTable.fields :=
       [("table_name", VStr "birth_names");
        ("schema", VStr "public");
        ("uuid", VStr "b3a1f7c2-5d5e-4c0a-9f43-0c1a8e2d7b90")];
     SqlaTable.columns := [];
     SqlaTable.metrics := [];
     SqlaTable.owners := [InMemory.bob] |}.

Definition fixed_schema : Utils.World :=
  {| Utils.session := {| committed := [InMemory.birth_names; public_birth_names];
                         pending := [InMemory.birth_names; public_birth_names] |};
     Utils.events := [] |}.

Definition schema_fix : dict :=
  [("table_name", VStr "birth_names");
   ("schema", VStr "public");
   ("uuid", VStr "14f48794-ebfa-4f60-a26a-582c49132f1b");
   ("database_id", VInt 1)].

(** The errors [_validate_columns] and [_validate_metrics] can report. *)
Definition column_errors : list validation_error :=
  [DatamanageColumnsDuplicateValidationError;
   DatamanageColumnNotFoundValidationError;
   DatamanageColumnsExistsValidationError].

Definition metric_errors : list validation_error :=
  [DatamanageMetricsDuplicateValidationError;
   DatamanageMetricsNotFoundValidationError;
   DatamanageMetricsExistsValidationError].

(** [[record[key] for record in records if "id" in record]] when
    [with_id] is set, and the same for the records without [id] when it is
    not, on records that carry [key]. *)
Definition picked (with_id : bool) (key : string) (records : list dict) : list value :=
  map (dict_get key)
      (List.filter (fun d => Bool.eqb (bool_decide (is_Some (dict_lookup "id" d))) with_id)
                   records).

(** An update of the stored dataset with a column that has no name. *)
Definition nameless_column : dict :=
  [("columns", VList [VDict [("id", VInt 1); ("column_name", VStr "ds")];
                      VDict [("id", VInt 2); ("type", VStr "TEXT")]])].





End FurtherVocabulary.

(** * Properties *)

(** ** Native types ([get_sqla_type]) *)

Section NativeTypes.
Import Utils.









Example get_sqla_type_bigint : get_sqla_type "bigint" = Ok SaBigInteger.
Proof. vm_compute. reflexivity. Qed.

Example get_sqla_type_varchar : get_sqla_type "varchar(0042)" = Ok (SaString 42).
Proof. vm_compute. reflexivity. Qed.

Example get_sqla_type_trailing : get_sqla_type "VARCHAR(10) NOT NULL" = Ok (SaString 10).
Proof. vm_compute. reflexivity. Qed.

Example get_sqla_type_unknown :
  get_sqla_type "INT" = Raise (Exception "Unknown type: INT").
Proof. vm_compute. reflexivity. Qed.




End NativeTypes.

(** ** Duplicate detection ([_get_duplicates]) *)

Section Duplicates.
Import UpdateDatamanageCommand.

Ltac py_eqb_cases :=
  repeat match goal with
  | H : Bool.eqb _ _ = true |- _ => apply Bool.eqb_prop in H; subst
  | H : (_ =? _)%Z = true |- _ => apply Z.eqb_eq in H; subst
  | H : String.eqb _ _ = true |- _ => apply String.eqb_eq in H; subst
  | |- Bool.eqb _ _ = true => apply Bool.eqb_true_iff
  | |- (_ =? _)%Z = true => apply Z.eqb_eq
  | |- String.eqb _ _ = true => apply String.eqb_eq
  end.

Lemma py_eqb_refl a : hashable a = true → py_eqb a a = true.
Proof. destruct a; simpl; intros; try discriminate; py_eqb_cases; done. Qed.

Lemma py_eqb_sym a b : py_eqb a b = true → py_eqb b a = true.
Proof.
  destruct a, b; simpl; intros; try discriminate; py_eqb_cases; done.
Qed.

Lemma py_eqb_trans a b c :
  py_eqb a b = true → py_eqb b c = true → py_eqb a c = true.
Proof.
  destruct a, b, c; simpl; intros; try discriminate; py_eqb_cases;
    first [done | by destruct b | by destruct b0 | idtac].
  all: match goal with
       | H : Z.b2z ?x = Z.b2z ?y |- _ => by destruct x, y
       end.
Qed.

(** Python equality does not tell two equal values apart. *)
Lemma py_eqb_congr a b v : py_eqb a b = true → py_eqb a v = py_eqb b v.
Proof.
  intros Hab. destruct (py_eqb a v) eqn:Hav.
  - symmetry. eauto using py_eqb_trans, py_eqb_sym.
  - destruct (py_eqb b v) eqn:Hbv; [|done].
    rewrite <- Hav. eauto using py_eqb_trans.
Qed.

Lemma counter_count_add x z c :
  counter_count x (counter_add z c) =
  (counter_count x c + if py_eqb z x then 1 else 0)%nat.
Proof.
  induction c as [|[y n] c IH]; simpl.
  - destruct (py_eqb z x); lia.
  - destruct (py_eqb y z) eqn:Hyz; simpl.
    + rewrite <- (py_eqb_congr y z x Hyz). destruct (py_eqb y x); lia.
    + destruct (py_eqb y x) eqn:Hyx; [|apply IH].
      destruct (py_eqb z x) eqn:Hzx; [|lia].
      rewrite (py_eqb_trans _ _ _ Hyx (py_eqb_sym _ _ Hzx)) in Hyz. discriminate.
Qed.

Lemma counter_count_fold x names c :
  counter_count x (fold_left (fun c x => counter_add x c) names c) =
  (counter_count x c + count_eq x names)%nat.
Proof.
  revert c. induction names as [|z names IH]; intros c; simpl.
  - unfold count_eq. simpl. lia.
  - rewrite IH, counter_count_add. unfold count_eq. simpl.
    destruct (py_eqb z x); simpl; lia.
Qed.

Lemma counter_add_keys x c :
  map fst (counter_add x c) =
  if existsb (fun y => py_eqb y x) (map fst c) then map fst c else map fst c ++ [x].
Proof.
  induction c as [|[y n] c IH]; simpl; [done |].
  destruct (py_eqb y x); simpl; [done |]. rewrite IH.
  by destruct (existsb _ _).
Qed.

Lemma pairwise_distinct_snoc l x :
  pairwise_distinct l → (∀ y, y ∈ l → py_eqb y x = false) →
  pairwise_distinct (l ++ [x]).
Proof.
  induction l as [|a l IH]; simpl; intros Hl Hx.
  - split; [|done]. intros y Hy. by apply elem_of_nil in Hy.
  - destruct Hl as [Ha Hl]. split.
    + intros y Hy. apply elem_of_app in Hy as [Hy | Hy]; [by apply Ha |].
      apply list_elem_of_singleton in Hy as ->. apply Hx. by left.
    + apply IH; [done |]. intros y Hy. apply Hx. by right.
Qed.

Lemma counter_add_keys_ok x c :
  hashable x = true → counter_keys_ok c → counter_keys_ok (counter_add x c).
Proof.
  intros Hx [Hd Hh]. unfold counter_keys_ok. rewrite counter_add_keys.
  destruct (existsb _ _) eqn:He; [done |]. split.
  - apply pairwise_distinct_snoc; [done |]. intros y Hy.
    destruct (py_eqb y x) eqn:Hyx; [|done].
    assert (existsb (fun y => py_eqb y x) (map fst c) = true); [|congruence].
    apply existsb_exists. exists y. split; [by apply list_elem_of_In | done].
  - apply Forall_app. split; [done |]. by constructor.
Qed.

Lemma counter_fold_keys_ok names c :
  Forall (fun y => hashable y = true) names → counter_keys_ok c →
  counter_keys_ok (fold_left (fun c x => counter_add x c) names c).
Proof.
  intros Hn. revert c. induction Hn as [|x names Hx Hn IH]; intros c Hc; simpl.
  - done.
  - apply IH. by apply counter_add_keys_ok.
Qed.

Lemma counter_count_key c y n :
  counter_keys_ok c → (y, n) ∈ c → counter_count y c = n.
Proof.
  intros [Hd Hh]. induction c as [|[y' n'] c IH]; simpl in *; intros Hin.
  - by apply elem_of_nil in Hin.
  - destruct Hd as [Hy' Hd]. apply Forall_cons in Hh as [Hh' Hh].
    apply elem_of_cons in Hin as [[= -> ->] | Hin].
    + by rewrite py_eqb_refl.
    + rewrite Hy'; [by apply IH |].
      apply (list_elem_of_fmap_2 fst) in Hin. exact Hin.
Qed.

Lemma counter_count_pos x c :
  (0 < counter_count x c)%nat →
  ∃ y, (y, counter_count x c) ∈ c ∧ py_eqb y x = true.
Proof.
  induction c as [|[y n] c IH]; simpl; [lia |].
  destruct (py_eqb y x) eqn:Hyx.
  - intros _. exists y. split; [by left | done].
  - intros Hpos. destruct (IH Hpos) as (y' & Hin & Hy'). exists y'.
    split; [by right | done].
Qed.

Lemma Counter_Ok names c :
  Counter names = Ok c →
  Forall (fun y => hashable y = true) names ∧
  c = fold_left (fun c x => counter_add x c) names [].
Proof.
  unfold Counter. destruct (forallb hashable names) eqn:Hh; [|done].
  intros [= <-]. split; [|done].
  apply Forall_forall. intros x Hx. rewrite forallb_forall in Hh.
  apply Hh. by apply list_elem_of_In.
Qed.

Lemma Counter_count names c x :
  Counter names = Ok c → counter_count x c = count_eq x names.
Proof.
  intros Hc. apply Counter_Ok in Hc as [_ ->]. by rewrite counter_count_fold.
Qed.

Lemma Counter_keys_ok names c : Counter names = Ok c → counter_keys_ok c.
Proof.
  intros Hc. apply Counter_Ok in Hc as [Hh ->].
  apply counter_fold_keys_ok; [done |]. split; [done | constructor].
Qed.

Lemma elem_of_repeated d c :
  d ∈ repeated c ↔ ∃ n, (d, n) ∈ c ∧ (1 < n)%nat.
Proof.
  unfold repeated. rewrite list_elem_of_fmap. split.
  - intros ([d' n] & -> & Hin). exists n. apply list_elem_of_In, filter_In in Hin.
    destruct Hin as [Hin Hn]. apply Nat.ltb_lt in Hn.
    split; [by apply list_elem_of_In | done].
  - intros (n & Hin & Hn). exists (d, n). split; [done |].
    apply list_elem_of_In, filter_In. split; [by apply list_elem_of_In |].
    by apply Nat.ltb_lt.
Qed.

Lemma pairwise_distinct_repeated c :
  pairwise_distinct (map fst c) → pairwise_distinct (repeated c).
Proof.
  unfold repeated. induction c as [|[y n] c IH]; simpl; [done |].
  intros [Hy Hd]. destruct (1 <? n)%nat; simpl; [|by apply IH].
  split; [|by apply IH]. intros z Hz. apply Hy.
  apply list_elem_of_fmap in Hz as ([z' m] & -> & Hz).
  apply list_elem_of_In, filter_In in Hz as [Hz _].
  apply (list_elem_of_fmap_2 fst), list_elem_of_In. exact Hz.
Qed.

Lemma repeated_spec names c x :
  Counter names = Ok c →
  (∃ d, d ∈ repeated c ∧ py_eqb d x = true) ↔ (2 ≤ count_eq x names)%nat.
Proof.
  intros Hc. pose proof (Counter_keys_ok _ _ Hc) as Hok. split.
  - intros (d & Hd & Hdx). apply elem_of_repeated in Hd as (n & Hin & Hn).
    rewrite <- (Counter_count _ _ _ Hc).
    assert (Hcd : counter_count d c = n) by by apply counter_count_key.
    assert (counter_count x c = counter_count d c); [|lia].
    clear -Hdx. induction c as [|[y m] c IH]; simpl; [done |].
    assert (Heq : py_eqb y x = py_eqb y d).
    { destruct (py_eqb y d) eqn:Hyd; [eauto using py_eqb_trans |].
      destruct (py_eqb y x) eqn:Hyx; [|done].
      rewrite <- Hyd. symmetry. eauto using py_eqb_trans, py_eqb_sym. }
    rewrite Heq. by destruct (py_eqb y d).
  - intros Hx. rewrite <- (Counter_count _ _ _ Hc) in Hx.
    destruct (counter_count_pos x c) as (y & Hin & Hyx); [lia |].
    exists y. split; [|done]. apply elem_of_repeated. eauto.
Qed.

Lemma counter_fold_keys_from names c y :
  y ∈ map fst (fold_left (fun c x => counter_add x c) names c) →
  y ∈ map fst c ∨ y ∈ names.
Proof.
  revert c. induction names as [|x names IH]; intros c; simpl; [by left |].
  intros Hy. apply IH in Hy as [Hy | Hy]; [|right; by right].
  rewrite counter_add_keys in Hy. destruct (existsb _ _); [by left |].
  apply elem_of_app in Hy as [Hy | Hy]; [by left |].
  apply list_elem_of_singleton in Hy as ->. right. by left.
Qed.

Lemma mapM_subscript_elem items key names d :
  mapM (fun item => subscript item key) items = Ok names →
  d ∈ names → ∃ item, item ∈ items ∧ subscript item key = Ok d.
Proof.
  revert names. induction items as [|item items IH]; intros names; simpl.
  - intros [= <-] Hd. by apply elem_of_nil in Hd.
  - destruct (subscript item key) as [v|] eqn:Hv; simpl; [|done].
    destruct (mapM _ items) as [vs|] eqn:Hvs; simpl; [|done].
    intros [= <-] Hd. apply elem_of_cons in Hd as [-> | Hd].
    + exists item. split; [by left | done].
    + destruct (IH _ eq_refl Hd) as (item' & Hin & Hs). exists item'.
      split; [by right | done].
Qed.

Lemma occurrences_count_eq items key names x :
  mapM (fun item => subscript item key) items = Ok names →
  occurrences items key x = count_eq x names.
Proof.
  unfold occurrences, count_eq.
  revert names. induction items as [|item items IH]; intros names; simpl.
  - by intros [= <-].
  - destruct (subscript item key) as [v|] eqn:Hv; simpl; [|done].
    destruct (mapM _ items) as [vs|] eqn:Hvs; simpl; [|done].
    intros [= <-]. simpl. specialize (IH _ eq_refl).
    destruct (py_eqb v x); simpl; by rewrite IH.
Qed.

Lemma _get_duplicates_Ok items key dups :
  _get_duplicates (VList items) key = Ok dups →
  ∃ names c, mapM (fun item => subscript item key) items = Ok names ∧
             Counter names = Ok c ∧ dups = repeated c.
Proof.
  unfold _get_duplicates. simpl.
  destruct (mapM _ items) as [names|]; simpl; [|done].
  destruct (Counter names) as [c|] eqn:Hc; simpl; [|done].
  intros [= <-]. eauto.
Qed.

Lemma mapM_subscript_total items key :
  (∀ item, item ∈ items → ∃ v, subscript item key = Ok v) →
  ∃ names, mapM (fun item => subscript item key) items = Ok names ∧
           ∀ v, v ∈ names → ∃ item, item ∈ items ∧ subscript item key = Ok v.
Proof.
  intros Hall.
  assert (∃ names, mapM (fun item => subscript item key) items = Ok names)
    as [names Hn].
  { induction items as [|item items IH]; simpl; [eauto |].
    destruct (Hall item) as [v ->]; [by left |]. simpl.
    destruct IH as [names ->]; [|simpl; eauto].
    intros i Hi. apply Hall. by right. }
  exists names. split; [done |]. intros v. by apply mapM_subscript_elem.
Qed.

(** Once the names were read from every record, the selections of
    [_validate_columns] and [_validate_metrics] succeed too. *)
Lemma select_items_names items key names with_id :
  mapM (fun item => subscript item key) items = Ok names →
  ∃ vs, select_items with_id key items = Ok vs.
Proof.
  revert names.
  induction items as [|item items IH]; intros names Hn; [simpl; eauto |].
  simpl in Hn.
  destruct (subscript item key) as [v|] eqn:Hv; simpl in Hn; [|done].
  destruct (mapM _ items) as [vs|] eqn:Hvs; simpl in Hn; [|done].
  destruct (IH _ eq_refl) as [ws Hws].
  destruct item as [| | | | |d|]; try discriminate Hv.
  cbn [select_items contains_key bind].
  destruct (Bool.eqb _ with_id); [|eauto].
  rewrite Hv. cbn [bind]. rewrite Hws. cbn [bind]. eauto.
Qed.

Lemma select_items_ids items key names :
  mapM (fun item => subscript item key) items = Ok names →
  ∃ vs, select_items true "id" items = Ok vs.
Proof.
  revert names. induction items as [|item items IH]; intros names; simpl; [eauto |].
  destruct (subscript item key) as [v|] eqn:Hv; simpl; [|done].
  destruct (mapM _ items) as [vs|] eqn:Hvs; simpl; [|done]. intros _.
  destruct (IH _ eq_refl) as [ws Hws].
  destruct item; try discriminate Hv. simpl.
  destruct (dict_lookup "id" d) as [i|] eqn:Hi; simpl.
  - rewrite Hws. simpl. eauto.
  - eauto.
Qed.

End Duplicates.

Section DuplicateValidation.
Import UpdateDatamanageCommand.
Context `{DatamanageDAO.Checks}.

Lemma _get_duplicates_spec items key dups :
  _get_duplicates (VList items) key = Ok dups →
  (∀ x, (∃ d, d ∈ dups ∧ py_eqb d x = true) ↔ (2 ≤ occurrences items key x)%nat) ∧
  (∀ d, d ∈ dups → ∃ item, item ∈ items ∧ subscript item key = Ok d) ∧
  pairwise_distinct dups ∧
  (dups = [] ↔ ∀ x, (occurrences items key x ≤ 1)%nat).
Proof.
  intros Hd. apply _get_duplicates_Ok in Hd as (names & c & Hn & Hc & ->).
  assert (Hspec : ∀ x, (∃ d, d ∈ repeated c ∧ py_eqb d x = true) ↔
                       (2 ≤ occurrences items key x)%nat).
  { intros x. rewrite (occurrences_count_eq _ _ _ _ Hn). by apply repeated_spec. }
  pose proof (Counter_keys_ok _ _ Hc) as [Hdist Hhash].
  assert (Hkeys : ∀ d, d ∈ repeated c → d ∈ names ∧ hashable d = true).
  { intros d Hdin. apply elem_of_repeated in Hdin as (n & Hin & _).
    apply (list_elem_of_fmap_2 fst) in Hin. simpl in Hin. split.
    - apply Counter_Ok in Hc as [_ ->].
      apply counter_fold_keys_from in Hin as [Hin | Hin]; [|done].
      by apply elem_of_nil in Hin.
    - rewrite Forall_forall in Hhash. by apply Hhash. }
  repeat split.
  - by apply Hspec.
  - by apply Hspec.
  - intros d Hdin. apply (mapM_subscript_elem _ _ _ _ Hn). by apply Hkeys.
  - by apply pairwise_distinct_repeated.
  - intros Hnil x. destruct (le_lt_dec (occurrences items key x) 1) as [|Hx]; [done |].
    apply Hspec in Hx as (d & Hdin & _). rewrite Hnil in Hdin.
    by apply elem_of_nil in Hdin.
  - intros Hall. destruct (repeated c) as [|d ds] eqn:Hr; [done |].
    specialize (Hall d).
    assert (2 ≤ occurrences items key d)%nat; [|lia].
    apply Hspec. exists d. split; [by left |].
    apply py_eqb_refl, Hkeys. by left.
Qed.

Lemma _get_duplicates_total items key :
  (∀ item, item ∈ items → ∃ v, subscript item key = Ok v ∧ hashable v = true) →
  ∃ dups, _get_duplicates (VList items) key = Ok dups.
Proof.
  intros Hall. unfold _get_duplicates. simpl.
  destruct (mapM_subscript_total items key) as (names & -> & Hnames).
  { intros item Hi. destruct (Hall item Hi) as (v & Hv & _). eauto. }
  simpl. unfold Counter.
  assert (Hh : forallb hashable names = true).
  { apply forallb_forall. intros v Hv. apply list_elem_of_In in Hv.
    destruct (Hnames v Hv) as (item & Hi & Hs).
    destruct (Hall item Hi) as (v' & Hv' & Hhv'). congruence. }
  rewrite Hh. simpl. eauto.
Qed.

(** Closes the branches of [_validate_columns] and [_validate_metrics]
    that run without duplicates: what they append is no duplicate error. *)
Ltac no_duplicate_error :=
  eexists; split;
  [ first [ reflexivity
          | rewrite <- app_assoc; reflexivity
          | f_equal; symmetry; apply app_nil_r ]
  | split; [| done];
    let Hin := fresh "Hin" in
    intros Hin; simpl in Hin;
    repeat (apply elem_of_cons in Hin as [Hin | Hin]; [discriminate Hin |]);
    by apply elem_of_nil in Hin ].

Lemma _validate_columns_duplicates self s columns exceptions dups :
  _get_duplicates (VList columns) "column_name" = Ok dups →
  ∃ added,
    _validate_columns self s (VList columns) exceptions = Ok (exceptions ++ added) ∧
    (DatamanageColumnsDuplicateValidationError ∈ added ↔ dups ≠ []).
Proof.
  intros Hd. unfold _validate_columns. rewrite Hd. cbn [bind].
  destruct dups as [|d dups].
  - apply _get_duplicates_Ok in Hd as (names & c & Hn & _ & _).
    cbn [bind iter_values].
    destruct (select_items_ids _ _ _ Hn) as [ids ->].
    destruct (select_items_names _ _ _ false Hn) as [ns ->].
    cbn [bind iter_values]. unfold append_unless.
    destruct (override_columns self), (DatamanageDAO.validate_columns_exist _ _ _);
      try destruct (DatamanageDAO.validate_columns_uniqueness _ _ _);
      no_duplicate_error.
  - eexists. split; [reflexivity |]. split; [done |]. intros _. by left.
Qed.

Lemma _validate_metrics_duplicates self s metrics exceptions dups :
  _get_duplicates (VList metrics) "metric_name" = Ok dups →
  ∃ added,
    _validate_metrics self s (VList metrics) exceptions = Ok (exceptions ++ added) ∧
    (DatamanageMetricsDuplicateValidationError ∈ added ↔ dups ≠ []).
Proof.
  intros Hd. unfold _validate_metrics. rewrite Hd. cbn [bind].
  destruct dups as [|d dups].
  - apply _get_duplicates_Ok in Hd as (names & c & Hn & _ & _).
    cbn [bind iter_values].
    destruct (select_items_ids _ _ _ Hn) as [ids ->].
    destruct (select_items_names _ _ _ false Hn) as [ns ->].
    cbn [bind iter_values]. unfold append_unless.
    destruct (DatamanageDAO.validate_metrics_exist _ _ _),
             (DatamanageDAO.validate_metrics_uniqueness _ _ _);
      no_duplicate_error.
  - eexists. split; [reflexivity |]. split; [done |]. intros _. by left.
Qed.

End DuplicateValidation.

Section DuplicateDetection.
Import UpdateDatamanageCommand.
Context `{DatamanageDAO.Checks}.

(** C4. For a list of records [items] and a key, when [_get_duplicates]
    returns, it returns exactly the key values that occur in more than one
    record (up to Python's [==], by which the counter groups them), each
    of them once, and the empty list exactly when no value occurs twice;
    it does return whenever every record carries the key with a hashable
    value. [_validate_columns] and [_validate_metrics] append their
    duplicate error exactly when that list is not empty. *)
Theorem duplicate_detection (self : t) (s : Session) (items : list value)
  (exceptions : list validation_error) :
  (∀ key dups, _get_duplicates (VList items) key = Ok dups →
     (∀ x, (∃ d, d ∈ dups ∧ py_eqb d x = true) ↔ (2 ≤ occurrences items key x)%nat) ∧
     (∀ d, d ∈ dups → ∃ item, item ∈ items ∧ subscript item key = Ok d) ∧
     pairwise_distinct dups ∧
     (dups = [] ↔ ∀ x, (occurrences items key x ≤ 1)%nat)) ∧
  (∀ key,
     (∀ item, item ∈ items → ∃ v, subscript item key = Ok v ∧ hashable v = true) →
     ∃ dups, _get_duplicates (VList items) key = Ok dups) ∧
  (∀ dups, _get_duplicates (VList items) "column_name" = Ok dups →
     ∃ added,
       _validate_columns self s (VList items) exceptions = Ok (exceptions ++ added) ∧
       (DatamanageColumnsDuplicateValidationError ∈ added ↔ dups ≠ [])) ∧
  (∀ dups, _get_duplicates (VList items) "metric_name" = Ok dups →
     ∃ added,
       _validate_metrics self s (VList items) exceptions = Ok (exceptions ++ added) ∧
       (DatamanageMetricsDuplicateValidationError ∈ added ↔ dups ≠ [])).
Proof.
  split; [| split; [| split]].
  - intros key dups. apply _get_duplicates_spec.
  - intros key. apply _get_duplicates_total.
  - intros dups. apply _validate_columns_duplicates.
  - intros dups. apply _validate_metrics_duplicates.
Qed.

End DuplicateDetection.

Lemma duplicate_detection_witness :
  UpdateDatamanageCommand._get_duplicates (VList payload_columns) "column_name"
    = Ok [VStr "ds"] ∧
  (2 ≤ occurrences payload_columns "column_name" (VStr "ds"))%nat ∧
  ∃ added,
    UpdateDatamanageCommand._validate_columns (H2 := InMemory.checks)
      (UpdateDatamanageCommand.init 7 [] false) InMemory.stored
      (VList payload_columns) [] = Ok ([] ++ added) ∧
    (DatamanageColumnsDuplicateValidationError ∈ added ↔ [VStr "ds"] ≠ []).
Proof.
  pose proof (duplicate_detection (H := InMemory.checks)
                (UpdateDatamanageCommand.init 7 [] false) InMemory.stored
                payload_columns []) as (Hspec & _ & Hcols & _).
  split; [reflexivity |]. split.
  - apply (proj1 (Hspec "column_name" [VStr "ds"] eq_refl)).
    exists (VStr "ds"). split; [by left | reflexivity].
  - apply Hcols. reflexivity.
Defined.

(** ** Update validation ([UpdateDatamanageCommand.validate]) *)

Section UpdateValidation.
Import UpdateDatamanageCommand.
Context `{SecurityManager} `{UpdateMixin} `{DatamanageDAO.Checks}.

Lemma bind_Raise {A B} (r : result A) (k : A → result B) e :
  (x <~ r ;; k x) = Raise e →
  r = Raise e ∨ ∃ a, r = Ok a ∧ k a = Raise e.
Proof. destruct r as [a|e']; simpl; [eauto | intros [= ->]; by left]. Qed.

Lemma bind_Raise_or_Ok {A B} (r : result A) (k : A → result B) b :
  (x <~ r ;; k x) = Ok b → ∃ a, r = Ok a ∧ k a = Ok b.
Proof. destruct r as [a|e]; simpl; [eauto | done]. Qed.

Lemma mapM_Raise {A B} (f : A → result B) l e :
  mapM f l = Raise e → ∃ a, a ∈ l ∧ f a = Raise e.
Proof.
  induction l as [|a l IH]; simpl; [done |].
  destruct (f a) as [b|e'] eqn:Hfa; simpl.
  - destruct (mapM f l) as [bs|e'']; simpl; [done |].
    intros [= ->]. destruct IH as (a' & Hin & Ha'); [done |].
    exists a'. split; [by right | done].
  - intros [= ->]. exists a. split; [by left | done].
Qed.

Lemma subscript_Raise item key e : subscript item key = Raise e → builtin_error e.
Proof.
  destruct item; simpl; try (intros [= <-]; exact I).
  destruct (dict_lookup key d); [done | intros [= <-]; exact I].
Qed.

Lemma select_items_Raise with_id key items e :
  select_items with_id key items = Raise e → builtin_error e.
Proof.
  induction items as [|item items IH]; cbn [select_items]; [done |].
  destruct (contains_key "id" item) as [has|e'] eqn:Hc; cbn [bind].
  - destruct (Bool.eqb has with_id); [|exact IH].
    destruct (subscript item key) as [v|e'] eqn:Hs; cbn [bind].
    + destruct (select_items _ _ _); cbn [bind]; [done |].
      intros [= <-]. by apply IH.
    + intros [= <-]. by apply subscript_Raise in Hs.
  - intros [= <-]. destruct item; simpl in Hc; try discriminate; by injection Hc as <-.
Qed.

Lemma _get_duplicates_Raise data key e :
  _get_duplicates data key = Raise e → builtin_error e.
Proof.
  unfold _get_duplicates. intros Hr.
  apply bind_Raise in Hr as [Hr | (items & _ & Hr)].
  { destruct data; simpl in Hr; try discriminate; by injection Hr as <-. }
  apply bind_Raise in Hr as [Hr | (names & _ & Hr)].
  { apply mapM_Raise in Hr as (item & _ & Hr). by apply subscript_Raise in Hr. }
  apply bind_Raise in Hr as [Hr | (c & _ & Hr)]; [|done].
  unfold Counter in Hr. destruct (forallb _ _); [done |]. by injection Hr as <-.
Qed.

Lemma append_unless_app ok e (exceptions : list validation_error) :
  append_unless ok e exceptions = exceptions ++ (if ok then [] else [e]).
Proof. unfold append_unless. destruct ok; [by rewrite app_nil_r | done]. Qed.

(** What [_validate_columns] and [_validate_metrics] can do: append
    errors of their own kind, or fail on a malformed payload. *)
Lemma _validate_columns_result self s columns exceptions :
  match _validate_columns self s columns exceptions with
  | Ok exceptions' =>
      ∃ added, exceptions' = exceptions ++ added ∧
               DatabaseChangeValidationError ∉ added
  | Raise e => builtin_error e
  end.
Proof.
  unfold _validate_columns.
  destruct (_get_duplicates columns "column_name") as [[|d dups]|e] eqn:Hd;
    cbn [bind]; [| | by apply _get_duplicates_Raise in Hd].
  - destruct (iter_values columns) as [items|e] eqn:Hi; cbn [bind].
    2:{ destruct columns; simpl in Hi; try discriminate; by injection Hi as <-. }
    destruct (select_items true "id" items) as [ids|e] eqn:Hids; cbn [bind];
      [|by apply select_items_Raise in Hids].
    rewrite append_unless_app.
    destruct (override_columns self).
    + eexists. split; [reflexivity |]. destruct (DatamanageDAO.validate_columns_exist _ _ _).
      * apply not_elem_of_nil.
      * intros Hin. apply list_elem_of_singleton in Hin. discriminate.
    + destruct (select_items false "column_name" items) as [ns|e] eqn:Hns; cbn [bind];
        [|by apply select_items_Raise in Hns].
      rewrite append_unless_app, <- app_assoc.
      eexists. split; [reflexivity |].
      intros Hin. apply elem_of_app in Hin as [Hin | Hin].
      * destruct (DatamanageDAO.validate_columns_exist _ _ _);
          [by apply elem_of_nil in Hin |].
        apply list_elem_of_singleton in Hin. discriminate.
      * destruct (DatamanageDAO.validate_columns_uniqueness _ _ _);
          [by apply elem_of_nil in Hin |].
        apply list_elem_of_singleton in Hin. discriminate.
  - eexists. split; [reflexivity |].
    intros Hin. apply list_elem_of_singleton in Hin. discriminate.
Qed.

Lemma _validate_metrics_result self s metrics exceptions :
  match _validate_metrics self s metrics exceptions with
  | Ok exceptions' =>
      ∃ added, exceptions' = exceptions ++ added ∧
               DatabaseChangeValidationError ∉ added
  | Raise e => builtin_error e
  end.
Proof.
  unfold _validate_metrics.
  destruct (_get_duplicates metrics "metric_name") as [[|d dups]|e] eqn:Hd;
    cbn [bind]; [| | by apply _get_duplicates_Raise in Hd].
  - destruct (iter_values metrics) as [items|e] eqn:Hi; cbn [bind].
    2:{ destruct metrics; simpl in Hi; try discriminate; by injection Hi as <-. }
    destruct (select_items true "id" items) as [ids|e] eqn:Hids; cbn [bind];
      [|by apply select_items_Raise in Hids].
    destruct (select_items false "metric_name" items) as [ns|e] eqn:Hns; cbn [bind];
      [|by apply select_items_Raise in Hns].
    rewrite !append_unless_app, <- app_assoc.
    eexists. split; [reflexivity |].
    intros Hin. apply elem_of_app in Hin as [Hin | Hin].
    + destruct (DatamanageDAO.validate_metrics_exist _ _ _);
        [by apply elem_of_nil in Hin |].
      apply list_elem_of_singleton in Hin. discriminate.
    + destruct (DatamanageDAO.validate_metrics_uniqueness _ _ _);
        [by apply elem_of_nil in Hin |].
      apply list_elem_of_singleton in Hin. discriminate.
  - eexists. split; [reflexivity |].
    intros Hin. apply list_elem_of_singleton in Hin. discriminate.
Qed.

Lemma raise_or_report {A} (c : A) (exceptions : list validation_error) (P : Prop) :
  (DatabaseChangeValidationError ∈ exceptions ↔ P) →
  match (match exceptions with
         | _ :: _ => Raise (DatamanageInvalidError exceptions)
         | [] => Ok c
         end) with
  | Ok _ => ¬ P
  | Raise (DatamanageInvalidError errors) =>
      DatabaseChangeValidationError ∈ errors ↔ P
  | Raise _ => True
  end.
Proof.
  intros Hiff. destruct exceptions as [|e es]; [|done].
  intros HP. apply Hiff in HP. by apply elem_of_nil in HP.
Qed.

(** The outcome of [validate] against the [database] field of the
    payload: it passes only without one, and it reports a
    [DatabaseChangeValidationError] exactly when there is one. *)
Lemma validate_database_change self g s :
  match validate self g s with
  | Ok _ => truthy (dict_get "database" (_properties self)) ≠ true
  | Raise (DatamanageInvalidError errors) =>
      DatabaseChangeValidationError ∈ errors ↔
      truthy (dict_get "database" (_properties self)) = true
  | Raise _ => True
  end.
Proof.
  unfold validate.
  destruct (DatamanageDAO.find_by_id s (_model_id self)) as [model|]; [|done].
  destruct (raise_for_ownership g model); [done |].
  rewrite append_unless_app. unfold differs_from_model. rewrite andb_true_r.
  set (database := dict_get "database" (_properties self)).
  set (unique := DatamanageDAO.validate_update_uniqueness _ _ _ _).
  set (E1 := if truthy database
             then ([] ++ (if unique then [] else _)) ++ [DatabaseChangeValidationError]
             else [] ++ (if unique then [] else _)).
  assert (HE1 : DatabaseChangeValidationError ∈ E1 ↔ truthy database = true).
  { subst E1. destruct (truthy database), unique; simpl; split; try done;
      try (intros _; set_solver);
      intros Hin; repeat (apply elem_of_cons in Hin as [Hin | Hin]; [discriminate |]);
      by apply elem_of_nil in Hin. }
  clearbody E1.
  set (PE := match populate_owners g _ with
             | Some owners => (dict_set "owners" _ (_properties self), E1)
             | None => (_properties self, E1 ++ [OwnersValidationError])
             end).
  assert (HE2 : DatabaseChangeValidationError ∈ PE.2 ↔ truthy database = true).
  { subst PE. destruct (populate_owners g _); simpl; [done |].
    rewrite elem_of_app, HE1. split; [|by left]. intros [? | Hin]; [done |].
    apply list_elem_of_singleton in Hin. discriminate. }
  destruct PE as [properties E2]. simpl in HE2. clear HE1 E1.
  destruct (truthy (dict_get "columns" properties)).
  - pose proof (_validate_columns_result self s (dict_get "columns" properties) E2) as Hc.
    destruct (_validate_columns _ _ _ _) as [E3|e]; cbn [bind]; [|by destruct e].
    destruct Hc as (added & -> & Hadd).
    destruct (truthy (dict_get "metrics" properties)).
    + pose proof (_validate_metrics_result self s (dict_get "metrics" properties)
                    (E2 ++ added)) as Hm.
      destruct (_validate_metrics _ _ _ _) as [E4|e]; cbn [bind]; [|by destruct e].
      destruct Hm as (added' & -> & Hadd').
      apply raise_or_report. rewrite !elem_of_app, HE2. tauto.
    + cbn [bind]. apply raise_or_report. rewrite !elem_of_app, HE2. tauto.
  - cbn [bind]. destruct (truthy (dict_get "metrics" properties)).
    + pose proof (_validate_metrics_result self s (dict_get "metrics" properties) E2) as Hm.
      destruct (_validate_metrics _ _ _ _) as [E4|e]; cbn [bind]; [|by destruct e].
      destruct Hm as (added' & -> & Hadd').
      apply raise_or_report. rewrite !elem_of_app, HE2. tauto.
    + cbn [bind]. by apply raise_or_report.
Qed.

(** Past the lookup and the ownership check, [validate] passes, reports
    validation errors, or fails on a malformed payload. *)
Lemma validate_outcome self g s model :
  DatamanageDAO.find_by_id s (_model_id self) = Some model →
  raise_for_ownership g model = false →
  match validate self g s with
  | Ok _ | Raise (DatamanageInvalidError _) => True
  | Raise e => builtin_error e
  end.
Proof.
  intros Hfind Hown. unfold validate. rewrite Hfind, Hown.
  destruct (populate_owners g _); cbv zeta beta iota;
    match goal with |- context [append_unless ?a ?b ?c] => generalize (append_unless a b c) end;
    intros E0;
    match goal with |- context [if ?c then E0 ++ ?x else E0] =>
      generalize (if c then E0 ++ x else E0) end;
    intros E1.
  all: match goal with
       | |- context [_validate_columns ?cmd ?ses ?c ?E] =>
           pose proof (_validate_columns_result cmd ses c E) as Hc
       end.
  all: destruct (truthy (dict_get "columns" _)); cbn [bind];
       [ destruct (_validate_columns _ _ _ _) as [E3|e]; cbn [bind]; [|by destruct e] |].
  all: match goal with
       | |- context [_validate_metrics ?cmd ?ses ?c ?E] =>
           pose proof (_validate_metrics_result cmd ses c E) as Hm
       end.
  all: destruct (truthy (dict_get "metrics" _)); cbn [bind];
       [ destruct (_validate_metrics _ _ _ _) as [E4|e]; cbn [bind]; [|by destruct e] |].
  all: match goal with |- match (match ?E with _ => _ end) with _ => _ end =>
         by destruct E end.
Qed.

(** C9. A payload whose [database] field is present and truthy never
    passes [validate]: once the dataset is found and owned, validation
    reports a [DatabaseChangeValidationError] (unless a malformed list of
    columns or metrics makes Python itself fail first), and this holds
    even when the payload names the current database of the dataset, as
    the identifier is compared with the model rather than with its
    [database_id]. A payload without the field, or with a falsy one, never
    gets this error. *)
Theorem database_change_validation self g s :
  (truthy (dict_get "database" (_properties self)) = true →
     (∀ c, validate self g s ≠ Ok c) ∧
     (∀ errors, validate self g s = Raise (DatamanageInvalidError errors) →
                DatabaseChangeValidationError ∈ errors) ∧
     (∀ model,
        DatamanageDAO.find_by_id s (_model_id self) = Some model →
        raise_for_ownership g model = false →
        (∃ errors, validate self g s = Raise (DatamanageInvalidError errors) ∧
                   DatabaseChangeValidationError ∈ errors) ∨
        (∃ e, validate self g s = Raise e ∧ builtin_error e))) ∧
  (∀ model,
     DatamanageDAO.find_by_id s (_model_id self) = Some model →
     raise_for_ownership g model = false →
     dict_get "database" (_properties self) = VInt (SqlaTable.database_id model) →
     SqlaTable.database_id model ≠ 0%Z →
     (∃ errors, validate self g s = Raise (DatamanageInvalidError errors) ∧
                DatabaseChangeValidationError ∈ errors) ∨
     (∃ e, validate self g s = Raise e ∧ builtin_error e)) ∧
  (truthy (dict_get "database" (_properties self)) = false →
     DatabaseChangeValidationError ∉ reported (validate self g s)).
Proof.
  pose proof (validate_database_change self g s) as Hdb.
  assert (Hreach : truthy (dict_get "database" (_properties self)) = true →
     ∀ model,
        DatamanageDAO.find_by_id s (_model_id self) = Some model →
        raise_for_ownership g model = false →
        (∃ errors, validate self g s = Raise (DatamanageInvalidError errors) ∧
                   DatabaseChangeValidationError ∈ errors) ∨
        (∃ e, validate self g s = Raise e ∧ builtin_error e)).
  { intros Ht model Hfind Hown.
    pose proof (validate_outcome self g s model Hfind Hown) as Hout.
    destruct (validate self g s) as [c|e]; [done |].
    destruct e; try (right; eexists; split; [reflexivity | exact Hout]); try done.
    left. eexists. split; [reflexivity |]. by apply Hdb. }
  split; [| split].
  - intros Ht. split; [| split].
    + intros c Hc. rewrite Hc in Hdb. done.
    + intros errors He. rewrite He in Hdb. by apply Hdb.
    + by apply Hreach.
  - intros model Hfind Hown Hid Hne. apply Hreach with (model := model); [|done..].
    rewrite Hid. simpl. by apply negb_true_iff, Z.eqb_neq.
  - intros Hf. destruct (validate self g s) as [c|e]; simpl; [apply not_elem_of_nil |].
    destruct e; try apply not_elem_of_nil.
    intros Hin. apply Hdb in Hin. congruence.
Qed.

End UpdateValidation.

Example validate_same_database :
  UpdateDatamanageCommand.validate
    (H0 := InMemory.owners_only) (H1 := InMemory.owners_by_id) (H2 := InMemory.checks)
    (UpdateDatamanageCommand.init 7 InMemory.same_database false)
    (GUser InMemory.alice) InMemory.stored
  = Raise (DatamanageInvalidError [DatabaseChangeValidationError]).
Proof. vm_compute. reflexivity. Qed.

Example get_duplicates_of_mixed_names :
  UpdateDatamanageCommand._get_duplicates
    (VList [VDict [("column_name", VBool true)]; VDict [("column_name", VStr "a")];
            VDict [("column_name", VInt 1)]; VDict [("column_name", VStr "b")];
            VDict [("column_name", VStr "a")]]) "column_name"
  = Ok [VBool true; VStr "a"].
Proof. vm_compute. reflexivity. Qed.

Lemma database_change_validation_witness :
  DatabaseChangeValidationError ∈
    reported (UpdateDatamanageCommand.validate
                (H0 := InMemory.owners_only) (H1 := InMemory.owners_by_id)
                (H2 := InMemory.checks)
                (UpdateDatamanageCommand.init 7 InMemory.same_database false)
                (GUser InMemory.alice) InMemory.stored) ∧
  DatabaseChangeValidationError ∉
    reported (UpdateDatamanageCommand.validate
                (H0 := InMemory.owners_only) (H1 := InMemory.owners_by_id)
                (H2 := InMemory.checks)
                (UpdateDatamanageCommand.init 7 InMemory.rename_column false)
                (GUser InMemory.alice) InMemory.stored).
Proof.
  split.
  - apply (proj1 (proj2 (proj1 (@database_change_validation
             InMemory.owners_only InMemory.owners_by_id InMemory.checks
             (UpdateDatamanageCommand.init 7 InMemory.same_database false)
             (GUser InMemory.alice) InMemory.stored) eq_refl))
           [DatabaseChangeValidationError]).
    vm_compute. reflexivity.
  - apply (proj2 (proj2 (@database_change_validation
             InMemory.owners_only InMemory.owners_by_id InMemory.checks
             (UpdateDatamanageCommand.init 7 InMemory.rename_column false)
             (GUser InMemory.alice) InMemory.stored))).
    vm_compute. reflexivity.
Defined.

(** ** The delete command ([DeleteDatamanageCommand.run]) *)

Section DeleteCommand.
Import DeleteDatamanageCommand.
Context `{Backend} `{SecurityManager}.

Lemma find_by_id_has_id s model_id model :
  DatamanageDAO.find_by_id s model_id = Some model → has_id model_id model = true.
Proof. unfold DatamanageDAO.find_by_id. intros Hf. by apply find_some in Hf as [_ ?]. Qed.

Lemma same_row_has_id model_id model r :
  has_id model_id model = true → same_row model r = has_id model_id r.
Proof.
  unfold same_row, has_id. destruct (SqlaTable.id model) as [i|]; [|done].
  intros Hi. apply Z.eqb_eq in Hi as ->. done.
Qed.

Lemma find_by_id_deleted s model_id model :
  has_id model_id model = true →
  List.find (has_id model_id)
            (List.filter (fun r => negb (same_row model r)) (pending s)) = None.
Proof.
  intros Hid. induction (pending s) as [|r rows IH]; simpl; [done |].
  rewrite (same_row_has_id _ _ r Hid).
  destruct (has_id model_id r) eqn:Hr; simpl; [done |]. by rewrite Hr.
Qed.

Lemma validate_found model_id g s model :
  DatamanageDAO.find_by_id s model_id = Some model →
  validate model_id g s =
  if raise_for_ownership g model then Raise DatamanageForbiddenError else Ok model.
Proof. unfold validate. by intros ->. Qed.

(** C3. [run] raises [DatamanageNotFoundError] when no dataset has the
    identifier and [DatamanageForbiddenError] when the requester lacks
    ownership, both without touching the session; when the delete of the
    data-access layer or the commit fails with [SQLAlchemyError] or
    [DAODeleteFailedError] it rolls back and raises
    [DatamanageDeleteFailedError], the stored rows being those from before;
    otherwise it commits the session without the row and returns the
    deleted model. *)
Theorem delete_run_cases (model_id : Z) (g : g_user) (s : Session) :
  (DatamanageDAO.find_by_id s model_id = None →
     run model_id g s = (Raise DatamanageNotFoundError, s)) ∧
  (∀ model,
     DatamanageDAO.find_by_id s model_id = Some model →
     raise_for_ownership g model = true →
     run model_id g s = (Raise DatamanageForbiddenError, s)) ∧
  (∀ model e,
     DatamanageDAO.find_by_id s model_id = Some model →
     raise_for_ownership g model = false →
     backend_fault OpDelete = Some e ∨
       (backend_fault OpDelete = None ∧ backend_fault OpCommit = Some e) →
     e = SQLAlchemyError ∨ e = DAODeleteFailedError →
     ∃ s', run model_id g s = (Raise DatamanageDeleteFailedError, s') ∧
           committed s' = committed s ∧ pending s' = committed s) ∧
  (∀ model,
     DatamanageDAO.find_by_id s model_id = Some model →
     raise_for_ownership g model = false →
     backend_fault OpDelete = None →
     backend_fault OpCommit = None →
     ∃ s', run model_id g s = (Ok model, s') ∧
           pending s' = List.filter (fun r => negb (same_row model r)) (pending s) ∧
           committed s' = pending s' ∧
           DatamanageDAO.find_by_id s' model_id = None).
Proof.
  split; [| split; [| split]].
  - intros Hfind. unfold run, validate. by rewrite Hfind.
  - intros model Hfind Hown. unfold run.
    by rewrite (validate_found _ _ _ _ Hfind), Hown.
  - intros model e Hfind Hown Hfault He. unfold run.
    rewrite (validate_found _ _ _ _ Hfind), Hown.
    unfold DatamanageDAO.delete, commit, on_error.
    destruct Hfault as [Hd | [Hd Hc]]; rewrite Hd; [| rewrite Hc];
      destruct He as [-> | ->]; simpl; eexists; split; try reflexivity; done.
  - intros model Hfind Hown Hd Hc. unfold run.
    rewrite (validate_found _ _ _ _ Hfind), Hown.
    unfold DatamanageDAO.delete, commit. rewrite Hd, Hc. simpl.
    eexists. split; [reflexivity |]. simpl. split; [done |]. split; [done |].
    unfold DatamanageDAO.find_by_id. simpl.
    apply find_by_id_deleted. by apply (find_by_id_has_id s).
Qed.

End DeleteCommand.

Lemma delete_run_cases_witness :
  (∃ s', DeleteDatamanageCommand.run (H := InMemory.failing OpCommit SQLAlchemyError)
           (H0 := InMemory.owners_only) 7 (GUser InMemory.alice) InMemory.stored
         = (Raise DatamanageDeleteFailedError, s') ∧
         committed s' = committed InMemory.stored ∧
         pending s' = committed InMemory.stored) ∧
  DeleteDatamanageCommand.run (H := InMemory.healthy) (H0 := InMemory.owners_only)
    7 (GUser InMemory.bob) InMemory.stored
    = (Raise DatamanageForbiddenError, InMemory.stored) ∧
  DeleteDatamanageCommand.run (H := InMemory.healthy) (H0 := InMemory.owners_only)
    8 (GUser InMemory.alice) InMemory.stored
    = (Raise DatamanageNotFoundError, InMemory.stored) ∧
  (∃ s', DeleteDatamanageCommand.run (H := InMemory.healthy) (H0 := InMemory.owners_only)
           7 (GUser InMemory.alice) InMemory.stored = (Ok InMemory.birth_names, s') ∧
         pending s' = [] ∧ committed s' = pending s').
Proof.
  split; [| split; [| split]].
  - apply (proj1 (proj2 (proj2 (@delete_run_cases
             (InMemory.failing OpCommit SQLAlchemyError) InMemory.owners_only
             7 (GUser InMemory.alice) InMemory.stored)))
           InMemory.birth_names SQLAlchemyError);
      [reflexivity | reflexivity | right; split; reflexivity | by left].
  - apply (proj1 (proj2 (@delete_run_cases InMemory.healthy InMemory.owners_only
             7 (GUser InMemory.bob) InMemory.stored)) InMemory.birth_names);
      reflexivity.
  - apply (proj1 (@delete_run_cases InMemory.healthy InMemory.owners_only
             8 (GUser InMemory.alice) InMemory.stored)). reflexivity.
  - destruct (proj2 (proj2 (proj2 (@delete_run_cases InMemory.healthy InMemory.owners_only
             7 (GUser InMemory.alice) InMemory.stored)))
             InMemory.birth_names eq_refl eq_refl eq_refl eq_refl)
      as (s' & Hrun & Hp & Hc & _).
    exists s'. split; [exact Hrun |]. split; [exact Hp | exact Hc].
Defined.

(** ** Ownership in the commands *)

Section Ownership.
Context `{Backend} `{SecurityManager} `{UpdateMixin} `{DatamanageDAO.Checks}
        `{Json} `{ImportExportMixin} `{ExportDatamanageCommand.Environment}.

(** C2, as amended. The delete and the update command check ownership
    before they act: when the requester lacks ownership of the dataset
    with the given identifier, each raises [DatamanageForbiddenError] and
    leaves the session as it was. The export step takes no requester and
    checks no ownership: it yields the file of every dataset whose JSON
    fields decode. *)
Theorem ownership_validated (self : UpdateDatamanageCommand.t) (g : g_user)
  (s : Session) (model : SqlaTable.t) :
  (DatamanageDAO.find_by_id s (UpdateDatamanageCommand._model_id self) = Some model →
   raise_for_ownership g model = true →
   DeleteDatamanageCommand.run (UpdateDatamanageCommand._model_id self) g s
     = (Raise DatamanageForbiddenError, s) ∧
   UpdateDatamanageCommand.run self g s = (Raise DatamanageForbiddenError, s)) ∧
  (∀ export_related payload,
     ExportDatamanageCommand.decode_json_fields (export_to_dict model) = Ok payload →
     ∃ file rest ended,
       ExportDatamanageCommand._export model export_related = (file :: rest, ended)).
Proof.
  split.
  - intros Hfind Hown. split.
    + unfold DeleteDatamanageCommand.run.
      by rewrite (validate_found _ _ _ _ Hfind), Hown.
    + unfold UpdateDatamanageCommand.run, UpdateDatamanageCommand.validate.
      by rewrite Hfind, Hown.
  - intros export_related payload Hp. unfold ExportDatamanageCommand._export.
    rewrite Hp. destruct export_related; [|eauto].
    destruct (ExportDatamanageCommand.decode_key _ _); eauto.
Qed.

End Ownership.

Lemma ownership_validated_witness :
  DeleteDatamanageCommand.run (H := InMemory.healthy) (H0 := InMemory.owners_only)
    7 (GUser InMemory.bob) InMemory.stored
    = (Raise DatamanageForbiddenError, InMemory.stored) ∧
  UpdateDatamanageCommand.run (H := InMemory.healthy) (H0 := InMemory.owners_only)
    (H1 := InMemory.owners_by_id) (H2 := InMemory.checks)
    (UpdateDatamanageCommand.init 7 InMemory.rename_column false)
    (GUser InMemory.bob) InMemory.stored
    = (Raise DatamanageForbiddenError, InMemory.stored).
Proof.
  apply (proj1 (@ownership_validated InMemory.healthy InMemory.owners_only
           InMemory.owners_by_id InMemory.checks InMemory.json
           (InMemory.mixin [InMemory.examples]) InMemory.environment
           (UpdateDatamanageCommand.init 7 InMemory.rename_column false)
           (GUser InMemory.bob) InMemory.stored InMemory.birth_names));
    reflexivity.
Defined.

(** C2, as stated, fails for the export command: a requester who does
    not own the dataset gets its files rather than a forbidden error. *)
Lemma export_ignores_ownership :
  ¬ (∀ (g : g_user) (model : SqlaTable.t) (export_related : bool),
       raise_for_ownership (SecurityManager := InMemory.owners_only) g model = true →
       ExportDatamanageCommand._export
         (H := InMemory.json) (H0 := InMemory.mixin [InMemory.examples])
         (H1 := InMemory.environment) model export_related
       = ([], Some DatamanageForbiddenError)).
Proof.
  intros Hclaim.
  specialize (Hclaim (GUser InMemory.bob) InMemory.birth_names true eq_refl).
  vm_compute in Hclaim. discriminate Hclaim.
Qed.

Example export_birth_names_for_bob :
  raise_for_ownership (SecurityManager := InMemory.owners_only)
    (GUser InMemory.bob) InMemory.birth_names = true ∧
  map fst (fst (ExportDatamanageCommand._export
                  (H := InMemory.json) (H0 := InMemory.mixin [InMemory.examples])
                  (H1 := InMemory.environment) InMemory.birth_names true))
  = ["datamanage/examples/birth_names.yaml"; "databases/examples.yaml"].
Proof. split; vm_compute; reflexivity. Qed.

(** ** The importer ([import_datamanage], [load_data]) *)

Section Importer.
Import Utils.
Context `{Json} `{Platform} `{ImportExportMixin}.

Lemma select_from_spec p pre rows f :
  f ∈ select_from p pre rows →
  before f ++ obj f :: after f = pre ++ rows ∧ p (obj f) = true.
Proof.
  revert pre. induction rows as [|r rows IH]; intros pre; simpl.
  - intros Hf. by apply elem_of_nil in Hf.
  - intros Hf. apply elem_of_app in Hf as [Hf | Hf].
    + destruct (p r) eqn:Hr; [|by apply elem_of_nil in Hf].
      apply list_elem_of_singleton in Hf as ->. done.
    + apply IH in Hf as [Heq Hp]. by rewrite <- app_assoc in Heq.
Qed.

(** The first row a query finds is a row of the session. *)
Lemma first_select p s f :
  first (select p s) = Some f → unfocus f = pending s ∧ p (obj f) = true.
Proof.
  unfold first, select, unfocus. intros Hf.
  apply (select_from_spec p [] (pending s)).
  destruct (select_from p [] (pending s)); [done |].
  injection Hf as ->. by left.
Qed.

(** C10. When the uuid of the configuration is that of a stored
    datamanage and overwrite is false, [import_datamanage] returns that
    stored record and leaves the world as it was: the rows of the session
    (their fields and their owners among them) are the same, and no event
    happened, so nothing was imported and no data was loaded. *)
Theorem import_existing_without_overwrite (g : g_user) (config : dict)
  (force_data : bool) (w : World) (uuid : value) (existing : focus) :
  dict_lookup "uuid" config = Some uuid →
  first (select (has_uuid uuid) (session w)) = Some existing →
  import_datamanage g config false force_data w = (Ok (obj existing), w) ∧
  obj existing ∈ pending (session w) ∧
  has_uuid uuid (obj existing) = true.
Proof.
  intros Huuid Hfirst. unfold import_datamanage. simpl. rewrite Huuid, Hfirst.
  destruct (first_select _ _ _ Hfirst) as [Hrows Hp].
  split; [done |]. split; [|done].
  rewrite <- Hrows. unfold unfocus. apply elem_of_app. right. by left.
Qed.

Lemma endswith_iff s suffix :
  endswith s suffix = true ↔ ∃ prefix, s = prefix +:+ suffix.
Proof.
  induction s as [|c s IH]; cbn [endswith].
  - rewrite orb_false_r, String.eqb_eq. split.
    + intros <-. by exists EmptyString.
    + intros (prefix & Hp). destruct prefix; simpl in Hp; [done | discriminate].
  - rewrite orb_true_iff, String.eqb_eq, IH. split.
    + intros [<- | (prefix & ->)]; [by exists EmptyString | by exists (String c prefix)].
    + intros (prefix & Hp). destruct prefix as [|c' prefix]; simpl in Hp; [by left |].
      injection Hp as -> ->. right. eauto.
Qed.

(** C7. [load_data] opens the URI, wraps the response in [gzip.open]
    exactly when the URI ends with [.gz], then parses that stream as
    UTF-8 CSV, in this order; and when the frame is parsed and typed it
    loads the frame into the table of the datamanage. *)
Theorem load_data_gzip (data_uri : string) (datamanage : SqlaTable.t)
  (database : Database.t) (w : World) (data : stream) :
  urlopen data_uri = Ok data →
  let gz := endswith data_uri ".gz" in
  let parsed := if gz then GzipFile data else data in
  (gz = true ↔ ∃ prefix, data_uri = prefix +:+ ".gz") ∧
  ∃ tail,
    events (load_data data_uri datamanage database w).2 =
      events w ++ EvUrlopen data_uri :: (if gz then [EvGzipOpen] else [])
               ++ EvReadCsv parsed "utf-8" :: tail ∧
    (EvGzipOpen ∈ EvUrlopen data_uri :: (if gz then [EvGzipOpen] else [])
                  ++ EvReadCsv parsed "utf-8" :: tail ↔ gz = true) ∧
    (∀ df dtype df',
       read_csv parsed "utf-8" = Ok df →
       get_dtype df datamanage = Ok dtype →
       convert_temporal dtype df = Ok df' →
       ∃ call, tail = [EvToSql call] ∧ ts_frame call = df' ∧ ts_dtype call = dtype ∧
               ts_name call = SqlaTable.table_name datamanage ∧
               ts_if_exists call = "replace").
Proof.
  intros Hopen gz parsed. split; [apply endswith_iff |].
  assert (Hno : ∀ tail, (∀ e, e ∈ tail → ∃ call, e = EvToSql call) →
            (EvGzipOpen ∈ EvUrlopen data_uri :: (if gz then [EvGzipOpen] else [])
                  ++ EvReadCsv parsed "utf-8" :: tail ↔ gz = true)).
  { intros tail Htail. split.
    - intros Hin. apply elem_of_cons in Hin as [? | Hin]; [done |].
      destruct gz; [done |]. simpl in Hin.
      apply elem_of_cons in Hin as [? | Hin]; [done |].
      destruct (Htail _ Hin) as [call ?]. done.
    - intros ->. right. by left. }
  unfold load_data. rewrite Hopen. fold gz.
  assert (Hw : (if gz then (GzipFile data, emit EvGzipOpen (emit (EvUrlopen data_uri) w))
                else (data, emit (EvUrlopen data_uri) w))
               = (parsed, {| session := session w;
                             events := events w ++ EvUrlopen data_uri
                                         :: (if gz then [EvGzipOpen] else []) |})).
  { subst parsed. destruct gz; simpl; [|done].
    unfold emit. simpl. by rewrite <- app_assoc. }
  rewrite Hw. clear Hw.
  destruct (read_csv parsed "utf-8") as [df|e] eqn:Hcsv.
  2:{ exists []. simpl. rewrite <- app_assoc. simpl. split; [|split].
      - reflexivity.
      - apply Hno. intros e' He'. by apply elem_of_nil in He'.
      - intros df dtype df' Hdf. congruence. }
  destruct (get_dtype df datamanage) as [dtype|e] eqn:Hdt; cbn [bind].
  2:{ exists []. simpl. rewrite <- app_assoc. simpl. split; [|split].
      - reflexivity.
      - apply Hno. intros e' He'. by apply elem_of_nil in He'.
      - intros df0 dtype df' Hdf Hd. congruence. }
  destruct (convert_temporal dtype df) as [df'|e] eqn:Hconv; cbn [bind].
  2:{ exists []. simpl. rewrite <- app_assoc. simpl. split; [|split].
      - reflexivity.
      - apply Hno. intros e' He'. by apply elem_of_nil in He'.
      - intros df0 dtype0 df'0 Hdf Hd Hc. congruence. }
  eexists [EvToSql _]. simpl. rewrite <- !app_assoc. simpl. split; [|split].
  - reflexivity.
  - apply Hno. intros e' He'. apply list_elem_of_singleton in He'. eauto.
  - intros df0 dtype0 df'0 Hdf Hd Hc.
    assert (df0 = df) as -> by congruence.
    assert (dtype0 = dtype) as -> by congruence.
    assert (df'0 = df') as -> by congruence.
    eexists. split; [reflexivity |]. done.
Qed.

Lemma no_import_nil : no_import [].
Proof. intros config sync. apply not_elem_of_nil. Qed.

Lemma no_import_cons e evs :
  (∀ config sync, e ≠ EvImportFromDict config sync) → no_import evs →
  no_import (e :: evs).
Proof.
  intros He Hevs config sync Hin. apply elem_of_cons in Hin as [Hin | Hin].
  - by apply (He config sync).
  - by apply (Hevs config sync).
Qed.

Lemma no_import_app evs1 evs2 :
  no_import evs1 → no_import evs2 → no_import (evs1 ++ evs2).
Proof.
  intros H1' H2' config sync Hin. apply elem_of_app in Hin as [Hin | Hin].
  - by apply (H1' config sync).
  - by apply (H2' config sync).
Qed.

(** [load_data] only adds events, none of which is an import, and it
    leaves the session alone. *)
Lemma load_data_events data_uri datamanage database w :
  ∃ new, events (load_data data_uri datamanage database w).2 = events w ++ new ∧
         no_import new ∧
         session (load_data data_uri datamanage database w).2 = session w.
Proof.
  unfold load_data.
  destruct (urlopen data_uri) as [data|e].
  2:{ exists [EvUrlopen data_uri]. repeat split.
      apply no_import_cons; [done | apply no_import_nil]. }
  destruct (endswith data_uri ".gz");
    (destruct (read_csv _ "utf-8") as [df|e];
     [ destruct (get_dtype df datamanage) as [dtype|e]; cbn [bind];
       [ destruct (convert_temporal dtype df) as [df'|e]; cbn [bind] |] |]);
    simpl; rewrite <- ?app_assoc; simpl;
    (eexists; split; [reflexivity |]; split; [|reflexivity]);
    repeat (apply no_import_cons; [done |]); apply no_import_nil.
Qed.

Lemma assign_ids_singleton next r :
  (assign_ids next [r]).1 =
  [match SqlaTable.id r with Some _ => r | None => SqlaTable.set_id r (Some next) end].
Proof. simpl. by destruct (SqlaTable.id r). Qed.

Lemma flush_children f :
  SqlaTable.columns (obj (flush f)) = SqlaTable.columns (obj f) ∧
  SqlaTable.metrics (obj (flush f)) = SqlaTable.metrics (obj f).
Proof.
  unfold flush. destruct (assign_ids _ (before f)) as [b next].
  pose proof (assign_ids_singleton next (obj f)) as Ho.
  destruct (assign_ids next [obj f]) as [o next'].
  destruct (assign_ids next' (after f)) as [a next'']. simpl in *. subst o. simpl.
  by destruct (SqlaTable.id (obj f)).
Qed.

(** The tail of the import adds no import of its own and keeps the
    columns and the metrics of the imported object. *)
Lemma finish_import_spec g data_uri force_data f w r w' :
  finish_import g data_uri force_data f w = (r, w') →
  (∃ new, events w' = events w ++ new ∧ no_import new) ∧
  (∀ m, r = Ok m →
        SqlaTable.columns m = SqlaTable.columns (obj f) ∧
        SqlaTable.metrics m = SqlaTable.metrics (obj f)).
Proof.
  unfold finish_import.
  set (fw := match SqlaTable.id (obj f) with
             | Some _ => (f, w)
             | None => (flush f, emit EvFlush w)
             end).
  assert (Hfw : (∃ new, events fw.2 = events w ++ new ∧ no_import new) ∧
                SqlaTable.columns (obj fw.1) = SqlaTable.columns (obj f) ∧
                SqlaTable.metrics (obj fw.1) = SqlaTable.metrics (obj f)).
  { subst fw. destruct (SqlaTable.id (obj f)); simpl.
    - split; [|done]. exists []. rewrite app_nil_r. split; [done | apply no_import_nil].
    - split; [|apply flush_children]. eexists. split; [reflexivity |].
      apply no_import_cons; [done | apply no_import_nil]. }
  destruct fw as [f1 w1]. simpl in Hfw. destruct Hfw as ((new1 & Hev1 & Hno1) & Hcols & Hmets).
  set (lw := if truthy data_uri && _ then _ else _).
  assert (Hlw : ∃ new, events lw.2 = events w ++ new ∧ no_import new).
  { subst lw. destruct (truthy data_uri && _).
    - destruct data_uri; simpl;
        try (exists new1; split; [exact Hev1 | exact Hno1]).
      destruct (load_data_events s (obj f1) (SqlaTable.database (obj f1)) (store f1 w1))
        as (new2 & Hev2 & Hno2 & _).
      exists (new1 ++ new2). rewrite Hev2. simpl. rewrite Hev1, app_assoc.
      split; [done | by apply no_import_app].
    - simpl. exists new1. split; [exact Hev1 | exact Hno1]. }
  destruct lw as [loaded w2]. simpl in Hlw.
  destruct loaded as [u|e]; [| intros [= <- <-]; split; [exact Hlw | done]].
  destruct g; intros [= <- <-]; (split; [exact Hlw |]); intros m [= <-]; simpl; done.
Qed.

(** What an import that returns has done: it stopped at the stored
    record, or it called the mapper once, with the encoded configuration
    and the [sync] list of its [overwrite] flag, and returns the object
    the mapper gave (or, after [MultipleResultsFound], the stored one)
    with its columns and metrics. *)
Lemma import_datamanage_spec g config overwrite force_data w r w' :
  import_datamanage g config overwrite force_data w = (r, w') →
  (∃ new, events w' = events w ++ new ∧
          ∀ cfg sync, EvImportFromDict cfg sync ∈ new → sync = sync_list overwrite) ∧
  (∀ m, r = Ok m →
     (overwrite = false ∧ m ∈ pending (session w) ∧ w' = w) ∨
     ∃ uuid encoded f,
       dict_lookup "uuid" config = Some uuid ∧
       EvImportFromDict encoded (sync_list overwrite) ∈ events w' ∧
       (import_from_dict (session w) encoded (sync_list overwrite) = Ok f ∨
        import_from_dict (session w) encoded (sync_list overwrite)
          = Raise MultipleResultsFound ∧
        one (select (has_uuid uuid) (session w)) = Ok f) ∧
       SqlaTable.columns m = SqlaTable.columns (obj f) ∧
       SqlaTable.metrics m = SqlaTable.metrics (obj f)).
Proof.
  assert (Hnil : ∃ new, events w = events w ++ new ∧
            ∀ cfg sync, EvImportFromDict cfg sync ∈ new → sync = sync_list overwrite).
  { exists []. rewrite app_nil_r. split; [done |]. intros cfg sync Hin.
    by apply elem_of_nil in Hin. }
  unfold import_datamanage. simpl.
  destruct (dict_lookup "uuid" config) as [uuid|] eqn:Huuid;
    [| intros [= <- <-]; split; [exact Hnil | done]].
  set (existing := first (select (has_uuid uuid) (session w))).
  assert (Hrest : ∀ config1,
    match encode_json_fields config1 with
    | Ok config2 =>
        match
          match import_from_dict (session (emit (EvImportFromDict config2 (sync_list overwrite)) w))
                  config2 (sync_list overwrite) with
          | Raise MultipleResultsFound =>
              one (select (has_uuid uuid)
                     (session (emit (EvImportFromDict config2 (sync_list overwrite)) w)))
          | other => other
          end
        with
        | Ok f => finish_import g (dict_get "data" config2) force_data f
                    (emit (EvImportFromDict config2 (sync_list overwrite)) w)
        | Raise e => (Raise e, emit (EvImportFromDict config2 (sync_list overwrite)) w)
        end
    | Raise e => (Raise e, w)
    end = (r, w') →
    (∃ new, events w' = events w ++ new ∧
          ∀ cfg sync, EvImportFromDict cfg sync ∈ new → sync = sync_list overwrite) ∧
    (∀ m, r = Ok m →
     (overwrite = false ∧ m ∈ pending (session w) ∧ w' = w) ∨
     ∃ uuid0 encoded f,
       Some uuid = Some uuid0 ∧
       EvImportFromDict encoded (sync_list overwrite) ∈ events w' ∧
       (import_from_dict (session w) encoded (sync_list overwrite) = Ok f ∨
        import_from_dict (session w) encoded (sync_list overwrite)
          = Raise MultipleResultsFound ∧
        one (select (has_uuid uuid0) (session w)) = Ok f) ∧
       SqlaTable.columns m = SqlaTable.columns (obj f) ∧
       SqlaTable.metrics m = SqlaTable.metrics (obj f))).
  { intros config1.
    destruct (encode_json_fields config1) as [encoded|e];
      [| intros [= <- <-]; split; [exact Hnil | done]].
    set (ev := EvImportFromDict encoded (sync_list overwrite)).
    change (session (emit ev w)) with (session w).
    assert (Hev : ∀ new, no_import new →
              ∀ cfg sync, EvImportFromDict cfg sync ∈ ev :: new →
                          sync = sync_list overwrite).
    { intros new Hno cfg sync Hin. apply elem_of_cons in Hin as [Hin | Hin].
      - by injection Hin as _ ->.
      - by apply Hno in Hin. }
    set (imported := match import_from_dict (session w) encoded (sync_list overwrite) with
                     | Raise MultipleResultsFound => _
                     | other => other
                     end).
    assert (Himp : ∀ f, imported = Ok f →
              import_from_dict (session w) encoded (sync_list overwrite) = Ok f ∨
              import_from_dict (session w) encoded (sync_list overwrite)
                = Raise MultipleResultsFound ∧
              one (select (has_uuid uuid) (session w)) = Ok f).
    { subst imported. intros f.
      destruct (import_from_dict _ _ _) as [f'|e]; [by left |].
      destruct e; try done. by right. }
    destruct imported as [f|e].
    - intros Hfin. apply finish_import_spec in Hfin as ((new & Hnew & Hno) & Hm).
      split.
      + exists (ev :: new). simpl in Hnew. rewrite <- app_assoc in Hnew.
        split; [exact Hnew | by apply Hev].
      + intros m Hr. right. exists uuid, encoded, f.
        split; [done |]. split.
        * rewrite Hnew. simpl. apply elem_of_app. left. apply elem_of_app. right. by left.
        * split; [by apply Himp | by apply Hm].
    - intros [= <- <-]. split; [|done].
      exists [ev]. split; [done |]. apply Hev, no_import_nil. }
  unfold sync_list in Hrest.
  destruct existing as [f|] eqn:Hex; destruct overwrite; try apply Hrest.
  intros [= <- <-]. split; [exact Hnil |].
  intros m [= <-]. left. split; [done |]. split; [|done].
  destruct (first_select _ _ _ Hex) as [<- _].
  unfold unfocus. apply elem_of_app. right. by left.
Qed.

End Importer.

Section SyncOnOverwrite.
Import Utils.
Context `{Json} `{Platform}.
Variable databases : list Database.t.




End SyncOnOverwrite.

(** ** Field mapping of the importer and the exporter *)

Section Dictionaries.

Lemma adjust_ext k f g d :
  (∀ v, dict_lookup k d = Some v → f v = g v) → adjust k f d = adjust k g d.
Proof.
  induction d as [|[k' v] d IH]; simpl; [done |].
  destruct (String.eqb k k'); intros Hfg.
  - by rewrite Hfg.
  - by rewrite IH.
Qed.

Lemma adjust_id k f d :
  (∀ v, dict_lookup k d = Some v → f v = v) → adjust k f d = d.
Proof.
  induction d as [|[k' v] d IH]; simpl; [done |].
  destruct (String.eqb k k'); intros Hf.
  - by rewrite Hf.
  - by rewrite IH.
Qed.

Lemma adjust_adjust k f g d :
  adjust k f (adjust k g d) = adjust k (fun v => f (g v)) d.
Proof.
  induction d as [|[k' v] d IH]; simpl; [done |].
  destruct (String.eqb k k') eqn:Hk; simpl; rewrite Hk; [done | by rewrite IH].
Qed.

Lemma adjust_comm k k' f g d :
  k ≠ k' → adjust k f (adjust k' g d) = adjust k' g (adjust k f d).
Proof.
  intros Hne. induction d as [|[k0 v] d IH]; simpl; [done |].
  destruct (String.eqb_spec k' k0) as [-> | Hk'], (String.eqb_spec k k0) as [-> | Hk];
    simpl; rewrite ?String.eqb_refl; try done.
  - destruct (String.eqb_spec k k0); [done |]. done.
  - destruct (String.eqb_spec k' k0); [done |]. done.
  - destruct (String.eqb_spec k' k0), (String.eqb_spec k k0); try done.
    by rewrite IH.
Qed.

Lemma lookup_adjust k f d :
  dict_lookup k (adjust k f d) = f <$> dict_lookup k d.
Proof.
  induction d as [|[k' v] d IH]; simpl; [done |].
  destruct (String.eqb k k') eqn:Hk; simpl; by rewrite Hk.
Qed.

Lemma lookup_adjust_ne k k' f d :
  k ≠ k' → dict_lookup k (adjust k' f d) = dict_lookup k d.
Proof.
  intros Hne. induction d as [|[k0 v] d IH]; simpl; [done |].
  destruct (String.eqb_spec k' k0) as [-> | Hk']; simpl; [|by rewrite IH].
  by destruct (String.eqb_spec k k0).
Qed.

Lemma dict_set_adjust k v u d :
  dict_lookup k d = Some u → dict_set k v d = adjust k (fun _ => v) d.
Proof.
  induction d as [|[k' v'] d IH]; simpl; [done |].
  destruct (String.eqb_spec k k') as [-> | Hk]; [done |].
  intros Hl. by rewrite IH.
Qed.

End Dictionaries.

Section FieldMapping.
Import Utils.
Context `{Json}.

Lemma frames_id k : frames k (fun d => d).
Proof. by split. Qed.

Lemma frames_adjust k k' g rest :
  k ≠ k' → frames k rest → frames k (fun d => adjust k' g (rest d)).
Proof.
  intros Hne [Hl Ha]. split.
  - intros d. by rewrite lookup_adjust_ne, Hl.
  - intros f d. by rewrite adjust_comm, Ha.
Qed.

Lemma encode_key_adjust key config config' :
  encode_key key config = Ok config' → config' = adjust key encoded_value config.
Proof.
  unfold encode_key, dict_get.
  destruct (dict_lookup key config) as [v|] eqn:Hl; simpl.
  - destruct (is_none v) eqn:Hn.
    { intros [= <-]. symmetry. apply adjust_id. intros v'. rewrite Hl. intros [= <-].
      unfold encoded_value. by rewrite Hn. }
    destruct (json_dumps v) as [text|e] eqn:Hd.
    + intros [= <-]. rewrite (dict_set_adjust _ _ v) by done. apply adjust_ext.
      intros v'. rewrite Hl. intros [= <-]. unfold encoded_value. by rewrite Hn, Hd.
    + destruct e; try done. intros [= <-]. symmetry. apply adjust_id.
      intros v'. rewrite Hl. intros [= <-]. unfold encoded_value. by rewrite Hn, Hd.
  - intros [= <-]. symmetry. apply adjust_id. intros v'. by rewrite Hl.
Qed.

Lemma encode_children_adjust key config config' :
  encode_children key config = Ok config' →
  ∃ v', config' = adjust key (fun _ => v') config ∧
        ∀ v, dict_lookup key config = Some v → encoded_children v = Ok v'.
Proof.
  unfold encode_children, encoded_children.
  destruct (dict_lookup key config) as [v|] eqn:Hl.
  - assert (Hsame : config = adjust key (fun _ => v) config).
    { symmetry. apply adjust_id. intros v'. rewrite Hl. by intros [= <-]. }
    destruct v as [| b | z | t | l | d | o]; cbn [iter_values bind]; try done.
    + destruct (mapM encode_extra (chars t)) as [items'|] eqn:Hm; cbn [bind]; [|done].
      intros [= <-]. eexists. split; [exact Hsame |].
      intros v' [= <-]. cbn [iter_values bind]. by rewrite Hm.
    + destruct (mapM encode_extra l) as [items'|] eqn:Hm; cbn [bind]; [|done].
      intros [= <-]. eexists. split; [by apply dict_set_adjust with (u := VList l) |].
      intros v' [= <-]. cbn [iter_values bind]. by rewrite Hm.
    + destruct (mapM encode_extra _) as [items'|] eqn:Hm; cbn [bind]; [|done].
      intros [= <-]. eexists. split; [exact Hsame |].
      intros v' [= <-]. cbn [iter_values bind]. by rewrite Hm.
  - intros [= <-]. exists VNone. split; [|done].
    symmetry. apply adjust_id. intros v'. by rewrite Hl.
Qed.

(** The encoding as a composition of changes of single fields. *)
Lemma encode_json_fields_adjust config stored :
  encode_json_fields config = Ok stored →
  ∃ vm vc,
    stored = adjust "columns" (fun _ => vc) (adjust "metrics" (fun _ => vm)
               (adjust "extra" encoded_value (adjust "template_params" encoded_value
                  (adjust "params" encoded_value config)))) ∧
    (∀ v, dict_lookup "metrics" config = Some v → encoded_children v = Ok vm) ∧
    (∀ v, dict_lookup "columns" config = Some v → encoded_children v = Ok vc).
Proof.
  unfold encode_json_fields. cbn [fold_left JSON_KEYS bind]. intros Henc.
  apply bind_Raise_or_Ok in Henc as (c3 & Hkeys & Henc).
  apply bind_Raise_or_Ok in Hkeys as (c2 & Hkeys & H3).
  apply bind_Raise_or_Ok in Hkeys as (c1 & H1 & H2).
  apply encode_key_adjust in H1 as ->. apply encode_key_adjust in H2 as ->.
  apply encode_key_adjust in H3 as ->.
  apply bind_Raise_or_Ok in Henc as (c4 & Hm & Hc).
  apply encode_children_adjust in Hm as (vm & -> & Hvm).
  apply encode_children_adjust in Hc as (vc & -> & Hvc).
  rewrite !lookup_adjust_ne in Hvm by discriminate.
  rewrite !lookup_adjust_ne in Hvc by discriminate.
  by exists vm, vc.
Qed.

Lemma decode_key_absent key payload :
  dict_lookup key payload = None →
  ExportDatamanageCommand.decode_key key payload = Ok payload.
Proof. unfold ExportDatamanageCommand.decode_key, dict_get. by intros ->. Qed.

Lemma decode_key_encoded key payload v :
  dict_lookup key payload = Some (encoded_value v) → encodable v →
  ExportDatamanageCommand.decode_key key payload = Ok (adjust key (fun _ => v) payload).
Proof.
  intros Hl Hv. unfold ExportDatamanageCommand.decode_key, dict_get. rewrite Hl. simpl.
  assert (Hnone : is_none v = true →
            (if truthy (encoded_value v)
             then match loads (encoded_value v) with
                  | Ok x => Ok (dict_set key x payload)
                  | Raise JSONDecodeError => Ok payload
                  | Raise e => Raise e
                  end
             else Ok payload) = Ok (adjust key (fun _ => v) payload)).
  { intros Hn. unfold encoded_value. rewrite Hn. destruct v; try discriminate. simpl.
    f_equal. symmetry. apply adjust_id. intros v'. rewrite Hl. unfold encoded_value.
    simpl. by intros [= <-]. }
  destruct (is_none v) eqn:Hn; [by apply Hnone |].
  destruct Hv as [-> | (text & Hd & Hne & Hlo)]; [discriminate |].
  unfold encoded_value in *. rewrite Hn, Hd in *. simpl.
  destruct (String.eqb_spec text EmptyString); [done |]. simpl. rewrite Hlo.
  f_equal. by apply dict_set_adjust with (u := VStr text).
Qed.

Lemma decode_key_framed key rest config :
  frames key rest →
  (∀ v, dict_lookup key config = Some v → encodable v) →
  ExportDatamanageCommand.decode_key key (rest (adjust key encoded_value config))
  = Ok (rest config).
Proof.
  intros [Hl Ha] Hv.
  destruct (dict_lookup key config) as [v|] eqn:Hc.
  - rewrite (decode_key_encoded _ _ v); [| by rewrite Hl, lookup_adjust, Hc | by apply Hv].
    rewrite Ha, adjust_adjust. f_equal. f_equal.
    apply adjust_id. intros v'. rewrite Hc. by intros [= <-].
  - rewrite decode_key_absent; [| by rewrite Hl, lookup_adjust, Hc].
    f_equal. f_equal. apply adjust_id. intros v'. by rewrite Hc.
Qed.

Lemma decode_encode_extra item item' :
  encode_extra item = Ok item' → extra_encodable item →
  ExportDatamanageCommand.decode_extra item' = Ok item.
Proof.
  unfold encode_extra, ExportDatamanageCommand.decode_extra.
  destruct item as [| | | | |d|]; cbn [as_dict bind]; try done.
  intros Henc Hvalid.
  pose proof (decode_key_framed "extra" (fun d => d) d (frames_id _)
                (fun e He => Hvalid d e eq_refl He)) as Hkey.
  cbv beta in Hkey.
  assert (Hitem : item' = VDict (adjust "extra" encoded_value d)).
  { unfold dict_get in Henc.
    destruct (dict_lookup "extra" d) as [e|] eqn:He; simpl in Henc.
    - destruct (is_none e) eqn:Hn.
      + injection Henc as <-. f_equal. symmetry. apply adjust_id.
        intros v. rewrite He. intros [= <-]. unfold encoded_value. by rewrite Hn.
      + destruct (Hvalid d e eq_refl He) as [-> | (text & Hdumps & _)]; [done |].
        rewrite Hdumps in Henc. injection Henc as <-. f_equal.
        rewrite (dict_set_adjust _ _ e) by done. apply adjust_ext.
        intros v. rewrite He. intros [= <-]. unfold encoded_value. by rewrite Hn, Hdumps.
    - injection Henc as <-. f_equal. symmetry. apply adjust_id.
      intros v. by rewrite He. }
  subst item'. cbn [as_dict bind]. by rewrite Hkey.
Qed.

Lemma mapM_decode_encode_extra items items' :
  mapM encode_extra items = Ok items' → Forall extra_encodable items →
  mapM ExportDatamanageCommand.decode_extra items' = Ok items.
Proof.
  revert items'. induction items as [|item items IH]; intros items'; simpl.
  - by intros [= <-] _.
  - destruct (encode_extra item) as [item'|] eqn:Hi; cbn [bind]; [|done].
    destruct (mapM encode_extra items) as [rest|]; cbn [bind]; [|done].
    intros [= <-] Hall. apply Forall_cons in Hall as [Hitem Hall]. simpl.
    rewrite (decode_encode_extra _ _ Hi Hitem). cbn [bind].
    by rewrite (IH _ eq_refl Hall).
Qed.

(** Only an empty string or dictionary can be walked as a list of
    columns: its elements would be text. *)
Lemma mapM_encode_extra_text (items : list value) items' :
  (∀ item, item ∈ items → ∃ t, item = VStr t) →
  mapM encode_extra items = Ok items' → items = [].
Proof.
  destruct items as [|item items]; [done |]. intros Htext.
  destruct (Htext item) as [t ->]; [by left |]. done.
Qed.

Lemma decode_children_framed key rest config v' :
  frames key rest →
  (∀ v, dict_lookup key config = Some v → encoded_children v = Ok v') →
  (∀ items, dict_lookup key config = Some (VList items) →
            Forall extra_encodable items) →
  ExportDatamanageCommand.decode_children key (rest (adjust key (fun _ => v') config))
  = Ok (rest config).
Proof.
  intros [Hl Ha] Henc Hvalid. unfold ExportDatamanageCommand.decode_children.
  rewrite Hl, lookup_adjust.
  destruct (dict_lookup key config) as [v|] eqn:Hc; simpl.
  2:{ f_equal. f_equal. apply adjust_id. intros v0. by rewrite Hc. }
  specialize (Henc v eq_refl). unfold encoded_children in Henc.
  assert (Hsame : adjust key (fun _ => v) config = config).
  { apply adjust_id. intros v0. rewrite Hc. by intros [= <-]. }
  destruct v as [| b | z | t | l | d | o]; cbn [iter_values bind] in Henc; try done.
  - destruct (mapM encode_extra (chars t)) as [items'|] eqn:Hm; cbn [bind] in Henc; [|done].
    injection Henc as <-. cbn [iter_values bind].
    apply mapM_encode_extra_text in Hm as Ht.
    2:{ clear. induction t as [|c t IH]; intros item Hin; simpl in Hin.
        - by apply elem_of_nil in Hin.
        - apply elem_of_cons in Hin as [-> | Hin]; eauto. }
    rewrite Ht. cbn [mapM bind]. by rewrite Hsame.
  - destruct (mapM encode_extra l) as [items'|] eqn:Hm; cbn [bind] in Henc; [|done].
    injection Henc as <-. cbn [iter_values bind].
    rewrite (mapM_decode_encode_extra _ _ Hm (Hvalid l eq_refl)). cbn [bind].
    rewrite (dict_set_adjust _ _ (VList items')) by (by rewrite Hl, lookup_adjust, Hc).
    by rewrite Ha, adjust_adjust, Hsame.
  - destruct (mapM encode_extra _) as [items'|] eqn:Hm; cbn [bind] in Henc; [|done].
    injection Henc as <-. cbn [iter_values bind].
    apply mapM_encode_extra_text in Hm as Ht.
    2:{ intros item Hin. apply list_elem_of_fmap in Hin as (kv & -> & _). eauto. }
    rewrite Ht. cbn [mapM bind]. by rewrite Hsame.
Qed.

(** C5. The importer stores the fields [params], [template_params] and
    [extra], and the [extra] of each column and metric, as the text
    [json.dumps] gives for them; the exporter decodes the same fields;
    and when what is stored in those fields are valid JSON encodings,
    decoding what the importer stored gives back the configuration that
    was imported, field for field. *)
Theorem field_mapping_round_trip (config stored : dict) :
  encode_json_fields config = Ok stored →
  (∀ key, key ∈ JSON_KEYS →
          dict_lookup key stored = encoded_value <$> dict_lookup key config) ∧
  (∀ key v, key ∈ ["metrics"; "columns"] → dict_lookup key config = Some v →
            ∃ v', encoded_children v = Ok v' ∧ dict_lookup key stored = Some v') ∧
  (json_fields_encodable config →
   ExportDatamanageCommand.decode_json_fields stored = Ok config).
Proof.
  intros Henc.
  apply encode_json_fields_adjust in Henc as (vm & vc & -> & Hvm & Hvc).
  split; [| split].
  - intros key Hkey.
    repeat (apply elem_of_cons in Hkey as [-> | Hkey]);
      [| | | by apply elem_of_nil in Hkey];
      rewrite ?(lookup_adjust_ne _ "columns"), ?(lookup_adjust_ne _ "metrics") by discriminate.
    + by rewrite !lookup_adjust_ne, lookup_adjust by discriminate.
    + by rewrite lookup_adjust_ne, lookup_adjust, lookup_adjust_ne by discriminate.
    + by rewrite lookup_adjust, !lookup_adjust_ne by discriminate.
  - intros key v Hkey Hv.
    repeat (apply elem_of_cons in Hkey as [-> | Hkey]);
      [| | by apply elem_of_nil in Hkey].
    + exists vm. split; [by apply Hvm |].
      by rewrite lookup_adjust_ne, lookup_adjust, !lookup_adjust_ne, Hv by discriminate.
    + exists vc. split; [by apply Hvc |].
      by rewrite lookup_adjust, !lookup_adjust_ne, Hv by discriminate.
  - intros [Hkeys Hchildren].
    unfold ExportDatamanageCommand.decode_json_fields.
    cbn [fold_left ExportDatamanageCommand.JSON_KEYS bind].
    pose proof (decode_key_framed "params"
      (fun d => adjust "columns" (fun _ => vc) (adjust "metrics" (fun _ => vm)
                  (adjust "extra" encoded_value (adjust "template_params" encoded_value d))))
      config) as H1.
    cbv beta in H1. rewrite H1; clear H1; cbn [bind].
    2:{ repeat (apply frames_adjust; [discriminate |]). apply frames_id. }
    2:{ intros v. apply Hkeys. set_solver. }
    pose proof (decode_key_framed "template_params"
      (fun d => adjust "columns" (fun _ => vc) (adjust "metrics" (fun _ => vm)
                  (adjust "extra" encoded_value d)))
      config) as H2.
    cbv beta in H2. rewrite H2; clear H2; cbn [bind].
    2:{ repeat (apply frames_adjust; [discriminate |]). apply frames_id. }
    2:{ intros v. apply Hkeys. set_solver. }
    pose proof (decode_key_framed "extra"
      (fun d => adjust "columns" (fun _ => vc) (adjust "metrics" (fun _ => vm) d))
      config) as H3.
    cbv beta in H3. rewrite H3; clear H3; cbn [bind].
    2:{ repeat (apply frames_adjust; [discriminate |]). apply frames_id. }
    2:{ intros v. apply Hkeys. set_solver. }
    pose proof (decode_children_framed "metrics"
      (fun d => adjust "columns" (fun _ => vc) d) config vm) as H4.
    cbv beta in H4. rewrite H4; clear H4; cbn [bind].
    2:{ repeat (apply frames_adjust; [discriminate |]). apply frames_id. }
    2:{ exact Hvm. }
    2:{ intros items. apply Hchildren. set_solver. }
    apply (decode_children_framed "columns" (fun d => d) config vc (frames_id _) Hvc).
    intros items. apply Hchildren. set_solver.
Qed.

End FieldMapping.

Lemma field_mapping_round_trip_witness :
  ∃ stored,
    Utils.encode_json_fields (H := InMemory.json) InMemory.reimport = Ok stored ∧
    dict_lookup "params" stored = Some (VStr (InMemory.quote_key "remote_id" +:+ "3}")) ∧
    ExportDatamanageCommand.decode_json_fields (H := InMemory.json) stored
      = Ok InMemory.reimport.
Proof.
  destruct (Utils.encode_json_fields (H := InMemory.json) InMemory.reimport)
    as [stored|e] eqn:Henc; [|vm_compute in Henc; discriminate Henc].
  exists stored. split; [reflexivity |].
  pose proof (@field_mapping_round_trip InMemory.json InMemory.reimport stored Henc)
    as (Hkeys & _ & Hback).
  split.
  - rewrite (Hkeys "params") by (by left). vm_compute. reflexivity.
  - apply Hback. split.
    + intros key v Hkey.
      repeat (apply elem_of_cons in Hkey as [-> | Hkey]);
        [| | | by apply elem_of_nil in Hkey]; intros [= <-].
      * right. eexists. split; [vm_compute; reflexivity |].
        split; [discriminate | vm_compute; reflexivity].
      * by left.
    + intros key items Hkey.
      repeat (apply elem_of_cons in Hkey as [-> | Hkey]);
        [| | by apply elem_of_nil in Hkey]; intros [= <-].
      * constructor.
      * constructor; [|constructor]. intros d e [= <-] [= <-].
        right. eexists. split; [vm_compute; reflexivity |].
        split; [discriminate | vm_compute; reflexivity].
Defined.

Lemma import_existing_without_overwrite_witness :
  Utils.import_datamanage (H := InMemory.json) (H0 := InMemory.platform InMemory.web)
    (H1 := InMemory.mixin [InMemory.examples])
    (GUser InMemory.bob) InMemory.reimport false true InMemory.world
  = (Ok InMemory.birth_names, InMemory.world).
Proof.
  apply (@import_existing_without_overwrite InMemory.json
           (InMemory.platform InMemory.web) (InMemory.mixin [InMemory.examples])
           (GUser InMemory.bob) InMemory.reimport true InMemory.world
           (VStr "14f48794-ebfa-4f60-a26a-582c49132f1b")
           {| before := []; obj := InMemory.birth_names; after := [] |});
    reflexivity.
Defined.

Lemma load_data_gzip_witness :
  Utils.urlopen (Platform := InMemory.platform InMemory.web)
    "https://example.org/birth_names.csv.gz"
  = Ok (HttpResponse ("GZds,name" +:+ String (ascii_of_nat 10) "2004-01-01,Aaron")) ∧
  (Utils.endswith "https://example.org/birth_names.csv.gz" ".gz" = true ↔
   ∃ prefix, "https://example.org/birth_names.csv.gz" = prefix +:+ ".gz").
Proof.
  split; [reflexivity |].
  exact (proj1 (@load_data_gzip (InMemory.platform InMemory.web)
                  "https://example.org/birth_names.csv.gz"
                  InMemory.birth_names InMemory.examples InMemory.world
                  (HttpResponse ("GZds,name" +:+ String (ascii_of_nat 10) "2004-01-01,Aaron"))
                  eq_refl)).
Defined.

Example reimport_with_overwrite_drops_columns :
  map (dict_get "column_name")
      (match (Utils.import_datamanage (H := InMemory.json)
                (H0 := InMemory.platform InMemory.web)
                (H1 := InMemory.mixin [InMemory.examples])
                (GUser InMemory.bob) InMemory.reimport true false InMemory.world).1 with
       | Ok m => SqlaTable.columns m
       | Raise _ => []
       end)
  = [VStr "ds"].
Proof. vm_compute. reflexivity. Qed.

Example import_new_loads_gzip :
  map event_name
    (Utils.events
       (Utils.import_datamanage (H := InMemory.json) (H0 := InMemory.platform InMemory.web)
          (H1 := InMemory.mixin [InMemory.examples])
          GNone InMemory.new_import false false InMemory.world).2)
  = ["import_from_dict"; "flush"; "urlopen"; "gzip.open"; "read_csv"; "to_sql"].
Proof. vm_compute. reflexivity. Qed.

(** ** The current-user API *)

Section CurrentUser.
Import CurrentUserRestApi.
Context (V : Views).

(** C1, as amended. [get_me] and [get_my_roles] answer for the user of
    the session only: an unauthenticated request gets a 401, an
    authenticated one the serialisation of its own user, whatever the
    other users of the application are. [get_all] answers an
    authenticated request with the serialisation of every user that
    [get_all_users] returns. *)
Theorem current_user_endpoints (g : g_user) :
  (unauthenticated g → get_me g = response_401 ∧ get_my_roles g = response_401) ∧
  (∀ user, g = GUser user → User.is_anonymous user = false →
     get_me g = response 200 (dump user) ∧
     get_my_roles g = response 200 (bootstrap_user_data user true) ∧
     get_all g = response 200 (VList (map dump get_all_users))) ∧
  (∀ users,
     get_me (H := with_users V users) g = get_me g ∧
     get_my_roles (H := with_users V users) g = get_my_roles g).
Proof.
  split; [| split].
  - unfold get_me, get_my_roles, current_user.
    destruct g as [| | user |]; simpl; try done. by intros ->.
  - intros user -> Hanon. unfold get_me, get_my_roles, get_all, current_user.
    by rewrite Hanon.
  - intros users. unfold get_me, get_my_roles, current_user.
    by destruct g as [| | user |]; simpl; try destruct (User.is_anonymous user).
Qed.

End CurrentUser.

Lemma current_user_endpoints_witness :
  CurrentUserRestApi.get_me (H := InMemory.views) (GUser InMemory.anonymous)
    = CurrentUserRestApi.response_401 ∧
  CurrentUserRestApi.get_my_roles (H := InMemory.views) (GUser InMemory.alice)
    = CurrentUserRestApi.response 200
        (VDict [("username", VStr "alice"); ("userId", VInt 1); ("permissions", VDict [])]).
Proof.
  split.
  - apply (proj1 (current_user_endpoints InMemory.views (GUser InMemory.anonymous))).
    reflexivity.
  - apply (proj1 (proj2 (current_user_endpoints InMemory.views (GUser InMemory.alice)))
             InMemory.alice); reflexivity.
Defined.

(** C1, as stated, fails for [GET /users/all]: an unauthenticated request
    is answered with 200, and the answer changes with the other users of
    the application. *)
Lemma get_all_answers_for_every_user :
  ¬ (∀ e g, unauthenticated g →
            CurrentUserRestApi.status
              (CurrentUserRestApi.dispatch (H := InMemory.views) e g) = 401%Z) ∧
  ¬ (∀ e g users,
       CurrentUserRestApi.dispatch (H := with_users InMemory.views users) e g
       = CurrentUserRestApi.dispatch (H := InMemory.views) e g).
Proof.
  split.
  - intros Hclaim. specialize (Hclaim CurrentUserRestApi.GetAll GNone I).
    vm_compute in Hclaim. discriminate Hclaim.
  - intros Hclaim.
    specialize (Hclaim CurrentUserRestApi.GetAll (GUser InMemory.alice) [InMemory.alice]).
    vm_compute in Hclaim. discriminate Hclaim.
Qed.

Example get_all_for_anonymous :
  CurrentUserRestApi.get_all (H := InMemory.views) (GUser InMemory.anonymous)
  = CurrentUserRestApi.response 200
      (VList [VDict [("id", VInt 1); ("username", VStr "alice"); ("is_anonymous", VBool false)];
              VDict [("id", VInt 2); ("username", VStr "bob"); ("is_anonymous", VBool false)]]).
Proof. reflexivity. Qed.

(** * Further properties of the code *)

(** ** Native types: letter case and lengths *)

Section NativeTypeNames.
Import Utils.


















End NativeTypeNames.


Example get_sqla_type_long_length :
  Utils.get_sqla_type ("VARCHAR(" +:+ decimal (10 ^ 4300 - 1) +:+ ")")
    = Ok (Utils.SaString (10 ^ 4300 - 1)) ∧
  Utils.get_sqla_type ("VARCHAR(" +:+ decimal (10 ^ 4300) +:+ ")") = Raise ValueError.
Proof. split; vm_compute; reflexivity. Qed.

(** ** Column types of a frame ([get_dtype]) *)

Section ColumnTypes.
Import Utils.

Lemma set_dtype_keys name t dtype :
  map fst (set_dtype name t dtype) =
  if bool_decide (name ∈ map fst dtype) then map fst dtype else map fst dtype ++ [name].
Proof.
  unfold set_dtype. destruct (bool_decide _); [|by rewrite map_app].
  induction dtype as [|[k v] dtype IH]; simpl; [done |].
  rewrite IH. by destruct (String.eqb_spec k name) as [-> |].
Qed.

Lemma set_dtype_entries name t dtype n t' :
  (n, t') ∈ set_dtype name t dtype → (n, t') ∈ dtype ∨ (n = name ∧ t' = t).
Proof.
  unfold set_dtype. destruct (bool_decide _).
  - intros Hin. apply list_elem_of_fmap in Hin as ([k v] & Heq & Hkv). simpl in Heq.
    destruct (String.eqb k name); [right; by injection Heq | left; by rewrite Heq].
  - intros Hin. apply elem_of_app in Hin as [Hin | Hin]; [by left |].
    apply list_elem_of_singleton in Hin. right. by injection Hin.
Qed.

Lemma set_dtype_NoDup name t dtype :
  NoDup (map fst dtype) → NoDup (map fst (set_dtype name t dtype)).
Proof.
  intros Hnd. rewrite set_dtype_keys. destruct (bool_decide_reflect (name ∈ map fst dtype));
    [done |].
  apply NoDup_app. split; [done |]. split; [|apply NoDup_singleton].
  intros x Hx Hx'. apply list_elem_of_singleton in Hx' as ->. done.
Qed.

Lemma get_dtype_from_spec df columns dtype0 dtype :
  get_dtype_from df columns dtype0 = Ok dtype →
  (NoDup (map fst dtype0) → NoDup (map fst dtype)) ∧
  (∀ name, name ∈ map fst dtype ↔
     name ∈ map fst dtype0 ∨
     (name ∈ map fst df ∧
      ∃ column, column ∈ columns ∧ dict_get "column_name" column = VStr name)) ∧
  (∀ name t, (name, t) ∈ dtype →
     (name, t) ∈ dtype0 ∨
     ∃ column native_type,
       column ∈ columns ∧ dict_get "column_name" column = VStr name ∧
       dict_get "type" column = VStr native_type ∧ get_sqla_type native_type = Ok t).
Proof.
  revert dtype0. induction columns as [|column columns IH]; intros dtype0; simpl.
  - intros [= <-]. split; [done |]. split.
    + intros name. split; [by left |]. intros [? | (_ & c & Hc & _)]; [done |].
      by apply elem_of_nil in Hc.
    + intros name t ?. by left.
  - assert (Hskip : get_dtype_from df columns dtype0 = Ok dtype →
              (∀ name, dict_get "column_name" column = VStr name → name ∉ map fst df) →
              (NoDup (map fst dtype0) → NoDup (map fst dtype)) ∧
              (∀ name, name ∈ map fst dtype ↔
                 name ∈ map fst dtype0 ∨
                 (name ∈ map fst df ∧
                  ∃ c, c ∈ column :: columns ∧ dict_get "column_name" c = VStr name)) ∧
              (∀ name t, (name, t) ∈ dtype →
                 (name, t) ∈ dtype0 ∨
                 ∃ c native_type,
                   c ∈ column :: columns ∧ dict_get "column_name" c = VStr name ∧
                   dict_get "type" c = VStr native_type ∧
                   get_sqla_type native_type = Ok t)).
    { intros Hrec Hout. destruct (IH _ Hrec) as (Hnd & Hkeys & Hent).
      split; [done |]. split.
      - intros name. rewrite Hkeys. split.
        + intros [? | (Hdf & c & Hc & Hn)]; [by left |].
          right. split; [done |]. exists c. split; [by right | done].
        + intros [? | (Hdf & c & Hc & Hn)]; [by left |].
          apply elem_of_cons in Hc as [-> | Hc]; [by destruct (Hout name Hn) |].
          right. eauto.
      - intros name t Hin. destruct (Hent name t Hin) as [? | (c & nt & Hc & ?)]; [by left |].
        right. exists c, nt. split; [by right | done]. }
    destruct (dict_get "column_name" column) as [| | | name | | |] eqn:Hname;
      try (intros Hrec; apply Hskip; [done | by intros n [=]]).
    destruct (bool_decide_reflect (name ∈ map fst df)) as [Hdf | Hdf];
      [| intros Hrec; apply Hskip; [done | by intros n [= <-]]].
    destruct (dict_get "type" column) as [| | | native_type | | |] eqn:Htype; try done.
    destruct (get_sqla_type native_type) as [t0|] eqn:Ht0; cbn [bind]; [|done].
    intros Hrec. destruct (IH _ Hrec) as (Hnd & Hkeys & Hent). split; [| split].
    + intros Hnd0. by apply Hnd, set_dtype_NoDup.
    + intros n. rewrite Hkeys, set_dtype_keys. split.
      * intros [Hin | (Hn & c & Hc & Hcn)].
        -- destruct (bool_decide _); [by left |].
           apply elem_of_app in Hin as [? | Hin]; [by left |].
           apply list_elem_of_singleton in Hin as ->. right. split; [done |].
           exists column. split; [by left | done].
        -- right. split; [done |]. exists c. split; [by right | done].
      * intros [Hin | (Hn & c & Hc & Hcn)].
        -- left. destruct (bool_decide _); [done |]. apply elem_of_app. by left.
        -- apply elem_of_cons in Hc as [-> | Hc]; [| right; eauto].
           left. assert (n = name) as -> by congruence.
           destruct (bool_decide_reflect (name ∈ map fst dtype0)); [done |].
           apply elem_of_app. right. by left.
    + intros n t Hin. destruct (Hent n t Hin) as [Hin0 | (c & nt & Hc & ?)].
      * apply set_dtype_entries in Hin0 as [? | [-> ->]]; [by left |].
        right. exists column, native_type. split; [by left | done].
      * right. exists c, nt. split; [by right | done].
Qed.

(** X3. [get_dtype] types exactly the columns of the dataset that label a
    column of the frame, each once, with the type [get_sqla_type] gives
    for the native type of a column of that name. *)
Theorem get_dtype_keys (df : DataFrame) (datamanage : SqlaTable.t)
  (dtype : list (string * sqla_type)) :
  get_dtype df datamanage = Ok dtype →
  NoDup (map fst dtype) ∧
  (∀ name, name ∈ map fst dtype ↔
     name ∈ map fst df ∧
     ∃ column, column ∈ SqlaTable.columns datamanage ∧
               dict_get "column_name" column = VStr name) ∧
  (∀ name t, (name, t) ∈ dtype →
     ∃ column native_type,
       column ∈ SqlaTable.columns datamanage ∧
       dict_get "column_name" column = VStr name ∧
       dict_get "type" column = VStr native_type ∧
       get_sqla_type native_type = Ok t).
Proof.
  intros Hd. apply get_dtype_from_spec in Hd as (Hnd & Hkeys & Hent).
  split; [apply Hnd; constructor |]. split.
  - intros name. rewrite Hkeys. split; [|by right].
    intros [Hin | ?]; [by apply elem_of_nil in Hin | done].
  - intros name t Hin. destruct (Hent name t Hin) as [Hin0 | ?]; [|done].
    by apply elem_of_nil in Hin0.
Qed.

Lemma get_dtype_from_total df columns dtype0 :
  (∃ dtype, get_dtype_from df columns dtype0 = Ok dtype) ↔
  ∀ column, column ∈ columns → in_frame df column = true → typed column = true.
Proof.
  revert dtype0. induction columns as [|column columns IH]; intros dtype0; simpl.
  - split; [|eauto]. intros _ c Hc. by apply elem_of_nil in Hc.
  - unfold in_frame at 1, typed at 1.
    assert (Hskip : in_frame df column = false →
              (∃ dtype, get_dtype_from df columns dtype0 = Ok dtype) ↔
              ∀ c, c ∈ column :: columns → in_frame df c = true → typed c = true).
    { intros Hout. rewrite IH. split.
      - intros Hall c Hc. apply elem_of_cons in Hc as [-> | Hc]; [congruence | by apply Hall].
      - intros Hall c Hc. apply Hall. by right. }
    unfold in_frame at 1 in Hskip.
    destruct (dict_get "column_name" column) as [| | | name | | |] eqn:Hname;
      try (by apply Hskip).
    destruct (bool_decide (name ∈ map fst df)) eqn:Hdf; [|by apply Hskip].
    assert (Hin : in_frame df column = true) by (unfold in_frame; by rewrite Hname).
    assert (Hbad : typed column = false →
              (∃ dtype, Raise (A := list (string * sqla_type)) AttributeError = Ok dtype) ↔
              ∀ c, c ∈ column :: columns → in_frame df c = true → typed c = true).
    { intros Hty. split; [by intros [? ?] |]. intros Hall.
      rewrite (Hall column) in Hty; [done | by left | done]. }
    unfold typed in Hbad.
    destruct (dict_get "type" column) as [| | | native_type | | |] eqn:Htype;
      try (by apply Hbad).
    destruct (get_sqla_type native_type) as [t0|e] eqn:Ht0; cbn [bind].
    + rewrite IH. split.
      * intros Hall c Hc. apply elem_of_cons in Hc as [-> | Hc]; [|by apply Hall].
        intros _. unfold typed. by rewrite Htype, Ht0.
      * intros Hall c Hc. apply Hall. by right.
    + split; [by intros [? ?] |]. intros Hall.
      specialize (Hall column (list_elem_of_here _ _) Hin). unfold typed in Hall.
      by rewrite Htype, Ht0 in Hall.
Qed.

(** X4. [get_dtype] looks at the native types of the columns that label a
    column of the frame only: it returns exactly when each of those has a
    text type that [get_sqla_type] knows, whatever the types of the
    columns that the frame lacks. *)
Theorem get_dtype_total (df : DataFrame) (datamanage : SqlaTable.t) :
  (∃ dtype, get_dtype df datamanage = Ok dtype) ↔
  ∀ column, column ∈ SqlaTable.columns datamanage →
            in_frame df column = true → typed column = true.
Proof. apply get_dtype_from_total. Qed.

End ColumnTypes.

Lemma get_dtype_keys_witness :
  Utils.get_dtype (InMemory.frame_of_csv "ds,name,city") InMemory.birth_names
    = Ok [("ds", Utils.SaDateTime false); ("name", Utils.SaString 255)] ∧
  NoDup ["ds"; "name"].
Proof.
  split; [vm_compute; reflexivity |].
  exact (proj1 (get_dtype_keys (InMemory.frame_of_csv "ds,name,city") InMemory.birth_names
                  [("ds", Utils.SaDateTime false); ("name", Utils.SaString 255)] eq_refl)).
Defined.

(** ** Loading the data ([load_data]) *)

Section LoadData.
Import Utils.
Context `{Platform}.

Lemma find_label (df : DataFrame) name :
  name ∈ map fst df →
  ∃ cells, List.find (fun kv => String.eqb (fst kv) name) df = Some (name, cells).
Proof.
  induction df as [|[k v] df IH]; simpl.
  - intros Hin. by apply elem_of_nil in Hin.
  - intros Hin. destruct (String.eqb_spec k name) as [-> | Hk]; [eauto |].
    apply elem_of_cons in Hin as [-> | Hin]; [done | by apply IH].
Qed.

Lemma replace_cells_labels (df : DataFrame) name cells :
  map fst (map (fun kv : string * list value =>
                  if String.eqb (fst kv) name then (name, cells) else kv) df)
  = map fst df.
Proof.
  induction df as [|[k v] df IH]; simpl; [done |].
  rewrite IH. by destruct (String.eqb_spec k name) as [-> |].
Qed.

Lemma convert_temporal_spec dtype (df df' : DataFrame) :
  convert_temporal dtype df = Ok df' →
  map fst df' = map fst df ∧
  ∀ label cells, (label, cells) ∈ df →
    (∀ t, (label, t) ∈ dtype → is_temporal t = false) → (label, cells) ∈ df'.
Proof.
  revert df. induction dtype as [|[name t] dtype IH]; intros df; simpl.
  - by intros [= <-].
  - destruct (is_temporal t) eqn:Ht.
    + destruct (List.find _ df) as [[k cells]|]; [|done].
      destruct (to_datetime cells) as [cells'|]; cbn [bind]; [|done].
      intros Hrec. apply IH in Hrec as [Hl Hkeep]. split.
      * by rewrite Hl, replace_cells_labels.
      * intros label c Hin Hnt. apply Hkeep.
        -- apply list_elem_of_fmap. exists (label, c). split; [|done]. simpl.
           destruct (String.eqb_spec label name) as [-> |]; [|done].
           specialize (Hnt t (list_elem_of_here _ _)). congruence.
        -- intros t' Hin'. apply Hnt. by right.
    + intros Hrec. apply IH in Hrec as [Hl Hkeep]. split; [done |].
      intros label c Hin Hnt. apply Hkeep; [done |].
      intros t' Hin'. apply Hnt. by right.
Qed.

Lemma convert_temporal_Raise dtype (df : DataFrame) e :
  (∀ name, name ∈ map fst dtype → name ∈ map fst df) →
  convert_temporal dtype df = Raise e →
  ∃ cells, to_datetime cells = Raise e.
Proof.
  revert df. induction dtype as [|[name t] dtype IH]; intros df Hsub; simpl; [done |].
  assert (Hsub' : ∀ df0 : DataFrame, map fst df0 = map fst df →
            ∀ n, n ∈ map fst dtype → n ∈ map fst df0).
  { intros df0 Hl n Hn. rewrite Hl. apply Hsub. by right. }
  destruct (is_temporal t); [|by apply IH, Hsub'].
  destruct (find_label df name) as [cells ->]; [apply Hsub; by left |].
  destruct (to_datetime cells) as [cells'|e'] eqn:Hdt; cbn [bind].
  - apply IH, Hsub', replace_cells_labels.
  - intros [= <-]. eauto.
Qed.

(** X5. In [load_data] the conversion of the temporal columns fails only
    when [pd.to_datetime] does, as every typed column is in the frame; it
    keeps the labels of the frame, and the cells of the columns whose
    type is not temporal. *)
Theorem load_data_conversion (df : DataFrame) (datamanage : SqlaTable.t)
  (dtype : list (string * sqla_type)) :
  get_dtype df datamanage = Ok dtype →
  (∀ e, convert_temporal dtype df = Raise e → ∃ cells, to_datetime cells = Raise e) ∧
  (∀ df', convert_temporal dtype df = Ok df' →
     map fst df' = map fst df ∧
     ∀ label cells, (label, cells) ∈ df →
       (∀ t, (label, t) ∈ dtype → is_temporal t = false) → (label, cells) ∈ df').
Proof.
  intros Hd. apply get_dtype_from_spec in Hd as (_ & Hkeys & _). split.
  - intros e. apply convert_temporal_Raise. intros name Hn.
    apply Hkeys in Hn as [Hn | [? _]]; [by apply elem_of_nil in Hn | done].
  - intros df'. apply convert_temporal_spec.
Qed.

Ltac not_to_sql Hin :=
  repeat (apply elem_of_cons in Hin as [Hin | Hin]; [discriminate Hin |]);
  by apply elem_of_nil in Hin.

(** X6. [load_data] leaves the session of the mapper alone; it returns
    normally only after a call of [to_sql]; and a call of [to_sql] is the
    last thing it does: it replaces the table that bears the name and the
    schema of the dataset, in chunks of 512 rows without the index, over
    the connection of the session exactly when the database is the one of
    the application. *)
Theorem load_data_to_sql (data_uri : string) (datamanage : SqlaTable.t)
  (database : Database.t) (w : World) :
  session (load_data data_uri datamanage database w).2 = session w ∧
  ∃ new,
    events (load_data data_uri datamanage database w).2 = events w ++ new ∧
    ((load_data data_uri datamanage database w).1 = Ok tt →
     ∃ call, EvToSql call ∈ new) ∧
    (∀ call, EvToSql call ∈ new →
       (load_data data_uri datamanage database w).1 = to_sql call ∧
       last new = Some (EvToSql call) ∧
       ts_name call = SqlaTable.table_name datamanage ∧
       ts_schema call = SqlaTable.schema datamanage ∧
       ts_if_exists call = "replace" ∧ ts_chunksize call = 512%Z ∧
       ts_index call = false ∧ ts_method call = "multi" ∧
       ts_con call = if py_eqb (VStr (Database.sqlalchemy_uri database))
                                SQLALCHEMY_DATABASE_URI
                     then SessionConnection else Engine (Database.id database)).
Proof.
  unfold load_data.
  destruct (urlopen data_uri) as [data|e].
  2:{ split; [done |]. exists [EvUrlopen data_uri]. split; [done |].
      split; [done |]. intros call Hin. not_to_sql Hin. }
  destruct (endswith data_uri ".gz");
    (destruct (read_csv _ "utf-8") as [df|e];
     [ destruct (get_dtype df datamanage) as [dtype|e]; cbn [bind];
       [ destruct (convert_temporal dtype df) as [df'|e]; cbn [bind] |] |]);
    simpl; rewrite <- ?app_assoc; simpl;
    (split; [done |]); eexists; (split; [reflexivity |]).
  all: split;
    [ try done; intros _; eexists; repeat (first [ by left | right ])
    | intros call Hin;
      repeat (apply elem_of_cons in Hin as [Hin | Hin]; [try discriminate Hin |]);
      try (by apply elem_of_nil in Hin) ].
  all: injection Hin as ->; repeat split; reflexivity.
Qed.

End LoadData.

Lemma load_data_conversion_witness :
  Utils.get_dtype (InMemory.frame_of_csv "ds,name,city") InMemory.birth_names
    = Ok [("ds", Utils.SaDateTime false); ("name", Utils.SaString 255)] ∧
  ∀ df',
    @Utils.convert_temporal (InMemory.platform InMemory.web)
      [("ds", Utils.SaDateTime false); ("name", Utils.SaString 255)]
      (InMemory.frame_of_csv "ds,name,city") = Ok df' →
    map fst df' = map fst (InMemory.frame_of_csv "ds,name,city").
Proof.
  split; [vm_compute; reflexivity |].
  intros df' Hc.
  exact (proj1 (proj2 (@load_data_conversion (InMemory.platform InMemory.web)
                         (InMemory.frame_of_csv "ds,name,city") InMemory.birth_names
                         [("ds", Utils.SaDateTime false); ("name", Utils.SaString 255)]
                         eq_refl) df' Hc)).
Defined.

(** ** What the importer encodes ([import_datamanage], lines 91-107) *)

Section EncodedFields.
Import Utils.
Context `{Json}.

Lemma adjust_keys k f d : map fst (adjust k f d) = map fst d.
Proof.
  induction d as [|[k' v] d IH]; simpl; [done |].
  destruct (String.eqb k k'); simpl; [done | by rewrite IH].
Qed.

Lemma lookup_dict_set k v d : dict_lookup k (dict_set k v d) = Some v.
Proof.
  induction d as [|[k' v'] d IH]; simpl; [by rewrite String.eqb_refl |].
  destruct (String.eqb k k') eqn:Hk; simpl; [by rewrite String.eqb_refl | by rewrite Hk].
Qed.

Lemma lookup_dict_set_ne k k' v d :
  k ≠ k' → dict_lookup k (dict_set k' v d) = dict_lookup k d.
Proof.
  intros Hne. induction d as [|[k0 v0] d IH]; simpl.
  - by destruct (String.eqb_spec k k').
  - destruct (String.eqb_spec k' k0) as [-> | Hk']; simpl.
    + destruct (String.eqb_spec k k0); [done |]. by destruct (String.eqb_spec k k0).
    + by rewrite IH.
Qed.

Lemma encode_json_fields_lookup config stored k :
  encode_json_fields config = Ok stored →
  k ∉ JSON_KEYS ++ ["metrics"; "columns"] →
  dict_lookup k stored = dict_lookup k config.
Proof.
  intros Henc Hk. apply encode_json_fields_adjust in Henc as (vm & vc & -> & _).
  rewrite !lookup_adjust_ne; [done | intros -> ..]; apply Hk; set_solver.
Qed.

(** X7. The encoding neither adds, drops nor moves a key, and every field
    other than [params], [template_params], [extra], [metrics] and
    [columns] reaches the mapper as the configuration has it. *)
Theorem encode_json_fields_frame (config stored : dict) :
  encode_json_fields config = Ok stored →
  map fst stored = map fst config ∧
  ∀ k, k ∉ JSON_KEYS ++ ["metrics"; "columns"] →
       dict_lookup k stored = dict_lookup k config.
Proof.
  intros Henc. split; [| intros k; by apply encode_json_fields_lookup].
  apply encode_json_fields_adjust in Henc as (vm & vc & -> & _).
  by rewrite !adjust_keys.
Qed.











End EncodedFields.

Lemma encode_json_fields_frame_witness :
  ∃ stored,
    Utils.encode_json_fields (H := InMemory.json) InMemory.new_import = Ok stored ∧
    map fst stored = map fst InMemory.new_import ∧
    dict_lookup "data" stored = Some (VStr "https://example.org/birth_names.csv.gz").
Proof.
  destruct (Utils.encode_json_fields (H := InMemory.json) InMemory.new_import)
    as [stored|e] eqn:Henc; [|vm_compute in Henc; discriminate Henc].
  exists stored. split; [reflexivity |].
  pose proof (@encode_json_fields_frame InMemory.json InMemory.new_import stored Henc)
    as [Hkeys Hrest].
  split; [exact Hkeys |].
  rewrite (Hrest "data"); [reflexivity |].
  intros Hin. repeat (apply elem_of_cons in Hin as [Hin | Hin]; [discriminate Hin |]).
  by apply elem_of_nil in Hin.
Defined.


(** ** The steps of an import ([import_datamanage]) *)

Section ImportSteps.
Import Utils.
Context `{Json} `{Platform} `{ImportExportMixin}.

Lemma load_data_urlopen data_uri datamanage database w :
  ∃ tail,
    events (load_data data_uri datamanage database w).2
      = events w ++ EvUrlopen data_uri :: tail ∧
    (∀ uri, EvUrlopen uri ∉ tail) ∧ no_import tail ∧
    session (load_data data_uri datamanage database w).2 = session w.
Proof.
  unfold load_data.
  destruct (urlopen data_uri) as [data|e].
  2:{ exists []. repeat split; [intros uri; apply not_elem_of_nil | apply no_import_nil]. }
  destruct (endswith data_uri ".gz");
    (destruct (read_csv _ "utf-8") as [df|e];
     [ destruct (get_dtype df datamanage) as [dtype|e]; cbn [bind];
       [ destruct (convert_temporal dtype df) as [df'|e]; cbn [bind] |] |]);
    simpl; rewrite <- ?app_assoc; simpl;
    (eexists; split; [reflexivity |]; split; [| split; [| reflexivity]]).
  all: try (repeat (apply no_import_cons; [done |]); apply no_import_nil).
  all: intros uri Hin;
    repeat (apply elem_of_cons in Hin as [Hin | Hin]; [discriminate Hin |]);
    by apply elem_of_nil in Hin.
Qed.

Lemma flush_obj f :
  SqlaTable.id (obj f) = None →
  ∃ i, obj (flush f) = SqlaTable.set_id (obj f) (Some i).
Proof.
  intros Hid. unfold flush. destruct (assign_ids _ (before f)) as [b next].
  pose proof (assign_ids_singleton next (obj f)) as Ho.
  destruct (assign_ids next [obj f]) as [o next'].
  destruct (assign_ids next' (after f)) as [a next'']. simpl in *. subst o.
  rewrite Hid. simpl. eauto.
Qed.

Lemma set_owners_same m : SqlaTable.set_owners m (SqlaTable.owners m) = m.
Proof. by destruct m. Qed.

Lemma truthy_text uri : truthy (VStr uri) = true ↔ uri ≠ EmptyString.
Proof.
  simpl. rewrite negb_true_iff. split.
  - intros Hne ->. by rewrite String.eqb_refl in Hne.
  - intros Hne. by apply String.eqb_neq.
Qed.

Lemma elem_of_unfocus f : obj f ∈ unfocus f.
Proof. unfold unfocus. apply elem_of_app. right. by left. Qed.

(** The tail of the import on the object [f] of the mapper: the row it
    works on is [f] with an identifier; it downloads the data exactly when
    there is a URI and the table is missing or the data is forced; and it
    returns the row with the user of the request as one more owner. *)
Lemma finish_import_result g data_uri force_data f w :
  ∃ m1 new,
    (m1 = obj f ∨
     ∃ i, SqlaTable.id (obj f) = None ∧ m1 = SqlaTable.set_id (obj f) (Some i)) ∧
    is_Some (SqlaTable.id m1) ∧
    events (finish_import g data_uri force_data f w).2 = events w ++ new ∧
    no_import new ∧
    (∀ uri, EvUrlopen uri ∈ new →
       data_uri = VStr uri ∧ uri ≠ EmptyString ∧ (force_data = true ∨ table_missing m1)) ∧
    (∀ uri m, (finish_import g data_uri force_data f w).1 = Ok m →
       data_uri = VStr uri → uri ≠ EmptyString →
       force_data = true ∨ table_missing m1 → EvUrlopen uri ∈ new) ∧
    (∃ os, SqlaTable.set_owners m1 os
             ∈ pending (session (finish_import g data_uri force_data f w).2)) ∧
    (∀ m, (finish_import g data_uri force_data f w).1 = Ok m →
       m = SqlaTable.set_owners m1 (SqlaTable.owners m1 ++ importing_user g) ∧
       m ∈ pending (session (finish_import g data_uri force_data f w).2)).
Proof.
  unfold finish_import.
  set (fw := match SqlaTable.id (obj f) with
             | Some _ => (f, w)
             | None => (flush f, emit EvFlush w)
             end).
  assert (Hfw : (obj fw.1 = obj f ∨
                 ∃ i, SqlaTable.id (obj f) = None ∧
                      obj fw.1 = SqlaTable.set_id (obj f) (Some i)) ∧
                is_Some (SqlaTable.id (obj fw.1)) ∧
                ∃ pre, events fw.2 = events w ++ pre ∧ no_import pre ∧
                       ∀ uri, EvUrlopen uri ∉ pre).
  { subst fw. destruct (SqlaTable.id (obj f)) as [i|] eqn:Hid; simpl.
    - split; [by left |]. split; [by rewrite Hid |]. exists []. rewrite app_nil_r.
      split; [done |]. split; [apply no_import_nil | intros uri; apply not_elem_of_nil].
    - destruct (flush_obj f Hid) as [i Hi]. split; [right; eauto |].
      split; [by rewrite Hi |]. exists [EvFlush]. split; [done |].
      split; [apply no_import_cons; [done | apply no_import_nil] |].
      intros uri Hin. apply list_elem_of_singleton in Hin. discriminate. }
  destruct fw as [f1 w1]. simpl in Hfw.
  destruct Hfw as (Hm1 & Hid1 & pre & Hpre & Hno & Hnourl).
  exists (obj f1).
  set (table_exists := match Database.has_table_by_name _ _ with
                       | Ok b => b
                       | Raise _ => true
                       end).
  assert (Hmissing : negb table_exists = true ↔ table_missing (obj f1)).
  { subst table_exists. unfold table_missing.
    destruct (Database.has_table_by_name _ _) as [[]|]; simpl; split; congruence. }
  assert (Hload : ∀ uri, data_uri = VStr uri →
            (truthy data_uri && (negb table_exists || force_data) = true ↔
             uri ≠ EmptyString ∧ (force_data = true ∨ table_missing (obj f1)))).
  { intros uri ->. rewrite andb_true_iff, orb_true_iff, truthy_text, Hmissing. tauto. }
  assert (Hstored : ∀ os, SqlaTable.set_owners (obj f1) os
                            ∈ pending (session (store (refocus f1
                                 (SqlaTable.set_owners (obj f1) os)) w1))).
  { intros os. simpl. apply (elem_of_unfocus (refocus f1 _)). }
  assert (Hstored1 : ∃ os, SqlaTable.set_owners (obj f1) os ∈ pending (session (store f1 w1))).
  { exists (SqlaTable.owners (obj f1)). rewrite set_owners_same. apply elem_of_unfocus. }
  destruct (truthy data_uri && (negb table_exists || force_data)) eqn:Hcond.
  - destruct data_uri as [| b | z | uri | l | d | o]; try discriminate Hcond;
      try (exists pre; simpl; repeat (split; [done |]);
           split; [intros uri Hin; by apply Hnourl in Hin | done]).
    destruct (load_data_urlopen uri (obj f1) (SqlaTable.database (obj f1)) (store f1 w1))
      as (tail & Hev & Hnourl' & Hno' & Hses).
    destruct (load_data uri (obj f1) (SqlaTable.database (obj f1)) (store f1 w1))
      as [loaded w2]. simpl in Hev, Hses.
    exists (pre ++ EvUrlopen uri :: tail).
    assert (Hnew : events w2 = events w ++ pre ++ EvUrlopen uri :: tail).
    { by rewrite Hev, app_assoc, <- Hpre. }
    assert (Hnoimp : no_import (pre ++ EvUrlopen uri :: tail)).
    { apply no_import_app; [done |]. by apply no_import_cons. }
    assert (Hurl : ∀ uri0, EvUrlopen uri0 ∈ pre ++ EvUrlopen uri :: tail →
              VStr uri = VStr uri0 ∧ uri0 ≠ EmptyString ∧
              (force_data = true ∨ table_missing (obj f1))).
    { intros uri0 Hin. apply elem_of_app in Hin as [Hin | Hin]; [by apply Hnourl in Hin |].
      apply elem_of_cons in Hin as [[= ->] | Hin]; [| by apply Hnourl' in Hin].
      split; [done |]. by apply (Hload uri). }
    assert (Hstored2 : ∃ os, SqlaTable.set_owners (obj f1) os ∈ pending (session w2)).
    { rewrite Hses. exact Hstored1. }
    assert (Hthere : ∀ uri0 (m : SqlaTable.t), VStr uri = VStr uri0 →
              EvUrlopen uri0 ∈ pre ++ EvUrlopen uri :: tail).
    { intros uri0 _ [= <-]. apply elem_of_app. right. by left. }
    destruct loaded as [u|e]; simpl.
    + destruct g as [| | user |]; simpl;
        (split; [done |]); (split; [done |]); (split; [done |]); (split; [done |]);
        (split; [done |]); (split; [intros ? ? _ ? _ _; by eapply Hthere |]).
      * split; [done |]. intros m [= <-].
        rewrite app_nil_r, set_owners_same. split; [done |]. rewrite Hses.
        apply elem_of_unfocus.
      * split; [done |]. intros m [= <-].
        rewrite app_nil_r, set_owners_same. split; [done |]. rewrite Hses.
        apply elem_of_unfocus.
      * split; [eexists; apply (elem_of_unfocus (refocus f1 _)) |]. intros m [= <-].
        split; [done |]. apply (elem_of_unfocus (refocus f1 _)).
      * split; [done |]. done.
    + repeat (split; [done |]). done.
  - exists pre. simpl.
    assert (Hnone : ∀ uri (m : SqlaTable.t), data_uri = VStr uri → uri ≠ EmptyString →
              force_data = true ∨ table_missing (obj f1) → EvUrlopen uri ∈ pre).
    { intros uri _ Hd Hne Hor. by pose proof (proj2 (Hload uri Hd) (conj Hne Hor)). }
    destruct g as [| | user |]; simpl;
      (split; [done |]); (split; [done |]); (split; [done |]); (split; [done |]);
      (split; [intros uri Hin; by apply Hnourl in Hin |]);
      (split; [intros ? ? _; by apply Hnone |]).
    + split; [done |]. intros m [= <-].
      rewrite app_nil_r, set_owners_same. split; [done | apply elem_of_unfocus].
    + split; [done |]. intros m [= <-].
      rewrite app_nil_r, set_owners_same. split; [done | apply elem_of_unfocus].
    + split; [eexists; apply (elem_of_unfocus (refocus f1 _)) |]. intros m [= <-].
      split; [done |]. apply (elem_of_unfocus (refocus f1 _)).
    + split; [done |]. done.
Qed.

Lemma app_cons_not_nil {A} (l : list A) x t : l ≠ l ++ x :: t.
Proof.
  intros Heq. apply (f_equal length) in Heq. rewrite length_app in Heq. simpl in Heq. lia.
Qed.

Lemma imports_first config overwrite w uuid f :
  dict_lookup "uuid" config = Some uuid →
  first (select (has_uuid uuid) (session w)) = Some f →
  imports config overwrite w → overwrite = true.
Proof.
  intros Hu Hf [-> | Hnone]; [done |]. by rewrite (Hnone uuid Hu) in Hf.
Qed.

(** The two ways of an import: it ends before the mapper is called, with
    the world as it was; or it encodes the configuration, calls the
    mapper and goes on with the object it gives. *)
Lemma import_datamanage_cases g config overwrite force_data w :
  ((import_datamanage g config overwrite force_data w).2 = w ∧
   ((∃ e, (import_datamanage g config overwrite force_data w).1 = Raise e) ∨
    ¬ imports config overwrite w)) ∨
  ∃ uuid encoded,
    dict_lookup "uuid" config = Some uuid ∧
    imports config overwrite w ∧
    encode_json_fields
      (match first (select (has_uuid uuid) (session w)) with
       | Some f => dict_set "id" (value_of_id (SqlaTable.id (obj f))) config
       | None => config
       end) = Ok encoded ∧
    import_datamanage g config overwrite force_data w =
      match (match import_from_dict (session w) encoded (sync_list overwrite) with
             | Raise MultipleResultsFound => one (select (has_uuid uuid) (session w))
             | r => r
             end) with
      | Raise e => (Raise e, emit (EvImportFromDict encoded (sync_list overwrite)) w)
      | Ok f => finish_import g (dict_get "data" encoded) force_data f
                  (emit (EvImportFromDict encoded (sync_list overwrite)) w)
      end.
Proof.
  unfold import_datamanage. simpl.
  destruct (dict_lookup "uuid" config) as [uuid|] eqn:Huuid; [| left; eauto].
  destruct (first (select (has_uuid uuid) (session w))) as [f|] eqn:Hfirst.
  - destruct overwrite.
    + destruct (encode_json_fields _) as [encoded|e] eqn:Henc; [| left; eauto].
      right. exists uuid, encoded. rewrite Hfirst. repeat (split; [done || by left |]). done.
    + left. split; [done |]. right. intros Himp.
      by pose proof (imports_first _ _ _ _ _ Huuid Hfirst Himp).
  - assert (Himp : imports config overwrite w).
    { right. intros uuid' Hu. rewrite Huuid in Hu. injection Hu as <-.
      unfold first in Hfirst. by destruct (select _ _). }
    destruct (encode_json_fields config) as [encoded|e] eqn:Henc.
    + right. exists uuid, encoded. rewrite Hfirst. repeat (split; [done |]).
      unfold sync_list in *. by destruct overwrite.
    + left. destruct overwrite; eauto.
Qed.

Lemma table_missing_owners m os :
  table_missing (SqlaTable.set_owners m os) ↔ table_missing m.
Proof. done. Qed.

Lemma lookup_data_encoded config encoded (existing : option focus) :
  encode_json_fields
    (match existing with
     | Some f => dict_set "id" (value_of_id (SqlaTable.id (obj f))) config
     | None => config
     end) = Ok encoded →
  ∀ k, k ∉ "id" :: JSON_KEYS ++ ["metrics"; "columns"] →
       dict_lookup k encoded = dict_lookup k config.
Proof.
  intros Henc k Hk.
  rewrite (encode_json_fields_lookup _ _ k Henc) by set_solver.
  destruct existing; [|done]. apply lookup_dict_set_ne. set_solver.
Qed.

(** X9. The mapper is called at most once, before anything else is done,
    and only when the import does not stop at a stored row; it is given
    the [sync] list of the [overwrite] flag and the encoded
    configuration, whose [id] is the identifier of the stored row with
    the uuid, if there is one, whatever the configuration says. A
    successful import that did not stop at a stored row has called it. *)
Theorem import_datamanage_mapper_call (g : g_user) (config : dict)
  (overwrite force_data : bool) (w : World) :
  ∃ new,
    events (import_datamanage g config overwrite force_data w).2 = events w ++ new ∧
    (∀ encoded sync, EvImportFromDict encoded sync ∈ new →
       (∃ tail, new = EvImportFromDict encoded sync :: tail ∧ no_import tail) ∧
       imports config overwrite w ∧
       sync = sync_list overwrite ∧
       (∀ k, k ∉ "id" :: JSON_KEYS ++ ["metrics"; "columns"] →
             dict_lookup k encoded = dict_lookup k config) ∧
       (∀ uuid, dict_lookup "uuid" config = Some uuid →
          dict_lookup "id" encoded =
          match first (select (has_uuid uuid) (session w)) with
          | Some f => Some (value_of_id (SqlaTable.id (obj f)))
          | None => dict_lookup "id" config
          end)) ∧
    (∀ m, (import_datamanage g config overwrite force_data w).1 = Ok m →
          imports config overwrite w →
          ∃ encoded, EvImportFromDict encoded (sync_list overwrite) ∈ new).
Proof.
  destruct (import_datamanage_cases g config overwrite force_data w)
    as [[Hw Hend] | (uuid & encoded & Huuid & Himp & Henc & ->)].
  { exists []. rewrite Hw, app_nil_r. split; [done |]. split.
    - intros encoded sync Hin. by apply elem_of_nil in Hin.
    - intros m Hm Himp. destruct Hend as [[e He] | Hnot]; [congruence | done]. }
  set (ev := EvImportFromDict encoded (sync_list overwrite)).
  assert (Hcall : ∀ tail, no_import tail →
    ∀ encoded0 sync, EvImportFromDict encoded0 sync ∈ ev :: tail →
       (∃ tail0, ev :: tail = EvImportFromDict encoded0 sync :: tail0 ∧ no_import tail0) ∧
       imports config overwrite w ∧
       sync = sync_list overwrite ∧
       (∀ k, k ∉ "id" :: JSON_KEYS ++ ["metrics"; "columns"] →
             dict_lookup k encoded0 = dict_lookup k config) ∧
       (∀ uuid, dict_lookup "uuid" config = Some uuid →
          dict_lookup "id" encoded0 =
          match first (select (has_uuid uuid) (session w)) with
          | Some f => Some (value_of_id (SqlaTable.id (obj f)))
          | None => dict_lookup "id" config
          end)).
  { intros tail Hno encoded0 sync Hin.
    apply elem_of_cons in Hin as [Hin | Hin]; [| by apply Hno in Hin].
    injection Hin as -> ->. split; [eauto |]. split; [done |]. split; [done |].
    split; [by apply (lookup_data_encoded _ _ _ Henc) |].
    intros uuid' Hu. rewrite Huuid in Hu. injection Hu as <-.
    rewrite (encode_json_fields_lookup _ _ "id" Henc)
      by (intros Hin; repeat (apply elem_of_cons in Hin as [Hin | Hin]; [discriminate Hin |]);
          by apply elem_of_nil in Hin).
    destruct (first _); [apply lookup_dict_set | done]. }
  destruct (match import_from_dict (session w) encoded (sync_list overwrite) with
            | Raise MultipleResultsFound => one (select (has_uuid uuid) (session w))
            | r => r
            end) as [f|e].
  - destruct (finish_import_result g (dict_get "data" encoded) force_data f (emit ev w))
      as (m1 & new & _ & _ & Hev & Hno & _).
    exists (ev :: new). simpl in Hev. rewrite <- app_assoc in Hev.
    split; [exact Hev |]. split; [by apply Hcall |].
    intros m _ _. exists encoded. by left.
  - exists [ev]. split; [done |]. split; [apply Hcall, no_import_nil |].
    intros m _ _. exists encoded. by left.
Qed.

(** X10. The data of a dataset is downloaded only from the [data] field of
    the configuration, a text that is not empty, only by an import that
    does not stop at a stored row, and only when the download is forced
    or the engine reports that the table is missing; an engine that
    cannot be inspected counts as having the table. An import that
    returns has downloaded the data exactly in that case. *)
Theorem import_datamanage_download (g : g_user) (config : dict)
  (overwrite force_data : bool) (w : World) :
  ∃ new,
    events (import_datamanage g config overwrite force_data w).2 = events w ++ new ∧
    (∀ uri, EvUrlopen uri ∈ new →
       dict_get "data" config = VStr uri ∧ uri ≠ EmptyString ∧
       imports config overwrite w ∧
       (force_data = true ∨
        ∃ m, m ∈ pending (session (import_datamanage g config overwrite force_data w).2) ∧
             table_missing m)) ∧
    (∀ m uri, (import_datamanage g config overwrite force_data w).1 = Ok m →
       imports config overwrite w →
       dict_get "data" config = VStr uri → uri ≠ EmptyString →
       (EvUrlopen uri ∈ new ↔ force_data = true ∨ table_missing m)).
Proof.
  destruct (import_datamanage_cases g config overwrite force_data w)
    as [[Hw Hend] | (uuid & encoded & Huuid & Himp & Henc & ->)].
  { exists []. rewrite Hw, app_nil_r. split; [done |]. split.
    - intros uri Hin. by apply elem_of_nil in Hin.
    - intros m uri Hm Himp. destruct Hend as [[e He] | Hnot]; [congruence | done]. }
  assert (Hdata : dict_get "data" encoded = dict_get "data" config).
  { unfold dict_get. f_equal. apply (lookup_data_encoded _ _ _ Henc).
    intros Hin. repeat (apply elem_of_cons in Hin as [Hin | Hin]; [discriminate Hin |]).
    by apply elem_of_nil in Hin. }
  rewrite Hdata.
  set (ev := EvImportFromDict encoded (sync_list overwrite)).
  destruct (match import_from_dict (session w) encoded (sync_list overwrite) with
            | Raise MultipleResultsFound => one (select (has_uuid uuid) (session w))
            | r => r
            end) as [f|e].
  - destruct (finish_import_result g (dict_get "data" config) force_data f (emit ev w))
      as (m1 & new & _ & _ & Hev & Hno & Hurl & Hthere & [os Hstored] & Hm).
    exists (ev :: new). simpl in Hev. rewrite <- app_assoc in Hev.
    split; [exact Hev |]. split.
    + intros uri Hin. apply elem_of_cons in Hin as [Hin | Hin]; [discriminate Hin |].
      destruct (Hurl uri Hin) as (Hd & Hne & Hor). repeat (split; [done |]).
      destruct Hor as [Hf | Hmiss]; [by left |]. right.
      exists (SqlaTable.set_owners m1 os). split; [exact Hstored |].
      by apply table_missing_owners.
    + intros m uri Hr _ Hd Hne. destruct (Hm m Hr) as [-> _].
      rewrite table_missing_owners. split.
      * intros Hin. apply elem_of_cons in Hin as [Hin | Hin]; [discriminate Hin |].
        by apply Hurl in Hin as (_ & _ & Hor).
      * intros Hor. right. by apply (Hthere uri _ Hr).
  - exists [ev]. split; [done |]. split; [| done].
    intros uri Hin. apply list_elem_of_singleton in Hin. discriminate Hin.
Qed.

(** X11. An import that does not stop at a stored row returns a row of the
    session that has an identifier: the object the mapper gave (or,
    after [MultipleResultsFound], the one stored row with the uuid) with
    its fields, database, columns and metrics, and with the user of the
    request added at the end of its owners, also when that user owns it
    already. *)
Theorem import_datamanage_owner (g : g_user) (config : dict)
  (overwrite force_data : bool) (w : World) (m : SqlaTable.t) :
  imports config overwrite w →
  (import_datamanage g config overwrite force_data w).1 = Ok m →
  m ∈ pending (session (import_datamanage g config overwrite force_data w).2) ∧
  is_Some (SqlaTable.id m) ∧
  ∃ encoded f,
    (import_from_dict (session w) encoded (sync_list overwrite) = Ok f ∨
     import_from_dict (session w) encoded (sync_list overwrite) = Raise MultipleResultsFound ∧
     ∃ uuid, dict_lookup "uuid" config = Some uuid ∧
             select (has_uuid uuid) (session w) = [f]) ∧
    SqlaTable.owners m = SqlaTable.owners (obj f) ++ importing_user g ∧
    SqlaTable.fields m = SqlaTable.fields (obj f) ∧
    SqlaTable.database m = SqlaTable.database (obj f) ∧
    SqlaTable.columns m = SqlaTable.columns (obj f) ∧
    SqlaTable.metrics m = SqlaTable.metrics (obj f).
Proof.
  intros Himp.
  destruct (import_datamanage_cases g config overwrite force_data w)
    as [[Hw [[e He] | Hnot]] | (uuid & encoded & Huuid & _ & Henc & ->)];
    [congruence | done |].
  set (imported := match import_from_dict (session w) encoded (sync_list overwrite) with
                   | Raise MultipleResultsFound => one (select (has_uuid uuid) (session w))
                   | r => r
                   end).
  assert (Hf : ∀ f, imported = Ok f →
            import_from_dict (session w) encoded (sync_list overwrite) = Ok f ∨
            import_from_dict (session w) encoded (sync_list overwrite)
              = Raise MultipleResultsFound ∧
            ∃ uuid, dict_lookup "uuid" config = Some uuid ∧
                    select (has_uuid uuid) (session w) = [f]).
  { subst imported. intros f.
    destruct (import_from_dict _ _ _) as [f'|e]; [by left |].
    destruct e; try done. intros Hone. right. split; [done |]. exists uuid. split; [done |].
    unfold one in Hone. destruct (select _ _) as [|f1 [|f2 rest]]; try done.
    by injection Hone as ->. }
  destruct imported as [f|e]; [| done].
  destruct (finish_import_result g (dict_get "data" encoded) force_data f
              (emit (EvImportFromDict encoded (sync_list overwrite)) w))
    as (m1 & new & Hm1 & Hid & _ & _ & _ & _ & _ & Hm).
  intros Hr. destruct (Hm m Hr) as [-> Hin]. split; [exact Hin |]. split; [exact Hid |].
  exists encoded, f. split; [by apply Hf |].
  destruct Hm1 as [-> | (i & _ & ->)]; done.
Qed.

(** X12. When the mapper answers an import with [MultipleResultsFound], the
    import looks for the one row with the uuid: with no such row (the
    conflict is with a row of another uuid) it raises [NoResultFound],
    with several it raises [MultipleResultsFound], in both cases leaving
    the session alone; with exactly one it goes on with that row,
    unmodified but for the owner it adds. *)
Theorem import_datamanage_conflict (g : g_user) (config : dict)
  (overwrite force_data : bool) (w : World) (uuid : value) (encoded : dict)
  (sync : list string) (tail : list event) :
  dict_lookup "uuid" config = Some uuid →
  events (import_datamanage g config overwrite force_data w).2
    = events w ++ EvImportFromDict encoded sync :: tail →
  import_from_dict (session w) encoded sync = Raise MultipleResultsFound →
  (select (has_uuid uuid) (session w) = [] →
     import_datamanage g config overwrite force_data w
       = (Raise NoResultFound, emit (EvImportFromDict encoded sync) w)) ∧
  (∀ f f' rest, select (has_uuid uuid) (session w) = f :: f' :: rest →
     import_datamanage g config overwrite force_data w
       = (Raise MultipleResultsFound, emit (EvImportFromDict encoded sync) w)) ∧
  (∀ f m, select (has_uuid uuid) (session w) = [f] →
     (import_datamanage g config overwrite force_data w).1 = Ok m →
     SqlaTable.fields m = SqlaTable.fields (obj f) ∧
     SqlaTable.database m = SqlaTable.database (obj f) ∧
     SqlaTable.columns m = SqlaTable.columns (obj f) ∧
     SqlaTable.metrics m = SqlaTable.metrics (obj f) ∧
     SqlaTable.owners m = SqlaTable.owners (obj f) ++ importing_user g).
Proof.
  intros Huuid.
  destruct (import_datamanage_cases g config overwrite force_data w)
    as [[Hw _] | (uuid' & encoded' & Huuid' & _ & _ & Heq)].
  { rewrite Hw. intros Hev. by apply app_cons_not_nil in Hev. }
  rewrite Huuid in Huuid'. injection Huuid' as <-. rewrite Heq. clear Heq.
  set (ev := EvImportFromDict encoded' (sync_list overwrite)).
  intros Hev Hraise.
  assert (Hevent : EvImportFromDict encoded sync = ev).
  { destruct (match import_from_dict (session w) encoded' (sync_list overwrite) with
              | Raise MultipleResultsFound => one (select (has_uuid uuid) (session w))
              | r => r
              end) as [f|e].
    - destruct (finish_import_result g (dict_get "data" encoded') force_data f (emit ev w))
        as (m1 & new & _ & _ & Hev' & _).
      rewrite Hev in Hev'. simpl in Hev'. rewrite <- app_assoc in Hev'.
      apply app_inv_head in Hev'. simpl in Hev'. subst ev. congruence.
    - simpl in Hev. apply app_inv_head in Hev. subst ev. congruence. }
  injection Hevent as -> ->. fold ev. fold ev in Hev. rewrite Hraise in *.
  split; [| split].
  - by intros ->.
  - by intros f f' rest ->.
  - intros f m ->. cbn [one].
    destruct (finish_import_result g (dict_get "data" encoded') force_data f (emit ev w))
      as (m1 & new & Hm1 & _ & _ & _ & _ & _ & _ & Hm).
    intros Hr. destruct (Hm m Hr) as [-> _].
    destruct Hm1 as [-> | (i & _ & ->)]; done.
Qed.

End ImportSteps.

(** ** Synchronization of columns and metrics on overwrite *)

Section Synchronization.
Import Utils.
Context `{Json} `{Platform}.
Variable databases : list Database.t.






End Synchronization.


Lemma import_datamanage_owner_witness :
  ∃ m,
    (Utils.import_datamanage (H := InMemory.json) (H0 := InMemory.platform InMemory.web)
       (H1 := InMemory.mixin [InMemory.examples])
       (GUser InMemory.alice) InMemory.reimport true false InMemory.world).1 = Ok m ∧
    SqlaTable.owners m = [InMemory.alice; InMemory.alice] ∧
    is_Some (SqlaTable.id m).
Proof.
  destruct (Utils.import_datamanage (H := InMemory.json)
              (H0 := InMemory.platform InMemory.web)
              (H1 := InMemory.mixin [InMemory.examples])
              (GUser InMemory.alice) InMemory.reimport true false InMemory.world).1
    as [m|e] eqn:Hr; [| vm_compute in Hr; discriminate Hr].
  exists m. split; [reflexivity |].
  pose proof (@import_datamanage_owner InMemory.json (InMemory.platform InMemory.web)
                (InMemory.mixin [InMemory.examples]) (GUser InMemory.alice)
                InMemory.reimport true false InMemory.world m (or_introl eq_refl) Hr)
    as (_ & Hid & _).
  split; [| exact Hid].
  vm_compute in Hr. injection Hr as <-. reflexivity.
Defined.

Lemma import_datamanage_conflict_witness :
  (Utils.import_datamanage (H := InMemory.json) (H0 := InMemory.platform InMemory.web)
     (H1 := InMemory.mixin [InMemory.examples])
     (GUser InMemory.bob) schema_fix true false fixed_schema).1
  = Ok (SqlaTable.set_owners InMemory.birth_names [InMemory.alice; InMemory.bob]) ∧
  SqlaTable.fields (SqlaTable.set_owners InMemory.birth_names [InMemory.alice; InMemory.bob])
  = SqlaTable.fields InMemory.birth_names.
Proof.
  assert (Hr : (Utils.import_datamanage (H := InMemory.json)
                  (H0 := InMemory.platform InMemory.web)
                  (H1 := InMemory.mixin [InMemory.examples])
                  (GUser InMemory.bob) schema_fix true false fixed_schema).1
               = Ok (SqlaTable.set_owners InMemory.birth_names
                       [InMemory.alice; InMemory.bob])).
  { vm_compute. reflexivity. }
  split; [exact Hr |].
  refine (proj1 (proj2 (proj2 (@import_datamanage_conflict InMemory.json
            (InMemory.platform InMemory.web) (InMemory.mixin [InMemory.examples])
            (GUser InMemory.bob) schema_fix true false fixed_schema
            (VStr "14f48794-ebfa-4f60-a26a-582c49132f1b")
            (schema_fix ++ [("id", VInt 7)]) ["columns"; "metrics"] [] _ _ _))
            {| before := []; obj := InMemory.birth_names; after := [public_birth_names] |}
            (SqlaTable.set_owners InMemory.birth_names [InMemory.alice; InMemory.bob])
            _ Hr));
    vm_compute; reflexivity.
Defined.

Example conflict_returns_the_stored_row :
  (Utils.import_datamanage (H := InMemory.json) (H0 := InMemory.platform InMemory.web)
     (H1 := InMemory.mixin [InMemory.examples])
     (GUser InMemory.bob) schema_fix true false fixed_schema).1
  = Ok (SqlaTable.set_owners InMemory.birth_names [InMemory.alice; InMemory.bob]).
Proof. vm_compute. reflexivity. Qed.

(** ** The checks of an update ([validate], [_validate_columns],
    [_validate_metrics]) *)

Section UpdateChecks.
Import UpdateDatamanageCommand.
Context `{Backend} `{SecurityManager} `{UpdateMixin} `{DatamanageDAO.Checks}.

Lemma mapM_subscript_missing items key d :
  (∀ item, item ∈ items → ∃ d', item = VDict d') →
  VDict d ∈ items → dict_lookup key d = None →
  mapM (fun item => subscript item key) items = Raise (KeyError key).
Proof.
  induction items as [|item items IH]; intros Hrec Hin Hd.
  - by apply elem_of_nil in Hin.
  - destruct (Hrec item) as [d' ->]; [by left |]. cbn [mapM subscript].
    destruct (dict_lookup key d') as [v|] eqn:Hv; [|done]. cbn [bind].
    rewrite IH; [done | | | done].
    + intros i Hi. apply Hrec. by right.
    + apply elem_of_cons in Hin as [[= ->] | Hin]; [congruence | done].
Qed.

Lemma _get_duplicates_missing items key d :
  (∀ item, item ∈ items → ∃ d', item = VDict d') →
  VDict d ∈ items → dict_lookup key d = None →
  _get_duplicates (VList items) key = Raise (KeyError key).
Proof.
  intros Hrec Hin Hd. unfold _get_duplicates. cbn [iter_values bind].
  by rewrite (mapM_subscript_missing _ _ _ Hrec Hin Hd).
Qed.

Lemma dict_get_set_ne k k' v d : k ≠ k' → dict_get k (dict_set k' v d) = dict_get k d.
Proof. intros Hne. unfold dict_get. by rewrite lookup_dict_set_ne. Qed.

(** X13. A column without [column_name] in the payload of an update ends
    [validate] with the [KeyError] of Python, not with a
    [DatamanageInvalidError]: the errors collected before it are lost. The
    session is left alone. *)
Theorem validate_nameless_column (self : t) (g : g_user) (s : Session)
  (model : SqlaTable.t) (items : list value) (d : dict) :
  DatamanageDAO.find_by_id s (_model_id self) = Some model →
  raise_for_ownership g model = false →
  dict_get "columns" (_properties self) = VList items →
  (∀ item, item ∈ items → ∃ d', item = VDict d') →
  VDict d ∈ items → dict_lookup "column_name" d = None →
  validate self g s = Raise (KeyError "column_name") ∧
  run self g s = (Raise (KeyError "column_name"), s).
Proof.
  intros Hfind Hown Hcols Hrec Hin Hd.
  assert (Hv : validate self g s = Raise (KeyError "column_name")).
  { unfold validate. rewrite Hfind, Hown.
    assert (Ht : truthy (VList items) = true).
    { destruct items; [by apply elem_of_nil in Hin | done]. }
    destruct (populate_owners g _); cbv zeta beta iota;
      rewrite ?dict_get_set_ne by discriminate; rewrite Hcols, Ht;
      unfold _validate_columns;
      by rewrite (_get_duplicates_missing _ _ _ Hrec Hin Hd). }
  split; [done |]. unfold run. by rewrite Hv.
Qed.

Lemma select_items_picked with_id key (records : list dict) :
  (∀ d, d ∈ records →
        Bool.eqb (bool_decide (is_Some (dict_lookup "id" d))) with_id = true →
        is_Some (dict_lookup key d)) →
  select_items with_id key (map VDict records) = Ok (picked with_id key records).
Proof.
  unfold picked. induction records as [|d records IH]; intros Hkey; [done |].
  cbn [map select_items contains_key bind List.filter].
  rewrite IH by (intros d' Hd'; apply Hkey; by right).
  destruct (Bool.eqb _ with_id) eqn:Hid; [|done].
  destruct (Hkey d) as [v Hv]; [by left | done |].
  cbn [subscript map bind]. rewrite Hv. cbn [bind]. unfold dict_get at 2. by rewrite Hv.
Qed.

Lemma mapM_subscript_records key (records : list dict) names :
  mapM (fun item => subscript item key) (map VDict records) = Ok names →
  ∀ d, d ∈ records → is_Some (dict_lookup key d).
Proof.
  revert names. induction records as [|d records IH]; intros names; simpl.
  - intros _ d Hd. by apply elem_of_nil in Hd.
  - destruct (dict_lookup key d) as [v|] eqn:Hv; [|done]. cbn [bind].
    destruct (mapM _ _) as [vs|]; [|done]. intros _ d' Hd'.
    apply elem_of_cons in Hd' as [-> | Hd']; [by rewrite Hv | by apply (IH vs)].
Qed.

(** X14. What [_validate_columns] and [_validate_metrics] check on a list
    of records. With a name that occurs twice they report the duplicate
    and nothing else. Without one, they ask the data-access layer whether
    the identifiers of the records that carry an [id] belong to the
    dataset, and whether the names of the records without [id] are free;
    for the columns the second question is not asked when
    [override_columns] is set, for the metrics it always is. *)
Theorem validate_children_checks (self : t) (s : Session) (records : list dict)
  (exceptions : list validation_error) :
  (∀ dups, _get_duplicates (VList (map VDict records)) "column_name" = Ok dups →
     _validate_columns self s (VList (map VDict records)) exceptions =
     Ok (exceptions ++
         match dups with
         | _ :: _ => [DatamanageColumnsDuplicateValidationError]
         | [] =>
             (if DatamanageDAO.validate_columns_exist s (_model_id self)
                   (picked true "id" records)
              then [] else [DatamanageColumnNotFoundValidationError]) ++
             (if override_columns self
                 || DatamanageDAO.validate_columns_uniqueness s (_model_id self)
                      (picked false "column_name" records)
              then [] else [DatamanageColumnsExistsValidationError])
         end)) ∧
  (∀ dups, _get_duplicates (VList (map VDict records)) "metric_name" = Ok dups →
     _validate_metrics self s (VList (map VDict records)) exceptions =
     Ok (exceptions ++
         match dups with
         | _ :: _ => [DatamanageMetricsDuplicateValidationError]
         | [] =>
             (if DatamanageDAO.validate_metrics_exist s (_model_id self)
                   (picked true "id" records)
              then [] else [DatamanageMetricsNotFoundValidationError]) ++
             (if DatamanageDAO.validate_metrics_uniqueness s (_model_id self)
                   (picked false "metric_name" records)
              then [] else [DatamanageMetricsExistsValidationError])
         end)).
Proof.
  assert (Hids : select_items true "id" (map VDict records)
                 = Ok (picked true "id" records)).
  { apply select_items_picked. intros d _ Hid. apply Bool.eqb_prop in Hid.
    by apply bool_decide_eq_true in Hid. }
  assert (Hnames : ∀ key dups,
            _get_duplicates (VList (map VDict records)) key = Ok dups →
            select_items false key (map VDict records) = Ok (picked false key records)).
  { intros key dups Hd. apply _get_duplicates_Ok in Hd as (names & c & Hn & _).
    apply select_items_picked. intros d Hd _.
    by apply (mapM_subscript_records _ _ _ Hn). }
  split; intros dups Hd.
  - unfold _validate_columns. rewrite Hd. cbn [bind iter_values].
    destruct dups as [|d dups]; [|done].
    rewrite Hids. cbn [bind]. rewrite append_unless_app.
    destruct (override_columns self); cbn [orb].
    + by rewrite app_nil_r.
    + rewrite (Hnames _ _ Hd). cbn [bind]. by rewrite append_unless_app, <- app_assoc.
  - unfold _validate_metrics. rewrite Hd. cbn [bind iter_values].
    destruct dups as [|d dups]; [|done].
    rewrite Hids. cbn [bind]. rewrite (Hnames _ _ Hd). cbn [bind].
    by rewrite !append_unless_app, <- app_assoc.
Qed.

Lemma _validate_columns_added self s columns exceptions exceptions' :
  _validate_columns self s columns exceptions = Ok exceptions' →
  ∃ added, exceptions' = exceptions ++ added ∧ ∀ e, e ∈ added → e ∈ column_errors.
Proof.
  unfold _validate_columns, column_errors.
  destruct (_get_duplicates columns "column_name") as [[|d dups]|e]; cbn [bind]; [| |done].
  - destruct (iter_values columns) as [items|e]; cbn [bind]; [|done].
    destruct (select_items true "id" items) as [ids|e]; cbn [bind]; [|done].
    rewrite append_unless_app.
    destruct (override_columns self).
    + intros [= <-]. eexists. split; [reflexivity |].
      intros e. destruct (DatamanageDAO.validate_columns_exist _ _ _); set_solver.
    + destruct (select_items false "column_name" items) as [ns|e]; cbn [bind]; [|done].
      rewrite append_unless_app, <- app_assoc. intros [= <-].
      eexists. split; [reflexivity |]. intros e.
      destruct (DatamanageDAO.validate_columns_exist _ _ _),
               (DatamanageDAO.validate_columns_uniqueness _ _ _); set_solver.
  - intros [= <-]. eexists. split; [reflexivity |]. set_solver.
Qed.

Lemma _validate_metrics_added self s metrics exceptions exceptions' :
  _validate_metrics self s metrics exceptions = Ok exceptions' →
  ∃ added, exceptions' = exceptions ++ added ∧ ∀ e, e ∈ added → e ∈ metric_errors.
Proof.
  unfold _validate_metrics, metric_errors.
  destruct (_get_duplicates metrics "metric_name") as [[|d dups]|e]; cbn [bind]; [| |done].
  - destruct (iter_values metrics) as [items|e]; cbn [bind]; [|done].
    destruct (select_items true "id" items) as [ids|e]; cbn [bind]; [|done].
    destruct (select_items false "metric_name" items) as [ns|e]; cbn [bind]; [|done].
    rewrite !append_unless_app, <- app_assoc. intros [= <-].
    eexists. split; [reflexivity |]. intros e.
    destruct (DatamanageDAO.validate_metrics_exist _ _ _),
             (DatamanageDAO.validate_metrics_uniqueness _ _ _); set_solver.
  - intros [= <-]. eexists. split; [reflexivity |]. set_solver.
Qed.

(** The end of [validate], from the errors [exceptions] collected so
    far and the properties [properties]. *)
Lemma validate_children self s model properties exceptions r :
  (exceptions1 <~ (if truthy (dict_get "columns" properties)
                   then _validate_columns self s (dict_get "columns" properties) exceptions
                   else Ok exceptions) ;;
   exceptions2 <~ (if truthy (dict_get "metrics" properties)
                   then _validate_metrics self s (dict_get "metrics" properties) exceptions1
                   else Ok exceptions1) ;;
   match exceptions2 with
   | _ :: _ => Raise (DatamanageInvalidError exceptions2)
   | [] => Ok {| _model_id := _model_id self; _properties := properties;
                 _model := Some model; override_columns := override_columns self |}
   end) = r →
  (∀ errors, r = Raise (DatamanageInvalidError errors) →
     errors ≠ [] ∧
     ∃ cols mets,
       errors = exceptions ++ cols ++ mets ∧
       (∀ e, e ∈ cols → e ∈ column_errors) ∧
       (∀ e, e ∈ mets → e ∈ metric_errors) ∧
       (truthy (dict_get "columns" properties) = false → cols = []) ∧
       (truthy (dict_get "metrics" properties) = false → mets = [])) ∧
  (∀ c, r = Ok c →
     exceptions = [] ∧
     c = {| _model_id := _model_id self; _properties := properties;
            _model := Some model; override_columns := override_columns self |}).
Proof.
  set (columns := dict_get "columns" properties).
  set (metrics := dict_get "metrics" properties).
  assert (Hc : ∀ r1,
    (if truthy columns then _validate_columns self s columns exceptions else Ok exceptions)
      = r1 →
    match r1 with
    | Ok exceptions1 =>
        ∃ cols, exceptions1 = exceptions ++ cols ∧ (∀ e, e ∈ cols → e ∈ column_errors) ∧
                (truthy columns = false → cols = [])
    | Raise e => ∀ errors, e ≠ DatamanageInvalidError errors
    end).
  { intros r1 <-. destruct (truthy columns).
    - pose proof (_validate_columns_result self s columns exceptions) as Hres.
      destruct (_validate_columns self s columns exceptions) as [E1|e] eqn:Hv.
      + apply _validate_columns_added in Hv as (cols & -> & Hcols). by exists cols.
      + intros errors ->. done.
    - exists []. rewrite app_nil_r. split; [done |]. split; [|done].
      intros e He. by apply elem_of_nil in He. }
  assert (Hm : ∀ exceptions1 r2,
    (if truthy metrics then _validate_metrics self s metrics exceptions1 else Ok exceptions1)
      = r2 →
    match r2 with
    | Ok exceptions2 =>
        ∃ mets, exceptions2 = exceptions1 ++ mets ∧ (∀ e, e ∈ mets → e ∈ metric_errors) ∧
                (truthy metrics = false → mets = [])
    | Raise e => ∀ errors, e ≠ DatamanageInvalidError errors
    end).
  { intros exceptions1 r2 <-. destruct (truthy metrics).
    - pose proof (_validate_metrics_result self s metrics exceptions1) as Hres.
      destruct (_validate_metrics self s metrics exceptions1) as [E2|e] eqn:Hv.
      + apply _validate_metrics_added in Hv as (mets & -> & Hmets). by exists mets.
      + intros errors ->. done.
    - exists []. rewrite app_nil_r. split; [done |]. split; [|done].
      intros e He. by apply elem_of_nil in He. }
  specialize (Hc _ eq_refl).
  destruct (if truthy columns then _ else _) as [exceptions1|e1]; cbn [bind].
  2:{ intros <-. split; [| done]. intros errors [= ->]. by destruct (Hc errors). }
  destruct Hc as (cols & -> & Hcols & Hnocols).
  specialize (Hm (exceptions ++ cols) _ eq_refl).
  destruct (if truthy metrics then _ else _) as [exceptions2|e2]; cbn [bind].
  2:{ intros <-. split; [| done]. intros errors [= ->]. by destruct (Hm errors). }
  destruct Hm as (mets & -> & Hmets & Hnomets).
  destruct ((exceptions ++ cols) ++ mets) as [|e errors0] eqn:Herrors; intros <-.
  - split; [done |]. intros c [= <-]. split; [|done].
    apply app_eq_nil in Herrors as [Herrors _]. by apply app_eq_nil in Herrors as [-> _].
  - split; [|done]. intros errors [= <-]. split; [done |].
    exists cols, mets. by rewrite <- Herrors, app_assoc.
Qed.

(** X15. [validate] collects the errors of all its checks before it raises:
    its [DatamanageInvalidError] lists, in this order, the error of the
    table name when it is taken, the error of the [database] field when
    it is truthy, the error of the owners when they cannot be populated,
    then the errors of the columns and those of the metrics. It returns
    only when no check failed, with the model and with the owners
    populated in the properties. *)
Theorem validate_collects (self : t) (g : g_user) (s : Session) (model : SqlaTable.t) :
  DatamanageDAO.find_by_id s (_model_id self) = Some model →
  raise_for_ownership g model = false →
  let table_name := dict_get "table_name" (_properties self) in
  let own :=
    (if DatamanageDAO.validate_update_uniqueness s (SqlaTable.database_id model)
          (_model_id self) table_name
     then [] else [DatamanageExistsValidationError table_name]) ++
    (if truthy (dict_get "database" (_properties self))
     then [DatabaseChangeValidationError] else []) ++
    (match populate_owners g (dict_get "owners" (_properties self)) with
     | Some _ => []
     | None => [OwnersValidationError]
     end) in
  (∀ errors, validate self g s = Raise (DatamanageInvalidError errors) →
     errors ≠ [] ∧
     ∃ cols mets,
       errors = own ++ cols ++ mets ∧
       (∀ e, e ∈ cols → e ∈ column_errors) ∧
       (∀ e, e ∈ mets → e ∈ metric_errors) ∧
       (truthy (dict_get "columns" (_properties self)) = false → cols = []) ∧
       (truthy (dict_get "metrics" (_properties self)) = false → mets = [])) ∧
  (∀ c, validate self g s = Ok c →
     own = [] ∧ _model c = Some model ∧ _model_id c = _model_id self ∧
     ∃ owners,
       populate_owners g (dict_get "owners" (_properties self)) = Some owners ∧
       _properties c = dict_set "owners" (VList (map (fun u => VObj (User.id u)) owners))
                                (_properties self)).
Proof.
  intros Hfind Hown table_name own. unfold validate. rewrite Hfind, Hown.
  cbv zeta. unfold differs_from_model. rewrite andb_true_r, append_unless_app, app_nil_l.
  fold table_name.
  destruct (populate_owners g (dict_get "owners" (_properties self))) as [owners|] eqn:Hpo;
    cbv beta iota.
  - match goal with |- context [_validate_columns self s _ ?E] =>
      assert (Hown_eq : E = own) end.
    { subst own. rewrite app_nil_r. destruct (truthy _); by rewrite ?app_nil_r. }
    rewrite Hown_eq.
    match goal with |- (∀ errors, ?v = _ → _) ∧ _ =>
      destruct (validate_children self s model _ own v eq_refl) as [Hraise Hok] end.
    split.
    { intros errors He.
      destruct (Hraise errors He) as (Hne & cols & mets & Heq & Hc & Hm & Hnc & Hnm).
      rewrite dict_get_set_ne in Hnc, Hnm by discriminate.
      split; [exact Hne |]. by exists cols, mets. }
    intros c Hc. destruct (Hok c Hc) as [Hnil ->]. split; [done |]. eauto.
  - match goal with |- context [_validate_columns self s _ ?E] =>
      assert (Hown_eq : E = own) end.
    { subst own. destruct (truthy _); by rewrite <- ?app_assoc. }
    rewrite Hown_eq.
    match goal with |- (∀ errors, ?v = _ → _) ∧ _ =>
      destruct (validate_children self s model _ own v eq_refl) as [Hraise Hok] end.
    split; [exact Hraise |].
    intros c Hc. destruct (Hok c Hc) as [Hnil _]. exfalso. subst own.
    apply app_eq_nil in Hnil as [_ Hnil]. by apply app_eq_nil in Hnil as [_ Hnil].
Qed.

End UpdateChecks.

Lemma validate_nameless_column_witness :
  UpdateDatamanageCommand.run
    (H := InMemory.healthy) (H0 := InMemory.owners_only) (H1 := InMemory.owners_by_id)
    (H2 := InMemory.checks)
    (UpdateDatamanageCommand.init 7 nameless_column false)
    (GUser InMemory.alice) InMemory.stored
  = (Raise (KeyError "column_name"), InMemory.stored).
Proof.
  refine (proj2 (@validate_nameless_column
            InMemory.healthy InMemory.owners_only InMemory.owners_by_id InMemory.checks
            (UpdateDatamanageCommand.init 7 nameless_column false)
            (GUser InMemory.alice) InMemory.stored InMemory.birth_names
            [VDict [("id", VInt 1); ("column_name", VStr "ds")];
             VDict [("id", VInt 2); ("type", VStr "TEXT")]]
            [("id", VInt 2); ("type", VStr "TEXT")]
            eq_refl eq_refl eq_refl _ _ eq_refl)).
  - intros item Hin.
    repeat (apply elem_of_cons in Hin as [-> | Hin]; [eauto |]).
    by apply elem_of_nil in Hin.
  - right. left.
Defined.

Lemma validate_collects_witness :
  UpdateDatamanageCommand.validate
    (H0 := InMemory.owners_only) (H1 := InMemory.owners_by_id) (H2 := InMemory.checks)
    (UpdateDatamanageCommand.init 7 InMemory.same_database false)
    (GUser InMemory.alice) InMemory.stored
  = Raise (DatamanageInvalidError [DatabaseChangeValidationError]) ∧
  [DatabaseChangeValidationError] ≠ [].
Proof.
  assert (He : UpdateDatamanageCommand.validate
                 (H0 := InMemory.owners_only) (H1 := InMemory.owners_by_id)
                 (H2 := InMemory.checks)
                 (UpdateDatamanageCommand.init 7 InMemory.same_database false)
                 (GUser InMemory.alice) InMemory.stored
               = Raise (DatamanageInvalidError [DatabaseChangeValidationError])).
  { vm_compute. reflexivity. }
  split; [exact He |].
  exact (proj1 (proj1 (@validate_collects
            InMemory.owners_only InMemory.owners_by_id InMemory.checks
            (UpdateDatamanageCommand.init 7 InMemory.same_database false)
            (GUser InMemory.alice) InMemory.stored InMemory.birth_names
            eq_refl eq_refl) [DatabaseChangeValidationError] He)).
Defined.

Example validate_collects_two_errors :
  UpdateDatamanageCommand.validate
    (H0 := InMemory.owners_only) (H1 := InMemory.owners_by_id) (H2 := InMemory.checks)
    (UpdateDatamanageCommand.init 7
       [("database", VInt 1); ("owners", VStr "alice");
        ("columns", VList [VDict [("column_name", VStr "name")]])] false)
    (GUser InMemory.alice) InMemory.stored
  = Raise (DatamanageInvalidError
             [DatabaseChangeValidationError; OwnersValidationError;
              DatamanageColumnsExistsValidationError]).
Proof. vm_compute. reflexivity. Qed.

(** ** Failures of the delete command ([DeleteDatamanageCommand.run]) *)

Section DeleteFailures.
Import DeleteDatamanageCommand.
Context `{Backend} `{SecurityManager}.



End DeleteFailures.

Example delete_commit_interrupted :
  ∃ s',
    DeleteDatamanageCommand.run
      (H := InMemory.failing OpCommit (Exception "connection lost"))
      (H0 := InMemory.owners_only) 7 (GUser InMemory.alice) InMemory.stored
    = (Raise (Exception "connection lost"), s') ∧
    pending s' = [] ∧ committed s' = [InMemory.birth_names].
Proof. eexists. vm_compute. done. Qed.

Example delete_commit_conflict_is_caught :
  DeleteDatamanageCommand.run
    (H := InMemory.failing OpCommit MultipleResultsFound)
    (H0 := InMemory.owners_only) 7 (GUser InMemory.alice) InMemory.stored
  = (Raise DatamanageDeleteFailedError, InMemory.stored).
Proof. vm_compute. reflexivity. Qed.

(** ** What the exporter decodes and yields ([_export]) *)

Section ExportedFields.
Import ExportDatamanageCommand.
Context `{Json}.











End ExportedFields.

Section ExportedFiles.
Import ExportDatamanageCommand.
Context `{Json} `{ImportExportMixin} `{Environment}.


(** [_export] yields the file of the dataset before it reads the
    database: when the [extra] of the database cannot be decoded, the
    exception ends the export after that file was yielded. *)
Lemma _export_database_failure model payload e :
  decode_json_fields (export_to_dict model) = Ok payload →
  decode_key "extra" (export_database_to_dict (SqlaTable.database model)) = Raise e →
  ∃ file, _export model true = ([file], Some e) ∧ _export model false = ([file], None).
Proof. intros Hp Hd. unfold _export. rewrite Hp, Hd. eauto. Qed.

End ExportedFiles.

